(** * TrackIt: a shallow embedding of the transaction API, the auth service
      and the browser client's request helper.

    The development follows the JavaScript sources:
    - [controllers/transactionController.js] (module [TransactionController]),
    - [models/Transaction.js] and [models/User.js] (module [Schema]),
    - [routes/transactionRoutes.js] (module [TransactionRoutes]),
    - [controllers/authController.js] (module [AuthController]),
    - [frontend/src/utils/api.js] (module [Client]).

    The document store is a list of records in insertion order; every handler
    is a function from the store (and the request) to a response and the next
    store.  Amounts are JavaScript numbers in the source and exact rationals
    here; instants are milliseconds since the epoch. *)

From Stdlib Require Import ZArith QArith List String Ascii Lia Permutation Sorted.
From stdpp Require Import gmap strings list.
Import ListNotations.

Local Open Scope string_scope.
Local Open Scope Z_scope.

(** ** The JavaScript and library built-ins the handlers call.

    They are not code of this repository; the handlers are parameterised by
    them.  [None] stands for [NaN], [Invalid Date] or a pattern that does not
    compile. *)
Class Runtime := {
  parseInt : string -> option Z;
  parseFloat : string -> option Q;
  toNumber : string -> option Q;
  parseDate : string -> option Z;
  (** [new RegExp(p, 'i')] / [{ $regex: p, $options: 'i' }] as a test on strings *)
  regexCompile : string -> option (string -> bool);
  (** [d.setHours(0, 0, 0, 0)] *)
  setHoursZero : Z -> Z;
  (** [d.getDate()], [d.getDay()], [d.setDate(n)], [d.setMonth(0, 1)] *)
  getDate : Z -> Z;
  getDay : Z -> Z;
  setDate : Z -> Z -> Z;
  setMonthJanFirst : Z -> Z;
  (** [d.getFullYear()], [d.setFullYear(y)] *)
  getFullYear : Z -> Z;
  setFullYear : Z -> Z -> Z;
  (** the aggregation operators [$year] and [$month] *)
  yearOf : Z -> Z;
  monthOf : Z -> Z;
  (** [crypto.createHash('sha256').update(s).digest('hex')] *)
  sha256hex : string -> string
}.

(** ** Strings as JavaScript sees them *)
Module JsString.

Definition isSpace (c : ascii) : bool :=
  let n := nat_of_ascii c in
  Nat.eqb n 32 || (Nat.leb 9 n && Nat.leb n 13).

Fixpoint trimStart (s : string) : string :=
  match s with
  | EmptyString => EmptyString
  | String c s' => if isSpace c then trimStart s' else s
  end.

Fixpoint trimEnd (s : string) : string :=
  match s with
  | EmptyString => EmptyString
  | String c s' =>
      let r := trimEnd s' in
      if isSpace c && String.eqb r "" then "" else String c r
  end.

(** [String.prototype.trim], on the ASCII white space *)
Definition trim (s : string) : string := trimEnd (trimStart s).

(** a string in a boolean position: only the empty string is falsy *)
Definition truthy (s : string) : bool := negb (String.eqb s "").

(** an optional string in a boolean position: [undefined] is falsy too *)
Definition truthyOpt (o : option string) : bool :=
  match o with Some s => truthy s | None => false end.

Definition isHexDigit (c : ascii) : bool :=
  let n := nat_of_ascii c in
  (Nat.leb 48 n && Nat.leb n 57) || (Nat.leb 97 n && Nat.leb n 102)
  || (Nat.leb 65 n && Nat.leb n 70).

Definition lowerAscii (c : ascii) : ascii :=
  let n := nat_of_ascii c in
  if Nat.leb 65 n && Nat.leb n 90 then ascii_of_nat (n + 32) else c.

Fixpoint lower (s : string) : string :=
  match s with
  | EmptyString => EmptyString
  | String c s' => String (lowerAscii c) (lower s')
  end.

Fixpoint allChars (p : ascii -> bool) (s : string) : bool :=
  match s with
  | EmptyString => true
  | String c s' => p c && allChars p s'
  end.

End JsString.

(** ** Documents: [models/Transaction.js] and [models/User.js] *)
Module Schema.

(** A cast [ObjectId], kept as its 24 lower-case hexadecimal digits. *)
Inductive ObjectId := Oid (hex : string).

Definition oidHex (o : ObjectId) : string := let 'Oid h := o in h.

Definition oidEqb (a b : ObjectId) : bool := String.eqb (oidHex a) (oidHex b).

(** Mongoose's cast of a string to [ObjectId]: 24 hexadecimal digits, any
    other string raises a [CastError] ([None]).  The 12-byte form older
    drivers also take is left out. *)
Definition castObjectId (s : string) : option ObjectId :=
  if Nat.eqb (String.length s) 24 && JsString.allChars JsString.isHexDigit s
  then Some (Oid (JsString.lower s)) else None.

Inductive TxType := Income | Expense.

Definition typeName (t : TxType) : string :=
  match t with Income => "income" | Expense => "expense" end.

(** [enum: ['income', 'expense']] *)
Definition parseType (s : string) : option TxType :=
  if String.eqb s "income" then Some Income
  else if String.eqb s "expense" then Some Expense else None.

Inductive Interval := Daily | Weekly | Monthly | Yearly.

Definition intervalName (i : Interval) : string :=
  match i with
  | Daily => "daily" | Weekly => "weekly" | Monthly => "monthly" | Yearly => "yearly"
  end.

(** [enum: ['daily', 'weekly', 'monthly', 'yearly']] *)
Definition parseInterval (s : string) : option Interval :=
  if String.eqb s "daily" then Some Daily
  else if String.eqb s "weekly" then Some Weekly
  else if String.eqb s "monthly" then Some Monthly
  else if String.eqb s "yearly" then Some Yearly else None.

Record Attachment := {
  filename : string;
  originalName : string;
  mimeType : string;
  size : Z;
  url : string
}.

(** A stored transaction; [createdAt] and [updatedAt] come from the schema
    option [timestamps: true]. *)
Record Transaction := {
  _id : ObjectId;
  userId : ObjectId;
  type : TxType;
  amount : Q;
  category : string;
  description : option string;
  date : Z;
  tags : list string;
  isRecurring : bool;
  recurringInterval : Interval;
  attachments : list Attachment;
  createdAt : Z;
  updatedAt : Z
}.

(** The fields a request body may carry; [None] is [undefined]. *)
Record Body := {
  b_type : option string;
  b_amount : option Q;
  b_category : option string;
  b_description : option string;
  b_tags : option (list string);
  b_isRecurring : option bool;
  b_recurringInterval : option string;
  b_date : option Z
}.

(** [min: 0.01] together with the validator [v > 0] *)
Definition amountValid (v : Q) : bool := Qle_bool (1 # 100) v && negb (Qle_bool v 0).

(** [required: true, trim: true, maxlength: 50], on the trimmed value *)
Definition categoryValid (c : string) : bool :=
  JsString.truthy c && Nat.leb (String.length c) 50.

(** [maxlength: 200] *)
Definition descriptionValid (d : string) : bool := Nat.leb (String.length d) 200.

(** [maxlength: 20] for every tag *)
Definition tagsValid (ts : list string) : bool :=
  forallb (fun t => Nat.leb (String.length t) 20) ts.

Record User := {
  u_id : ObjectId;
  name : string;
  email : string;
  password : string;
  isActive : bool;
  lastLogin : option Z;
  passwordResetToken : option string;
  passwordResetExpires : option Z;
  emailVerified : bool
}.

End Schema.

(** ** The operations of the document store the handlers rely on *)
Module Store.
Import Schema.

(** a stable insertion sort; [leb a b] says that [a] may stay before [b] *)
Fixpoint insertBy {A} (leb : A -> A -> bool) (x : A) (l : list A) : list A :=
  match l with
  | [] => [x]
  | y :: l' => if leb x y then x :: y :: l' else y :: insertBy leb x l'
  end.

Definition sortBy {A} (leb : A -> A -> bool) (l : list A) : list A :=
  fold_right (insertBy leb) [] l.

(** the keys of a list, each once, in the order of their first occurrence *)
Fixpoint distinct {K} (eqb : K -> K -> bool) (l : list K) : list K :=
  match l with
  | [] => []
  | k :: l' => k :: List.filter (fun k' => negb (eqb k k')) (distinct eqb l')
  end.

(** the [$group] stage: one group per key, with the documents of the group *)
Definition groupBy {A K} (eqb : K -> K -> bool) (key : A -> K) (l : list A)
  : list (K * list A) :=
  map (fun k => (k, List.filter (fun x => eqb k (key x)) l))
      (distinct eqb (map key l)).

Definition qsum (l : list Q) : Q := fold_right Qplus 0%Q l.

Definition qmin (a b : Q) : Q := if Qle_bool a b then a else b.
Definition qmax (a b : Q) : Q := if Qle_bool a b then b else a.

(** [$avg] over a non-empty group *)
Definition qavg (l : list Q) : Q := (qsum l / inject_Z (Z.of_nat (length l)))%Q.

(** [Math.ceil(a / b)] for [b <> 0] *)
Definition ceilDiv (a b : Z) : Z := - ((- a) / b).

(** the values a sort compares, in the store's order of types *)
Inductive SortKey :=
| KEmpty
| KNull
| KNum (q : Q)
| KStr (s : string)
| KOid (s : string)
| KBool (b : bool)
| KDate (z : Z).

Definition keyRank (k : SortKey) : Z :=
  match k with
  | KEmpty => 0 | KNull => 1 | KNum _ => 2 | KStr _ => 3
  | KOid _ => 4 | KBool _ => 5 | KDate _ => 6
  end.

Definition keyCompare (a b : SortKey) : comparison :=
  match a, b with
  | KNum x, KNum y => Qcompare x y
  | KStr x, KStr y => String.compare x y
  | KOid x, KOid y => String.compare x y
  | KBool x, KBool y => Bool.compare x y
  | KDate x, KDate y => Z.compare x y
  | _, _ => Z.compare (keyRank a) (keyRank b)
  end.

Definition strMin (a b : string) : string :=
  match String.compare a b with Gt => b | _ => a end.
Definition strMax (a b : string) : string :=
  match String.compare a b with Lt => b | _ => a end.

(** The sort key of a document for [sort[field] = dir]: the scalar paths of
    the schema and [tags] (an array sorts by its least element ascending and
    by its greatest descending); any other path is missing in every document. *)
Definition sortKey (field : string) (dir : Z) (t : Transaction) : SortKey :=
  if String.eqb field "date" then KDate (date t)
  else if String.eqb field "amount" then KNum (amount t)
  else if String.eqb field "category" then KStr (category t)
  else if String.eqb field "type" then KStr (typeName (type t))
  else if String.eqb field "description" then
    match description t with Some d => KStr d | None => KNull end
  else if String.eqb field "createdAt" then KDate (createdAt t)
  else if String.eqb field "updatedAt" then KDate (updatedAt t)
  else if String.eqb field "_id" then KOid (oidHex (_id t))
  else if String.eqb field "userId" then KOid (oidHex (userId t))
  else if String.eqb field "isRecurring" then KBool (isRecurring t)
  else if String.eqb field "recurringInterval" then KStr (intervalName (recurringInterval t))
  else if String.eqb field "tags" then
    match tags t with
    | [] => KEmpty
    | x :: xs => KStr (fold_left (if dir <? 0 then strMax else strMin) xs x)
    end
  else KNull.

(** [.sort({ [field]: dir })]; documents with equal keys keep their order *)
Definition sortDocs (field : string) (dir : Z) (l : list Transaction) : list Transaction :=
  sortBy (fun a b =>
            match keyCompare (sortKey field dir a) (sortKey field dir b) with
            | Lt => 0 <=? dir
            | Eq => true
            | Gt => dir <? 0
            end) l.

(** [.skip(skip).limit(limit)]: a negative skip is refused by the store
    ([None]), a limit of 0 is no limit, a negative limit counts as its
    absolute value. *)
Definition paginate {A} (skip limit : Z) (l : list A) : option (list A) :=
  if skip <? 0 then None
  else
    let rest := drop (Z.to_nat skip) l in
    Some (if limit =? 0 then rest else take (Z.abs_nat limit) rest).

(** the filter [{ _id: id, userId: uid }] *)
Definition ownedWithId (id uid : ObjectId) (t : Transaction) : bool :=
  oidEqb (_id t) id && oidEqb (userId t) uid.

(** [findOneAndUpdate]: the first matching document is replaced *)
Fixpoint updateFirst (p : Transaction -> bool) (f : Transaction -> Transaction)
  (db : list Transaction) : list Transaction :=
  match db with
  | [] => []
  | t :: db' => if p t then f t :: db' else t :: updateFirst p f db'
  end.

(** [findOneAndDelete]: the first matching document is removed *)
Fixpoint deleteFirst (p : Transaction -> bool) (db : list Transaction) : list Transaction :=
  match db with
  | [] => []
  | t :: db' => if p t then db' else t :: deleteFirst p db'
  end.

(** [deleteMany]: every matching document is removed *)
Definition deleteMany (p : Transaction -> bool) (db : list Transaction) : list Transaction :=
  List.filter (fun t => negb (p t)) db.

(** casts every element of a list of identifiers; one failure fails the cast *)
Fixpoint castIds (ids : list string) : option (list ObjectId) :=
  match ids with
  | [] => Some []
  | s :: ids' =>
      match castObjectId s, castIds ids' with
      | Some o, Some os => Some (o :: os)
      | _, _ => None
      end
  end.

End Store.

(** ** [controllers/transactionController.js] *)
Module TransactionController.
Import Schema Store.

(** what the store or the model raised; the handlers put [err.message] in the
    body of their 500 response *)
Inductive StoreError := CastError | ValidationError | QueryError.

Inductive TotalPages := Finite (n : Z) | Infinite | NotANumber.

Record Pagination := {
  currentPage : option Z;
  totalPages : TotalPages;
  totalItems : Z;
  itemsPerPage : option Z;
  hasNextPage : bool;
  hasPrevPage : bool
}.

Record Stats := {
  totalIncome : Q;
  totalExpenses : Q;
  totalTransactions : Z;
  avgTransactionAmount : Q;
  minAmount : Q;
  maxAmount : Q;
  netAmount : Q
}.

(** one document of the overall [$group] stage ([_id: null]) *)
Record GroupStat := {
  g_totalIncome : Q;
  g_totalExpenses : Q;
  g_totalTransactions : Z;
  g_avgTransactionAmount : Q;
  g_minAmount : Q;
  g_maxAmount : Q
}.

Record CategoryStat := {
  cs_id : string;
  cs_total : Q;
  cs_count : Z;
  cs_avgAmount : Q
}.

Record MonthStat := {
  ms_year : Z;
  ms_month : Z;
  ms_income : Q;
  ms_expenses : Q
}.

Inductive Payload :=
| PNone
| PError (e : StoreError)
| PTransaction (t : Transaction)
| PPage (ts : list Transaction) (p : Pagination)
| PStats (s : Stats) (cs : list CategoryStat) (ms : list MonthStat)
| PCategories (cs : list CategoryStat).

Record Response := {
  status : Z;
  success : bool;
  message : option string;
  payload : Payload
}.

Definition ok (msg : option string) (p : Payload) : Response :=
  {| status := 200; success := true; message := msg; payload := p |}.

Definition failure (code : Z) (msg : string) (p : Payload) : Response :=
  {| status := code; success := false; message := Some msg; payload := p |}.

(** the query string of [GET /api/transactions]; [None] is an absent parameter *)
Record Query := {
  q_page : option string;
  q_limit : option string;
  q_type : option string;
  q_category : option string;
  q_startDate : option string;
  q_endDate : option string;
  q_minAmount : option string;
  q_maxAmount : option string;
  q_search : option string;
  q_sortBy : option string;
  q_sortOrder : option string
}.

(** the filter object [getTransactions] builds, after the store's casts *)
Record Filter := {
  f_userId : ObjectId;
  f_type : option string;
  f_category : option (string -> bool);
  f_dateGte : option Z;
  f_dateLte : option Z;
  f_amountGte : option Q;
  f_amountLte : option Q;
  f_or : option (string -> bool)
}.

(** the update document of [updateTransaction], after cast and validation *)
Record Update := {
  up_type : option TxType;
  up_amount : option Q;
  up_category : option string;
  up_description : option string;
  up_tags : option (list string);
  up_isRecurring : option bool;
  up_recurringInterval : option Interval;
  up_date : option Z
}.

(** [if (x) target = cast(x)]: nothing for a falsy parameter, a failure when
    the cast fails *)
Definition castWhen {A} (cast : string -> option A) (o : option string)
  : option (option A) :=
  match o with
  | Some s => if JsString.truthy s then v ← cast s; Some (Some v) else Some None
  | None => Some None
  end.

(** an optional field with a cast or a validator: absent stays absent *)
Definition castField {A B} (cast : A -> option B) (o : option A) : option (option B) :=
  match o with
  | Some a => v ← cast a; Some (Some v)
  | None => Some None
  end.

Definition check {A} (p : A -> bool) (a : A) : option A :=
  if p a then Some a else None.

(** the document [new Transaction({...})] builds and [save()] validates;
    [None] is a validation error *)
Definition newTransaction (now : Z) (newId uid : ObjectId) (b : Body) : option Transaction :=
  ty ← (s ← b_type b; parseType s);
  a ← (v ← b_amount b; check amountValid v);
  c ← (s ← b_category b; check categoryValid (JsString.trim s));
  d ← castField (fun s => check descriptionValid (JsString.trim s)) (b_description b);
  ts ← check tagsValid (map JsString.trim (default [] (b_tags b)));
  i ← match b_recurringInterval b with
      | Some s => parseInterval s
      | None => Some Monthly
      end;
  Some {| _id := newId; userId := uid; type := ty; amount := a; category := c;
          description := d; date := default now (b_date b); tags := ts;
          isRecurring := default false (b_isRecurring b);
          recurringInterval := i; attachments := [];
          createdAt := now; updatedAt := now |}.

(** [createTransaction]: [now] is the clock, [newId] the identifier the
    driver generates for the new document *)
Definition createTransaction (now : Z) (newId uid : ObjectId) (b : Body)
  (db : list Transaction) : Response * list Transaction :=
  match newTransaction now newId uid b with
  | Some t =>
      ({| status := 201; success := true;
          message := Some "Transaction created successfully";
          payload := PTransaction t |}, (db ++ [t])%list)
  | None => (failure 500 "Error creating transaction" (PError ValidationError), db)
  end.

Section WithRuntime.
Context `{RT : Runtime}.

Definition buildFilter (uid : ObjectId) (q : Query) : option Filter :=
  cat ← castWhen regexCompile (q_category q);
  dGte ← castWhen parseDate (q_startDate q);
  dLte ← castWhen parseDate (q_endDate q);
  aGte ← castWhen parseFloat (q_minAmount q);
  aLte ← castWhen parseFloat (q_maxAmount q);
  sr ← castWhen regexCompile (q_search q);
  Some {| f_userId := uid;
          f_type := if JsString.truthyOpt (q_type q) then q_type q else None;
          f_category := cat;
          f_dateGte := dGte; f_dateLte := dLte;
          f_amountGte := aGte; f_amountLte := aLte;
          f_or := sr |}.

Definition optTest {A} (p : A -> bool) (o : option A) : bool :=
  match o with Some a => p a | None => true end.

(** a document satisfies the filter: the conjunction of its conditions *)
Definition matches (f : Filter) (t : Transaction) : bool :=
  oidEqb (userId t) (f_userId f)
  && optTest (String.eqb (typeName (type t))) (f_type f)
  && optTest (fun r : string -> bool => r (category t)) (f_category f)
  && optTest (fun d => d <=? date t) (f_dateGte f)
  && optTest (fun d => date t <=? d) (f_dateLte f)
  && optTest (fun a => Qle_bool a (amount t)) (f_amountGte f)
  && optTest (fun a => Qle_bool (amount t) a) (f_amountLte f)
  && optTest (fun r : string -> bool =>
                match description t with Some d => r d | None => false end
                || r (category t) || existsb r (tags t)) (f_or f).

(** [parseInt(page)] and [parseInt(limit)], with the defaults 1 and 10 *)
Definition pageNumber (q : Query) : option Z :=
  match q_page q with Some s => parseInt s | None => Some 1 end.

Definition limitNumber (q : Query) : option Z :=
  match q_limit q with Some s => parseInt s | None => Some 10 end.

(** [Math.ceil(total / limit)] *)
Definition pagesOf (total limit : Z) : TotalPages :=
  if limit =? 0 then (if total =? 0 then NotANumber else Infinite)
  else Finite (ceilDiv total limit).

(** [page < totalPages] and [page > 1] on the raw parameter *)
Definition rawPage (q : Query) : option Q :=
  match q_page q with Some s => toNumber s | None => Some 1%Q end.

Definition ltPages (p : option Q) (tp : TotalPages) : bool :=
  match p, tp with
  | Some x, Finite n => negb (Qle_bool (inject_Z n) x)
  | Some _, Infinite => true
  | _, _ => false
  end.

Definition sortDirection (q : Query) : Z :=
  if String.eqb (default "desc" (q_sortOrder q)) "desc" then -1 else 1.

(** the documents of the caller that satisfy the filter, sorted *)
Definition selected (f : Filter) (q : Query) (db : list Transaction) : list Transaction :=
  sortDocs (default "date" (q_sortBy q)) (sortDirection q) (List.filter (matches f) db).

(** [getTransactions]; the populated owner ([name], [email]) is left out of
    the returned documents *)
Definition getTransactions (uid : ObjectId) (q : Query) (db : list Transaction) : Response :=
  let fail e := failure 500 "Error fetching transactions" (PError e) in
  match buildFilter uid q with
  | None => fail CastError
  | Some f =>
      match pageNumber q, limitNumber q with
      | Some page, Some limit =>
          match paginate ((page - 1) * limit) limit (selected f q db) with
          | None => fail QueryError
          | Some transactions =>
              let total := Z.of_nat (length (List.filter (matches f) db)) in
              let pages := pagesOf total limit in
              ok None (PPage transactions
                {| currentPage := Some page; totalPages := pages; totalItems := total;
                   itemsPerPage := Some limit;
                   hasNextPage := ltPages (rawPage q) pages;
                   hasPrevPage := match rawPage q with
                                  | Some x => negb (Qle_bool x 1)
                                  | None => false
                                  end |})
          end
      | _, _ => fail CastError
      end
  end.

(** [getTransactionById] *)
Definition getTransactionById (uid : ObjectId) (id : string) (db : list Transaction)
  : Response :=
  match castObjectId id with
  | None => failure 500 "Error fetching transaction" (PError CastError)
  | Some oid =>
      match find (ownedWithId oid uid) db with
      | None => failure 404 "Transaction not found" PNone
      | Some t => ok None (PTransaction t)
      end
  end.

(** the update document built from the body, cast and validated
    ([runValidators: true]); [None] is a cast or validation error *)
Definition updateData (b : Body) : option Update :=
  ty ← castField parseType (b_type b);
  a ← castField (check amountValid) (b_amount b);
  c ← castField (fun s => check categoryValid (JsString.trim s)) (b_category b);
  d ← castField (fun s => check descriptionValid (JsString.trim s)) (b_description b);
  ts ← castField (fun l => check tagsValid (map JsString.trim l)) (b_tags b);
  i ← castField parseInterval (b_recurringInterval b);
  Some {| up_type := ty; up_amount := a; up_category := c; up_description := d;
          up_tags := ts; up_isRecurring := b_isRecurring b;
          up_recurringInterval := i; up_date := b_date b |}.

(** the [$set] of the update document, with the [updatedAt] the schema option
    [timestamps: true] adds to every update *)
Definition applyUpdate (now : Z) (u : Update) (t : Transaction) : Transaction :=
  {| _id := _id t; userId := userId t;
     type := default (type t) (up_type u);
     amount := default (amount t) (up_amount u);
     category := default (category t) (up_category u);
     description := match up_description u with Some d => Some d | None => description t end;
     date := default (date t) (up_date u);
     tags := default (tags t) (up_tags u);
     isRecurring := default (isRecurring t) (up_isRecurring u);
     recurringInterval := default (recurringInterval t) (up_recurringInterval u);
     attachments := attachments t;
     createdAt := createdAt t;
     updatedAt := now |}.

(** [updateTransaction] *)
Definition updateTransaction (now : Z) (uid : ObjectId) (id : string) (b : Body)
  (db : list Transaction) : Response * list Transaction :=
  match castObjectId id with
  | None => (failure 500 "Error updating transaction" (PError CastError), db)
  | Some oid =>
      match updateData b with
      | None => (failure 500 "Error updating transaction" (PError ValidationError), db)
      | Some u =>
          match find (ownedWithId oid uid) db with
          | None => (failure 404 "Transaction not found" PNone, db)
          | Some t =>
              (ok (Some "Transaction updated successfully")
                  (PTransaction (applyUpdate now u t)),
               updateFirst (ownedWithId oid uid) (applyUpdate now u) db)
          end
      end
  end.

(** [deleteTransaction] *)
Definition deleteTransaction (uid : ObjectId) (id : string) (db : list Transaction)
  : Response * list Transaction :=
  match castObjectId id with
  | None => (failure 500 "Error deleting transaction" (PError CastError), db)
  | Some oid =>
      match find (ownedWithId oid uid) db with
      | None => (failure 404 "Transaction not found" PNone, db)
      | Some _ =>
          (ok (Some "Transaction deleted successfully") PNone,
           deleteFirst (ownedWithId oid uid) db)
      end
  end.

(** the start of the window of [getTransactionStats]: [startOfPeriod] is
    [new Date()] and the [switch] moves it back for the four named periods;
    any other value of [period] leaves it at the current instant *)
Definition startOfPeriod (now : Z) (period : string) : Z :=
  if String.eqb period "today" then setHoursZero now
  else if String.eqb period "week" then
    setHoursZero (setDate now (getDate now - getDay now))
  else if String.eqb period "month" then setHoursZero (setDate now 1)
  else if String.eqb period "year" then setHoursZero (setMonthJanFirst now)
  else now.

(** [dateFilter]: empty for ['all'] (the default), [{ date: { $gte: start } }]
    otherwise *)
Definition dateFilter (now : Z) (period : option string) : option Z :=
  let p := default "all" period in
  if String.eqb p "all" then None else Some (startOfPeriod now p).

(** [$match: { userId, ...dateFilter }] *)
Definition inWindow (uid : ObjectId) (start : option Z) (t : Transaction) : bool :=
  oidEqb (userId t) uid && optTest (fun d => d <=? date t) start.

(** [$sum: { $cond: [{ $eq: ['$type', ty] }, '$amount', 0] }] *)
Definition sumOfType (ty : TxType) (docs : list Transaction) : Q :=
  qsum (map (fun t => if String.eqb (typeName (type t)) (typeName ty)
                      then amount t else 0%Q) docs).

(** the [$group] stage with [_id: null]: no document for an empty input, one
    document otherwise *)
Definition groupAll (docs : list Transaction) : list GroupStat :=
  match docs with
  | [] => []
  | d :: rest =>
      [ {| g_totalIncome := sumOfType Income docs;
           g_totalExpenses := sumOfType Expense docs;
           g_totalTransactions := Z.of_nat (length docs);
           g_avgTransactionAmount := qavg (map amount docs);
           g_minAmount := fold_left qmin (map amount rest) (amount d);
           g_maxAmount := fold_left qmax (map amount rest) (amount d) |} ]
  end.

(** the [$group] stage with [_id: '$category'] *)
Definition groupCategories (docs : list Transaction) : list CategoryStat :=
  map (fun '(c, ts) =>
         {| cs_id := c; cs_total := qsum (map amount ts);
            cs_count := Z.of_nat (length ts);
            cs_avgAmount := qavg (map amount ts) |})
      (groupBy String.eqb category docs).

(** the [$group] stage with [_id: { year, month }] *)
Definition groupMonths (docs : list Transaction) : list MonthStat :=
  map (fun '((y, m), ts) =>
         {| ms_year := y; ms_month := m;
            ms_income := sumOfType Income ts;
            ms_expenses := sumOfType Expense ts |})
      (groupBy (fun a b : Z * Z => (fst a =? fst b) && (snd a =? snd b))
               (fun t => (yearOf (date t), monthOf (date t))) docs).

(** [{ $sort: { total: -1 } }, { $limit: 10 }] *)
Definition categoryStatsOf (docs : list Transaction) : list CategoryStat :=
  take 10 (sortBy (fun a b => Qle_bool (cs_total b) (cs_total a)) (groupCategories docs)).

(** the last twelve months, [{ $sort: { '_id.year': 1, '_id.month': 1 } }] *)
Definition monthlyStatsOf (now : Z) (uid : ObjectId) (db : list Transaction) : list MonthStat :=
  let since := setFullYear now (getFullYear now - 1) in
  sortBy (fun a b => (ms_year a <? ms_year b)
                     || ((ms_year a =? ms_year b) && (ms_month a <=? ms_month b)))
         (groupMonths (List.filter (inWindow uid (Some since)) db)).

Definition zeroStats : Stats :=
  {| totalIncome := 0; totalExpenses := 0; totalTransactions := 0;
     avgTransactionAmount := 0; minAmount := 0; maxAmount := 0; netAmount := 0 |}.

(** [{ ...stat, netAmount: stat.totalIncome - stat.totalExpenses }] *)
Definition withNet (g : GroupStat) : Stats :=
  {| totalIncome := g_totalIncome g; totalExpenses := g_totalExpenses g;
     totalTransactions := g_totalTransactions g;
     avgTransactionAmount := g_avgTransactionAmount g;
     minAmount := g_minAmount g; maxAmount := g_maxAmount g;
     netAmount := (g_totalIncome g - g_totalExpenses g)%Q |}.

(** [getTransactionStats]; [now] is the clock of the request *)
Definition getTransactionStats (now : Z) (uid : ObjectId) (period : option string)
  (db : list Transaction) : Response :=
  let window := List.filter (inWindow uid (dateFilter now period)) db in
  let stats := groupAll window in
  let categoryStats := categoryStatsOf window in
  let monthlyStats := monthlyStatsOf now uid db in
  match stats with
  | [] => ok None (PStats zeroStats [] [])
  | stat :: _ => ok None (PStats (withNet stat) categoryStats monthlyStats)
  end.

(** [Transaction.getUserStats] of the model: the same roll-up over all the
    documents of the user, without the minimum and the maximum *)
Definition getUserStats (uid : ObjectId) (db : list Transaction) : Stats :=
  match groupAll (List.filter (inWindow uid None) db) with
  | [] => zeroStats
  | stat :: _ =>
      {| totalIncome := g_totalIncome stat; totalExpenses := g_totalExpenses stat;
         totalTransactions := g_totalTransactions stat;
         avgTransactionAmount := g_avgTransactionAmount stat;
         minAmount := 0; maxAmount := 0;
         netAmount := (g_totalIncome stat - g_totalExpenses stat)%Q |}
  end.

(** [getTransactionCategories]: [{ $sort: { count: -1 } }] *)
Definition getTransactionCategories (uid : ObjectId) (db : list Transaction) : Response :=
  ok None (PCategories
    (sortBy (fun a b => cs_count b <=? cs_count a)
            (groupCategories (List.filter (inWindow uid None) db)))).

(** the filter [{ _id: { $in: ids }, userId: uid }] *)
Definition ownedAmong (ids : list ObjectId) (uid : ObjectId) (t : Transaction) : bool :=
  existsb (oidEqb (_id t)) ids && oidEqb (userId t) uid.

(** [bulkDeleteTransactions]; [transactionIds] is [None] when the body does
    not carry an array under that name.  The count is reported inside the
    message, shown here next to it. *)
Definition bulkDeleteTransactions (uid : ObjectId) (transactionIds : option (list string))
  (db : list Transaction) : Response * option Z * list Transaction :=
  match transactionIds with
  | None | Some [] =>
      (failure 400 "Transaction IDs array is required" PNone, None, db)
  | Some ids =>
      match castIds ids with
      | None => (failure 500 "Error deleting transactions" (PError CastError), None, db)
      | Some oids =>
          let db' := deleteMany (ownedAmong oids uid) db in
          (ok (Some "transactions deleted successfully") PNone,
           Some (Z.of_nat (length (List.filter (ownedAmong oids uid) db))), db')
      end
  end.

End WithRuntime.

End TransactionController.

(** ** [routes/transactionRoutes.js] *)
Module TransactionRoutes.
Import Schema Store TransactionController.

Inductive Method := GET | POST | PUT | DELETE.

Definition methodEqb (a b : Method) : bool :=
  match a, b with
  | GET, GET | POST, POST | PUT, PUT | DELETE, DELETE => true
  | _, _ => false
  end.

(** the path patterns of the router: ['/'], a literal segment, ['/:id'] *)
Inductive Pattern := Root | Lit (s : string) | Param.

Inductive Handler :=
| CreateTransaction
| GetTransactions
| GetTransactionStats
| GetTransactionCategories
| GetTransactionById
| UpdateTransaction
| DeleteTransaction
| BulkDeleteTransactions.

(** the routes in the order the file registers them *)
Definition routes : list (Method * Pattern * Handler) :=
  [ (POST, Root, CreateTransaction);
    (GET, Root, GetTransactions);
    (GET, Lit "stats", GetTransactionStats);
    (GET, Lit "categories", GetTransactionCategories);
    (GET, Param, GetTransactionById);
    (PUT, Param, UpdateTransaction);
    (DELETE, Param, DeleteTransaction);
    (DELETE, Lit "bulk", BulkDeleteTransactions) ].

(** A request path below the mount point, as its segments: ['/'] is [[]] and
    ['/bulk'] is [["bulk"]].  A match yields the value of [:id], if any.
    Literal segments match without regard to case, as the router's default. *)
Definition matchPattern (p : Pattern) (path : list string) : option (option string) :=
  match p, path with
  | Root, [] => Some None
  | Lit s, [x] => if String.eqb (JsString.lower x) s then Some None else None
  | Param, [x] => if JsString.truthy x then Some (Some x) else None
  | _, _ => None
  end.

(** the first route whose method and pattern match the request *)
Fixpoint dispatch (rs : list (Method * Pattern * Handler)) (m : Method) (path : list string)
  : option (Handler * option string) :=
  match rs with
  | [] => None
  | (m', p, h) :: rs' =>
      if methodEqb m m' then
        match matchPattern p path with
        | Some param => Some (h, param)
        | None => dispatch rs' m path
        end
      else dispatch rs' m path
  end.

(** Modelled from the spec: [validateTransaction] and [handleValidationErrors]
    of [middleware/validationMiddleware.js], which is not among the sources.
    The spec gives: "amount must be > 0 or fails with ValidationError", and a
    validation error is a 400 response returned before any mutation. *)
Definition validateTransaction (b : Body) : bool :=
  match b_amount b with
  | Some a => negb (Qle_bool a 0)
  | None => true
  end.

Definition validationFailed : Response :=
  failure 400 "Validation failed" PNone.

(** an authenticated request: [authMiddleware] has put the caller in
    [req.userId]; the rate limiters let the request through *)
Record Request := {
  r_method : Method;
  r_path : list string;
  r_userId : ObjectId;
  r_query : Query;
  r_period : option string;
  r_body : Body;
  r_transactionIds : option (list string)
}.

Section WithRuntime.
Context `{RT : Runtime}.

(** the router: [now] and [newId] are the clock and the identifier generator *)
Definition handle (now : Z) (newId : ObjectId) (r : Request) (db : list Transaction)
  : Response * list Transaction :=
  let uid := r_userId r in
  match dispatch routes (r_method r) (r_path r) with
  | None => (failure 404 "Not found" PNone, db)
  | Some (h, param) =>
      let id := default "" param in
      match h with
      | CreateTransaction =>
          if validateTransaction (r_body r)
          then createTransaction now newId uid (r_body r) db
          else (validationFailed, db)
      | GetTransactions => (getTransactions uid (r_query r) db, db)
      | GetTransactionStats => (getTransactionStats now uid (r_period r) db, db)
      | GetTransactionCategories => (getTransactionCategories uid db, db)
      | GetTransactionById => (getTransactionById uid id db, db)
      | UpdateTransaction =>
          if validateTransaction (r_body r)
          then updateTransaction now uid id (r_body r) db
          else (validationFailed, db)
      | DeleteTransaction => deleteTransaction uid id db
      | BulkDeleteTransactions =>
          let '(resp, _, db') := bulkDeleteTransactions uid (r_transactionIds r) db in
          (resp, db')
      end
  end.

End WithRuntime.

End TransactionRoutes.

(** ** The password hashing library

    [bcrypt.hash(password, salt)] and [bcrypt.compare(candidate, hash)]; the
    salt of [bcrypt.genSalt(12)] is an argument of the handlers that hash. *)
Class Bcrypt := {
  bcryptHash : string -> string -> string;
  bcryptCompare : string -> string -> bool
}.

(** ** [models/User.js]: the methods and the hooks of the user model *)
Module UserModel.
Import Schema.

(** what [getPublicProfile] leaves of a user: the password, the reset token
    and its expiry (and the verification token) are deleted *)
Record PublicProfile := {
  p_id : ObjectId;
  p_name : string;
  p_email : string;
  p_isActive : bool;
  p_lastLogin : option Z;
  p_emailVerified : bool
}.

Definition getPublicProfile (u : User) : PublicProfile :=
  {| p_id := u_id u; p_name := name u; p_email := email u;
     p_isActive := isActive u; p_lastLogin := lastLogin u;
     p_emailVerified := emailVerified u |}.

(** [required: true, trim: true, maxlength: 50], on the trimmed value *)
Definition nameValid (n : string) : bool :=
  JsString.truthy n && Nat.leb (String.length n) 50.

(** [required: true], on the lower-cased, trimmed value *)
Definition emailValid (e : string) : bool := JsString.truthy e.

(** [required: true, minlength: 6], on the password as it is given *)
Definition passwordValid (p : string) : bool := Nat.leb 6 (String.length p).

(** the setters of the [email] path: [lowercase: true, trim: true] *)
Definition normalizeEmail (e : string) : string := JsString.lower (JsString.trim e).

Definition withPassword (p : string) (u : User) : User :=
  {| u_id := u_id u; name := name u; email := email u; password := p;
     isActive := isActive u; lastLogin := lastLogin u;
     passwordResetToken := passwordResetToken u;
     passwordResetExpires := passwordResetExpires u;
     emailVerified := emailVerified u |}.

Definition withLastLogin (t : Z) (u : User) : User :=
  {| u_id := u_id u; name := name u; email := email u; password := password u;
     isActive := isActive u; lastLogin := Some t;
     passwordResetToken := passwordResetToken u;
     passwordResetExpires := passwordResetExpires u;
     emailVerified := emailVerified u |}.

Definition withoutReset (u : User) : User :=
  {| u_id := u_id u; name := name u; email := email u; password := password u;
     isActive := isActive u; lastLogin := lastLogin u;
     passwordResetToken := None; passwordResetExpires := None;
     emailVerified := emailVerified u |}.


(** the unique index on [email]: no other document holds the value *)
Definition emailFree (e : string) (users : list User) : bool :=
  forallb (fun u => negb (String.eqb (email u) e)) users.

Section WithBcrypt.
Context `{BC : Bcrypt}.

(** [comparePassword] *)
Definition comparePassword (u : User) (candidatePassword : string) : bool :=
  bcryptCompare candidatePassword (password u).

(** Assigning [user.password = p] and saving: the validators see the password
    as assigned, and the [pre('save')] hook hashes it when the value is
    modified; [None] is a validation error. *)
Definition setPassword (salt p : string) (u : User) : option User :=
  if String.eqb p (password u) then Some u
  else if passwordValid p then Some (withPassword (bcryptHash p salt) u)
  else None.

(** [User.create({ name, email, password })]: the setters, the defaults, the
    validators, the hook that hashes the password, and the unique index;
    [None] is a validation or duplicate-key error.  [newId] is the identifier
    the driver generates. *)
Definition create (newId : ObjectId) (salt : string) (n e p : string)
  (users : list User) : option User :=
  let n' := JsString.trim n in
  let e' := normalizeEmail e in
  if nameValid n' && emailValid e' && passwordValid p && emailFree e' users
  then Some {| u_id := newId; name := n'; email := e'; password := bcryptHash p salt;
               isActive := true; lastLogin := None; passwordResetToken := None;
               passwordResetExpires := None; emailVerified := false |}
  else None.

End WithBcrypt.

End UserModel.

(** ** [controllers/authController.js] *)
Module AuthController.
Import Schema.

(** the environment variables the controller reads; [JWT_EXPIRES_IN] is kept
    as the number of seconds it denotes *)
Record Env := {
  NODE_ENV : option string;
  JWT_SECRET : string;
  JWT_REFRESH_SECRET : option string;
  JWT_EXPIRES_IN : option Z
}.

(** A signed token: its claims, and the secret it was signed with in place of
    the signature.  The controller signs the claims [id] and [type] only;
    [iat] and [exp] are added by the library, in seconds. *)
Record Token := {
  tk_id : ObjectId;
  tk_type : option string;
  tk_iat : Z;
  tk_exp : Z;
  tk_key : string
}.

Inductive JwtError := JsonWebTokenError | TokenExpiredError.

(** [jwt.sign(payload, secret, { expiresIn })] at the instant [now] (ms) *)
Definition sign (id : ObjectId) (ty : option string) (secret : string) (span now : Z) : Token :=
  {| tk_id := id; tk_type := ty; tk_iat := now / 1000;
     tk_exp := now / 1000 + span; tk_key := secret |}.

(** [jwt.verify(token, secret)]: the signature first, then the expiry *)
Definition verify (t : Token) (secret : string) (now : Z) : JwtError + Token :=
  if negb (String.eqb (tk_key t) secret) then inl JsonWebTokenError
  else if tk_exp t <=? now / 1000 then inl TokenExpiredError
  else inr t.

(** [process.env.JWT_REFRESH_SECRET || process.env.JWT_SECRET] *)
Definition refreshSecret (env : Env) : string :=
  match JWT_REFRESH_SECRET env with
  | Some s => if JsString.truthy s then s else JWT_SECRET env
  | None => JWT_SECRET env
  end.

(** [generateToken]: [expiresIn: process.env.JWT_EXPIRES_IN || '24h'] *)
Definition generateToken (env : Env) (now : Z) (id : ObjectId) : Token :=
  sign id None (JWT_SECRET env) (default 86400 (JWT_EXPIRES_IN env)) now.

(** [generateRefreshToken]: [type: 'refresh'], [expiresIn: '7d'] *)
Definition generateRefreshToken (env : Env) (now : Z) (id : ObjectId) : Token :=
  sign id (Some "refresh") (refreshSecret env) 604800 now.

(** what [req.body.refreshToken] holds: nothing (or the empty string), a
    string that is not a token, or a token *)
Inductive Presented := Absent | Malformed (s : string) | Jwt (t : Token).

Record Response := {
  status : Z;
  success : bool;
  message : string;
  token : option Token;
  refreshToken_ : option Token;
  resetToken : option string
}.

Definition reply (code : Z) (okay : bool) (msg : string) : Response :=
  {| status := code; success := okay; message := msg;
     token := None; refreshToken_ := None; resetToken := None |}.

(** [refreshToken] *)
Definition refreshToken (env : Env) (now : Z) (presented : Presented) (users : list User)
  : Response :=
  match presented with
  | Absent => reply 400 false "Refresh token is required"
  | Malformed _ => reply 401 false "Invalid refresh token"
  | Jwt t =>
      match verify t (refreshSecret env) now with
      | inl JsonWebTokenError => reply 401 false "Invalid refresh token"
      | inl TokenExpiredError => reply 401 false "Refresh token expired"
      | inr decoded =>
          if negb (match tk_type decoded with
                   | Some ty => String.eqb ty "refresh"
                   | None => false
                   end)
          then reply 401 false "Invalid token type"
          else
            match find (fun u => oidEqb (u_id u) (tk_id decoded)) users with
            | Some user =>
                if isActive user then
                  {| status := 200; success := true; message := "";
                     token := Some (generateToken env now (u_id user));
                     refreshToken_ := Some (generateRefreshToken env now (u_id user));
                     resetToken := None |}
                else reply 401 false "User not found or inactive"
            | None => reply 401 false "User not found or inactive"
            end
      end
  end.

(** [process.env.NODE_ENV === 'development'] *)
Definition isDevelopment (env : Env) : bool :=
  match NODE_ENV env with
  | Some e => String.eqb e "development"
  | None => false
  end.

Definition uniformMessage : string :=
  "If an account with that email exists, a password reset link has been sent".

(** [user.save()]: the stored document with the same [_id] is replaced *)
Definition save (u : User) (users : list User) : list User :=
  map (fun v => if oidEqb (u_id v) (u_id u) then u else v) users.

Section WithRuntime.
Context `{RT : Runtime}.

(** [forgotPassword]; [random] is [crypto.randomBytes(32).toString('hex')],
    [now] is [Date.now()] *)
Definition forgotPassword (env : Env) (now : Z) (random : string) (mail : string)
  (users : list User) : Response * list User :=
  match find (fun u => String.eqb (email u) mail && isActive u) users with
  | None => (reply 200 true uniformMessage, users)
  | Some user =>
      let resetToken := random in
      let hashedToken := sha256hex resetToken in
      let user' :=
        {| u_id := u_id user; name := name user; email := email user;
           password := password user; isActive := isActive user;
           lastLogin := lastLogin user;
           passwordResetToken := Some hashedToken;
           passwordResetExpires := Some (now + 10 * 60 * 1000);
           emailVerified := emailVerified user |} in
      let users' := save user' users in
      if isDevelopment env then
        ({| status := 200; success := true; message := "Password reset link sent";
            token := None; refreshToken_ := None; resetToken := Some resetToken |},
         users')
      else (reply 200 true uniformMessage, users')
  end.

End WithRuntime.

(** The handlers below reply with the public profile of the user next to the
    response, and give the next collection of users.  The documents of the
    collection satisfy the schema, so that saving one with an unmodified field
    passes the validators. *)
Section Accounts.
Context `{RT : Runtime} `{BC : Bcrypt}.
Import UserModel.

Definition Outcome : Type := Response * option PublicProfile * list User.

Definition withTokens (code : Z) (msg : string) (env : Env) (now : Z) (id : ObjectId)
  : Response :=
  {| status := code; success := true; message := msg;
     token := Some (generateToken env now id);
     refreshToken_ := Some (generateRefreshToken env now id);
     resetToken := None |}.

(** [register]; as in [forgotPassword], a condition on [email] compares the
    stored value with the value as it is given *)
Definition register (env : Env) (now : Z) (newId : ObjectId) (salt : string)
  (n mail p : string) (users : list User) : Outcome :=
  match find (fun u => String.eqb (email u) mail) users with
  | Some _ => (reply 409 false "Email already registered.", None, users)
  | None =>
      match create newId salt n mail p users with
      | None => (reply 500 false "Server error during registration.", None, users)
      | Some user =>
          (withTokens 201 "User registered successfully" env now (u_id user),
           Some (getPublicProfile user), (users ++ [user])%list)
      end
  end.

(** [login] *)
Definition login (env : Env) (now : Z) (mail p : string) (users : list User) : Outcome :=
  match find (fun u => String.eqb (email u) mail && isActive u) users with
  | None => (reply 401 false "Invalid email or password.", None, users)
  | Some user =>
      if negb (comparePassword user p)
      then (reply 401 false "Invalid email or password.", None, users)
      else
        let user' := withLastLogin now user in
        (withTokens 200 "Login successful" env now (u_id user'),
         Some (getPublicProfile user'), save user' users)
  end.

(** [logout] *)
Definition logout : Response := reply 200 true "Logged out successfully".

(** [getProfile] *)
Definition getProfile (uid : ObjectId) (users : list User) : Response * option PublicProfile :=
  match find (fun u => oidEqb (u_id u) uid) users with
  | None => (reply 404 false "User not found", None)
  | Some user => (reply 200 true "", Some (getPublicProfile user))
  end.



(** [changePassword]; [salt] is the salt of the hook *)
Definition changePassword (salt : string) (uid : ObjectId)
  (currentPassword newPassword : string) (users : list User) : Response * list User :=
  match find (fun u => oidEqb (u_id u) uid) users with
  | None => (reply 404 false "User not found", users)
  | Some user =>
      if negb (comparePassword user currentPassword)
      then (reply 400 false "Current password is incorrect", users)
      else
        match setPassword salt newPassword user with
        | None => (reply 500 false "Server error while changing password", users)
        | Some user' => (reply 200 true "Password changed successfully", save user' users)
        end
  end.

(** [resetPassword]; [now] is [Date.now()] *)
Definition resetPassword (now : Z) (salt : string) (rawToken newPassword : string)
  (users : list User) : Response * list User :=
  let hashedToken := sha256hex rawToken in
  match find (fun u =>
                match passwordResetToken u, passwordResetExpires u with
                | Some h, Some e => String.eqb h hashedToken && (now <? e)
                | _, _ => false
                end) users with
  | None => (reply 400 false "Invalid or expired reset token", users)
  | Some user =>
      match setPassword salt newPassword user with
      | None => (reply 500 false "Server error while resetting password", users)
      | Some user' =>
          (reply 200 true "Password reset successfully", save (withoutReset user') users)
      end
  end.

End Accounts.

End AuthController.

(** ** Two more string methods of JavaScript *)
Module JsText.

(** [s.startsWith(p)] *)
Fixpoint startsWith (p s : string) : bool :=
  match p, s with
  | EmptyString, _ => true
  | String a p', String b s' => Ascii.eqb a b && startsWith p' s'
  | String _ _, EmptyString => false
  end.

(** [s.split(sep)] for a separator of one character *)
Fixpoint split (sep : ascii) (s : string) : list string :=
  match s with
  | EmptyString => [""]
  | String c s' =>
      if Ascii.eqb c sep then "" :: split sep s'
      else match split sep s' with
           | piece :: pieces => String c piece :: pieces
           | [] => [String c ""]
           end
  end.

End JsText.

(** ** [middleware/authMiddleware.js] *)
Module AuthMiddleware.
Import Schema AuthController JsText.

Definition denied : Z * string := (401, "No token, authorization denied").
Definition invalid : Z * string := (401, "Token is not valid").

(** the [try] block: [jwt.verify(token, process.env.JWT_SECRET)], then
    [req.userId = decoded.id] *)
Definition authorize (env : Env) (now : Z) (presented : Presented) : (Z * string) + ObjectId :=
  match presented with
  | Jwt t =>
      match verify t (JWT_SECRET env) now with
      | inr decoded => inr (tk_id decoded)
      | inl _ => inl invalid
      end
  | _ => inl invalid
  end.

(** The middleware: a 401 reply, or the caller it puts in [req.userId].
    [decode] reads a compact token; [Absent] stands for the empty string. *)
Definition authMiddleware (decode : string -> Presented) (env : Env) (now : Z)
  (authorization : option string) : (Z * string) + ObjectId :=
  match authorization with
  | None => inl denied
  | Some authHeader =>
      if negb (JsString.truthy authHeader) || negb (startsWith "Bearer " authHeader)
      then inl denied
      else
        match nth_error (split " " authHeader) 1 with
        | Some token => authorize env now (decode token)
        | None => inl invalid
        end
  end.

End AuthMiddleware.

(** ** [frontend/src/utils/api.js] *)
Module Client.

Definition API_BASE_URL : string := "http://localhost:5000/api".

(** what a request may carry as its body: a [JSON.stringify]'d object, given
    by its fields, some other text, or the body stream of a response *)
Inductive BodyInit :=
| Json (fields : list (string * string))
| Text (s : string)
| ResponseStream.

(** the arguments of a [fetch] call; [None] is [undefined] *)
Record FetchRequest := {
  fr_url : string;
  fr_method : option string;
  fr_authorization : option string;
  fr_body : option BodyInit
}.

(** A [Response]: it has [ok], [status] and [url], and no [method]; [rs_json]
    is what [response.json()] resolves to, [None] when the body does not hold
    JSON text. *)
Record FetchResponse := {
  rs_ok : bool;
  rs_status : Z;
  rs_url : string;
  rs_json : option (gmap string string)
}.

(** what the network does with one request *)
Inductive NetEvent := Unreachable | Reply (r : FetchResponse).

Inductive ClientError :=
| ApiError (msg : string) (response : FetchResponse) (data : gmap string string)
| TypeError
| SyntaxError.

(** the browser: the local storage, the location, and the requests that went
    out, oldest first *)
Record Browser := {
  localStorage : gmap string string;
  href : string;
  sent : list FetchRequest
}.

Definition getItem (k : string) (b : Browser) : option string := localStorage b !! k.

Definition setItem (k v : string) (b : Browser) : Browser :=
  {| localStorage := <[k := v]> (localStorage b); href := href b; sent := sent b |}.

Definition removeItem (k : string) (b : Browser) : Browser :=
  {| localStorage := delete k (localStorage b); href := href b; sent := sent b |}.

Definition navigate (to : string) (b : Browser) : Browser :=
  {| localStorage := localStorage b; href := to; sent := sent b |}.

Definition record (r : FetchRequest) (b : Browser) : Browser :=
  {| localStorage := localStorage b; href := href b; sent := (sent b ++ [r])%list |}.

(** [fetch]: a body with the method GET or HEAD (or none, which is GET) is
    refused with a [TypeError] before anything is sent; otherwise the request
    goes out and the network answers with its next event, a [TypeError] when
    it is unreachable. *)
Definition fetch (r : FetchRequest) (b : Browser) (net : list NetEvent)
  : (ClientError + FetchResponse) * Browser * list NetEvent :=
  let m := default "GET" (fr_method r) in
  if (String.eqb m "GET" || String.eqb m "HEAD")
     && match fr_body r with Some _ => true | None => false end
  then (inl TypeError, b, net)
  else
    match net with
    | [] => (inl TypeError, record r b, [])
    | Unreachable :: net' => (inl TypeError, record r b, net')
    | Reply response :: net' => (inr response, record r b, net')
    end.

(** [getAuthHeaders]: the [Authorization] header, when a token is stored *)
Definition getAuthHeaders (b : Browser) : option string :=
  match getItem "token" b with
  | Some token => if JsString.truthy token then Some ("Bearer " ++ token)%string else None
  | None => None
  end.

(** the three [removeItem] calls and the redirect at the end of [refreshToken] *)
Definition clearAndRedirect (b : Browser) : Browser :=
  navigate "/" (removeItem "user" (removeItem "refreshToken" (removeItem "token" b))).

(** [refreshToken] *)
Definition refreshToken (b : Browser) (net : list NetEvent)
  : bool * Browser * list NetEvent :=
  match getItem "refreshToken" b with
  | None => (false, b, net)
  | Some refreshToken =>
      if negb (JsString.truthy refreshToken) then (false, b, net)
      else
        let request :=
          {| fr_url := (API_BASE_URL ++ "/auth/refresh-token")%string;
             fr_method := Some "POST"; fr_authorization := None;
             fr_body := Some (Json [("refreshToken", refreshToken)]) |} in
        match fetch request b net with
        | (inr response, b1, net1) =>
            if rs_ok response then
              match rs_json response with
              | Some data =>
                  (true,
                   setItem "refreshToken" (default "undefined" (data !! "refreshToken"))
                     (setItem "token" (default "undefined" (data !! "token")) b1),
                   net1)
              | None => (false, clearAndRedirect b1, net1)
              end
            else (false, clearAndRedirect b1, net1)
        | (inl _, b1, net1) => (false, clearAndRedirect b1, net1)
        end
  end.

(** the result of an asynchronous call: [None] when the recursion budget of
    the model is used up *)
Definition Result : Type := option (ClientError + gmap string string) * Browser * list NetEvent.

(** [retryRequest], over the handler applied to the answer *)
Definition retryRequestWith
  (handle : Browser -> list NetEvent -> FetchResponse -> Result)
  (b : Browser) (net : list NetEvent)
  (url : string) (method : option string) (body : option BodyInit) : Result :=
  let headers := getAuthHeaders b in
  let options :=
    {| fr_url := url; fr_method := method; fr_authorization := headers;
       fr_body := body |} in
  match fetch options b net with
  | (inl e, b1, net1) => (Some (inl e), b1, net1)
  | (inr response, b1, net1) => handle b1 net1 response
  end.

(** [data.error || data.message || 'API request failed'] *)
Definition errorMessage (data : gmap string string) : string :=
  match data !! "error" with
  | Some e => if JsString.truthy e then e
              else match data !! "message" with
                   | Some m => if JsString.truthy m then m else "API request failed"
                   | None => "API request failed"
                   end
  | None => match data !! "message" with
            | Some m => if JsString.truthy m then m else "API request failed"
            | None => "API request failed"
            end
  end.

(** [handleResponse].  The retry is called with [response.url],
    [response.method] and [response.body]: a [Response] has no [method]
    ([undefined]), and its [body] is the stream [json()] has just read. *)
Fixpoint handleResponse (fuel : nat) (b : Browser) (net : list NetEvent)
  (response : FetchResponse) : Result :=
  match rs_json response with
  | None => (Some (inl SyntaxError), b, net)
  | Some data =>
      if rs_ok response then (Some (inr data), b, net)
      else
        let error := ApiError (errorMessage data) response data in
        if rs_status response =? 401 then
          match refreshToken b net with
          | (true, b1, net1) =>
              match fuel with
              | O => (None, b1, net1)
              | S fuel' =>
                  retryRequestWith (handleResponse fuel') b1 net1
                    (rs_url response) None (Some ResponseStream)
              end
          | (false, b1, net1) => (Some (inl error), b1, net1)
          end
        else (Some (inl error), b, net)
  end.

(** [retryRequest] *)
Definition retryRequest (fuel : nat) := retryRequestWith (handleResponse fuel).

(** [apiCall(endpoint, options)]; every answer of the network is consumed by
    at most one request, which bounds the recursion *)
Definition apiCall (b : Browser) (net : list NetEvent) (endpoint : string)
  (method : option string) (body : option BodyInit) : Result :=
  let url := (API_BASE_URL ++ endpoint)%string in
  let config :=
    {| fr_url := url; fr_method := method; fr_authorization := getAuthHeaders b;
       fr_body := body |} in
  match fetch config b net with
  | (inl e, b1, net1) => (Some (inl e), b1, net1)
  | (inr response, b1, net1) => handleResponse (length net1) b1 net1 response
  end.

(** [tokenUtils] *)
Definition getToken (b : Browser) : option string := getItem "token" b.

Definition getRefreshToken (b : Browser) : option string := getItem "refreshToken" b.

(** [getUser], before [JSON.parse]: the stored text, if it is truthy *)
Definition getUser (b : Browser) : option string :=
  match getItem "user" b with
  | Some user => if JsString.truthy user then Some user else None
  | None => None
  end.

Definition setTokens (token refreshToken : string) (b : Browser) : Browser :=
  setItem "refreshToken" refreshToken (setItem "token" token b).

(** [setUser], after [JSON.stringify] *)
Definition setUser (user : string) (b : Browser) : Browser := setItem "user" user b.

Definition clearAuth (b : Browser) : Browser :=
  removeItem "user" (removeItem "refreshToken" (removeItem "token" b)).

(** [isAuthenticated]: [payloadExp] reads the [exp] claim out of the second
    part of the token ([None] when a step of that throws or the claim is
    missing); [now] is [Date.now()] *)
Definition isAuthenticated (payloadExp : string -> option Z) (now : Z) (b : Browser) : bool :=
  match getItem "token" b with
  | None => false
  | Some token =>
      if negb (JsString.truthy token) then false
      else match payloadExp token with
           | Some exp => now <? exp * 1000
           | None => false
           end
  end.

End Client.

(** ** [frontend/src/pages]: how the pages load their data *)
Module Pages.
Import Client.

(** The [catch] of [fetchTransactions] (Dashboard, Transactions) and of
    [fetchProfile] (Profile): an error that carries a response with status
    401 clears the session and navigates to "/"; any other error is reported
    and leaves the session as it is. *)
Definition onError (e : ClientError) (b : Browser) : Browser :=
  match e with
  | ApiError _ response _ =>
      if rs_status response =? 401 then navigate "/" (clearAuth b) else b
  | _ => b
  end.

(** a page load through [apiCall]: the browser, what is left of the network,
    and the data the page keeps ([None] when the call failed) *)
Definition load (endpoint : string) (b : Browser) (net : list NetEvent)
  : Browser * list NetEvent * option (gmap string string) :=
  match apiCall b net endpoint None None with
  | (Some (inr data), b1, net1) => (b1, net1, Some data)
  | (Some (inl e), b1, net1) => (onError e b1, net1, None)
  | (None, b1, net1) => (b1, net1, None)
  end.

(** [fetchTransactions] with the query string of [api.getTransactions] *)
Definition fetchTransactions (queryString : string) :=
  load ("/transactions?" ++ queryString)%string.

(** [fetchProfile] *)
Definition fetchProfile := load "/auth/profile".

End Pages.

(** ** [frontend/src/components/TransactionForm.js] *)
Module TransactionForm.

(** the [tags] of the data the form submits:
    [tags ? tags.split(',').map(tag => tag.trim()).filter(tag => tag) : []] *)
Definition submittedTags (tags : string) : list string :=
  if JsString.truthy tags
  then List.filter JsString.truthy (map JsString.trim (JsText.split "," tags))
  else [].

End TransactionForm.

(** ** A runtime to evaluate the handlers on examples

    Decimal numerals, patterns matched as case-insensitive substrings, the
    proleptic Gregorian calendar in UTC, and a stand-in for the digest. *)
Module Demo.
Import Schema.

Fixpoint digitsValue (s : string) (acc : Z) : option Z :=
  match s with
  | EmptyString => Some acc
  | String c s' =>
      let n := Z.of_nat (nat_of_ascii c) in
      if (48 <=? n) && (n <=? 57) then digitsValue s' (acc * 10 + (n - 48)) else None
  end.

Definition decimal (s : string) : option Z :=
  match s with
  | EmptyString => None
  | _ => digitsValue s 0
  end.

Fixpoint isPrefix (p s : string) : bool :=
  match p, s with
  | EmptyString, _ => true
  | String a p', String b s' => Ascii.eqb a b && isPrefix p' s'
  | _, EmptyString => false
  end.

Fixpoint isInfix (p s : string) : bool :=
  isPrefix p s || match s with
                  | EmptyString => false
                  | String _ s' => isInfix p s'
                  end.

Definition msPerDay : Z := 86400000.

(** the civil date of a day number (days since 1970-01-01) and back *)
Definition civilFromDays (z : Z) : Z * Z * Z :=
  let z := z + 719468 in
  let era := z / 146097 in
  let doe := z - era * 146097 in
  let yoe := (doe - doe / 1460 + doe / 36524 - doe / 146096) / 365 in
  let doy := doe - (365 * yoe + yoe / 4 - yoe / 100) in
  let mp := (5 * doy + 2) / 153 in
  let d := doy - (153 * mp + 2) / 5 + 1 in
  let m := if mp <? 10 then mp + 3 else mp - 9 in
  (yoe + era * 400 + (if m <=? 2 then 1 else 0), m, d).

Definition daysFromCivil (y m d : Z) : Z :=
  let y := if m <=? 2 then y - 1 else y in
  let era := y / 400 in
  let yoe := y - era * 400 in
  let doy := (153 * (if 2 <? m then m - 3 else m + 9) + 2) / 5 + d - 1 in
  let doe := yoe * 365 + yoe / 4 - yoe / 100 + doy in
  era * 146097 + doe - 719468.

Definition withCivil (f : Z -> Z -> Z -> Z * Z * Z) (t : Z) : Z :=
  let '(y, m, d) := civilFromDays (t / msPerDay) in
  let '(y', m', d') := f y m d in
  daysFromCivil y' m' d' * msPerDay + t mod msPerDay.

Definition runtime : Runtime := {|
  parseInt := decimal;
  parseFloat := fun s => inject_Z <$> decimal s;
  toNumber := fun s => inject_Z <$> decimal s;
  parseDate := decimal;
  regexCompile := fun p => Some (fun s => isInfix (JsString.lower p) (JsString.lower s));
  setHoursZero := fun t => t - t mod msPerDay;
  getDate := fun t => snd (civilFromDays (t / msPerDay));
  getDay := fun t => (t / msPerDay + 4) mod 7;
  setDate := fun t n => withCivil (fun y m _ => (y, m, n)) t;
  setMonthJanFirst := withCivil (fun y _ _ => (y, 1, 1));
  getFullYear := fun t => fst (fst (civilFromDays (t / msPerDay)));
  setFullYear := fun t y => withCivil (fun _ m d => (y, m, d)) t;
  yearOf := fun t => fst (fst (civilFromDays (t / msPerDay)));
  monthOf := fun t => snd (fst (civilFromDays (t / msPerDay)));
  sha256hex := fun s => ("sha256:" ++ s)%string
|}.

Definition alice : ObjectId := Oid "64a000000000000000000001".
Definition bob : ObjectId := Oid "64b000000000000000000002".

(** a transaction with the given owner, identifier, type, amount and date *)
Definition tx (owner : ObjectId) (id : string) (ty : TxType) (a : Q) (d : Z) : Transaction :=
  {| _id := Oid id; userId := owner; type := ty; amount := a; category := "Food";
     description := None; date := d; tags := []; isRecurring := false;
     recurringInterval := Monthly; attachments := []; createdAt := d; updatedAt := d |}.

Definition emptyBody : Body :=
  {| b_type := None; b_amount := None; b_category := None; b_description := None;
     b_tags := None; b_isRecurring := None; b_recurringInterval := None;
     b_date := None |}.

Definition emptyQuery : TransactionController.Query :=
  {| TransactionController.q_page := None; TransactionController.q_limit := None;
     TransactionController.q_type := None; TransactionController.q_category := None;
     TransactionController.q_startDate := None; TransactionController.q_endDate := None;
     TransactionController.q_minAmount := None; TransactionController.q_maxAmount := None;
     TransactionController.q_search := None; TransactionController.q_sortBy := None;
     TransactionController.q_sortOrder := None |}.

(** a store with three transactions of [alice] and one of [bob] *)
Definition ledger : list Transaction :=
  [ tx alice "64a000000000000000000011" Expense (85 # 2) 1705276800000;
    tx bob "64a000000000000000000012" Income 5 1705280400000;
    tx alice "64a000000000000000000013" Income 100 1705284000000;
    tx alice "64a000000000000000000014" Expense 10 1705287600000 ].

Definition twoPerPage : TransactionController.Query :=
  {| TransactionController.q_page := None; TransactionController.q_limit := Some "2";
     TransactionController.q_type := None; TransactionController.q_category := None;
     TransactionController.q_startDate := None; TransactionController.q_endDate := None;
     TransactionController.q_minAmount := None; TransactionController.q_maxAmount := None;
     TransactionController.q_search := None; TransactionController.q_sortBy := None;
     TransactionController.q_sortOrder := None |}.

(** the filter of a query without conditions: the caller's documents *)
Definition ownFilter (uid : ObjectId) : TransactionController.Filter :=
  {| TransactionController.f_userId := uid; TransactionController.f_type := None;
     TransactionController.f_category := None;
     TransactionController.f_dateGte := None; TransactionController.f_dateLte := None;
     TransactionController.f_amountGte := None; TransactionController.f_amountLte := None;
     TransactionController.f_or := None |}.

(** a body that carries an amount and nothing else *)
Definition amountOnly (a : Q) : Body :=
  {| b_type := None; b_amount := Some a; b_category := None; b_description := None;
     b_tags := None; b_isRecurring := None; b_recurringInterval := None;
     b_date := None |}.

(** the body of the example of the specification *)
Definition lunch : Body :=
  {| b_type := Some "expense"; b_amount := Some (85 # 2);
     b_category := Some "Food & Dining"; b_description := None; b_tags := None;
     b_isRecurring := None; b_recurringInterval := None;
     b_date := Some 1705276800000 |}.

(** a request [POST /api/transactions] of [alice] *)
Definition createRequest (b : Body) : TransactionRoutes.Request :=
  {| TransactionRoutes.r_method := TransactionRoutes.POST;
     TransactionRoutes.r_path := [];
     TransactionRoutes.r_userId := alice;
     TransactionRoutes.r_query := emptyQuery;
     TransactionRoutes.r_period := None;
     TransactionRoutes.r_body := b;
     TransactionRoutes.r_transactionIds := None |}.

(** a 401 reply of the API *)
Definition unauthorized : Client.FetchResponse :=
  {| Client.rs_ok := false; Client.rs_status := 401;
     Client.rs_url := "http://localhost:5000/api/transactions/stats?";
     Client.rs_json := Some {[ "message" := "Token is not valid" ]} |}.

(** the reply of a successful refresh *)
Definition freshTokens : Client.FetchResponse :=
  {| Client.rs_ok := true; Client.rs_status := 200;
     Client.rs_url := "http://localhost:5000/api/auth/refresh-token";
     Client.rs_json := Some {[ "token" := "t2"; "refreshToken" := "r2" ]} |}.

(** a session whose refresh token is gone, and a complete one *)
Definition staleSession : Client.Browser :=
  {| Client.localStorage := {[ "token" := "t1"; "user" := "alice" ]};
     Client.href := "/dashboard"; Client.sent := [] |}.

Definition fullSession : Client.Browser :=
  {| Client.localStorage := {[ "token" := "t1"; "refreshToken" := "r1"; "user" := "alice" ]};
     Client.href := "/dashboard"; Client.sent := [] |}.

Definition bobsTransaction : Transaction :=
  tx bob "64a000000000000000000012" Income 5 1705280400000.

(** a request [DELETE /api/transactions/bulk] of [alice] *)
Definition bulkRequest (ids : list string) : TransactionRoutes.Request :=
  {| TransactionRoutes.r_method := TransactionRoutes.DELETE;
     TransactionRoutes.r_path := ["bulk"];
     TransactionRoutes.r_userId := alice;
     TransactionRoutes.r_query := emptyQuery;
     TransactionRoutes.r_period := None;
     TransactionRoutes.r_body := emptyBody;
     TransactionRoutes.r_transactionIds := Some ids |}.

Definition env (mode : string) : AuthController.Env :=
  {| AuthController.NODE_ENV := Some mode;
     AuthController.JWT_SECRET := "secret";
     AuthController.JWT_REFRESH_SECRET := None;
     AuthController.JWT_EXPIRES_IN := None |}.

Definition user (id : ObjectId) (mail : string) : User :=
  {| u_id := id; name := "user"; email := mail; password := "$2a$12$hash";
     isActive := true; lastLogin := None; passwordResetToken := None;
     passwordResetExpires := None; emailVerified := false |}.

Definition users : list User := [user alice "alice@example.com"].

End Demo.

(** ** The vocabulary of the specification *)
Module Spec.
Import Schema Store TransactionController.



(** the five values of [period] the statistics endpoint documents *)
Definition namedPeriod (p : string) : bool :=
  existsb (String.eqb p) ["today"; "week"; "month"; "year"; "all"].

(** the query [q] with its [page] parameter replaced *)
Definition setPage (page : option string) (q : Query) : Query :=
  {| q_page := page; q_limit := q_limit q; q_type := q_type q;
     q_category := q_category q; q_startDate := q_startDate q;
     q_endDate := q_endDate q; q_minAmount := q_minAmount q;
     q_maxAmount := q_maxAmount q; q_search := q_search q;
     q_sortBy := q_sortBy q; q_sortOrder := q_sortOrder q |}.



(** the user document after [forgotPassword] has set the two reset fields *)
Definition withReset (hashed : string) (expires : Z) (u : User) : User :=
  {| u_id := u_id u; name := name u; email := email u; password := password u;
     isActive := isActive u; lastLogin := lastLogin u;
     passwordResetToken := Some hashed; passwordResetExpires := Some expires;
     emailVerified := emailVerified u |}.

(** the request [refreshToken] of the client sends for a stored refresh token *)
Definition refreshRequest (rt : string) : Client.FetchRequest :=
  {| Client.fr_url := (Client.API_BASE_URL ++ "/auth/refresh-token")%string;
     Client.fr_method := Some "POST"; Client.fr_authorization := None;
     Client.fr_body := Some (Client.Json [("refreshToken", rt)]) |}.

(** the refresh request gets no usable answer: the network is unreachable,
    the status is not OK, or the body cannot be read *)
Definition refreshFails (net : list Client.NetEvent) : bool :=
  match net with
  | Client.Reply r :: _ =>
      negb (Client.rs_ok r) || match Client.rs_json r with Some _ => false | None => true end
  | _ => true
  end.

(** the browser after a refresh that was answered with the data [d] *)
Definition refreshed (rt : string) (d : gmap string string) (b : Client.Browser)
  : Client.Browser :=
  Client.setItem "refreshToken" (default "undefined" (d !! "refreshToken"))
    (Client.setItem "token" (default "undefined" (d !! "token"))
       (Client.record (refreshRequest rt) b)).

(** the documents of the store that [uid] does not own, in store order *)
Definition others (uid : ObjectId) (db : list Transaction) : list Transaction :=
  List.filter (fun t => negb (oidEqb (userId t) uid)) db.

End Spec.

(** ** What a reply shows *)
Module View.
Import Schema TransactionController.

Definition statsOf (r : Response) : option Stats :=
  match payload r with PStats s _ _ => Some s | _ => None end.

Definition categoryStatsIn (r : Response) : list CategoryStat :=
  match payload r with
  | PStats _ cs _ => cs
  | PCategories cs => cs
  | _ => []
  end.

Definition itemsOf (r : Response) : list Transaction :=
  match payload r with PPage ts _ => ts | _ => [] end.


(** the number of transactions a category roll-up accounts for *)
Definition countedIn (cs : list CategoryStat) : Z :=
  fold_right Z.add 0 (map cs_count cs).


End View.

(** ** Accounts and queries to run the handlers on *)
Module Cases.
Import Schema.

Fixpoint afterColon (s : string) : string :=
  match s with
  | EmptyString => EmptyString
  | String c s' => if Ascii.eqb c ":" then s' else afterColon s'
  end.

(** a stand-in for the hashing library: the hash keeps the salt (which holds
    no colon) in front of the password *)
Definition bcrypt : Bcrypt := {|
  bcryptHash := fun p salt => (salt ++ ":" ++ p)%string;
  bcryptCompare := fun candidate hash => String.eqb (afterColon hash) candidate
|}.

Definition carol : ObjectId := Oid "64c000000000000000000003".
Definition dave : ObjectId := Oid "64d000000000000000000004".

Definition member (id : ObjectId) (n mail pw : string) : User :=
  {| u_id := id; name := n; email := mail; password := bcryptHash (Bcrypt := bcrypt) pw "s1";
     isActive := true; lastLogin := None; passwordResetToken := None;
     passwordResetExpires := None; emailVerified := false |}.

Definition members : list User :=
  [ member carol "Carol" "carol@example.com" "hunter22";
    member dave "Dave" "dave@example.com" "letmein1" ].

(** the expenses, two per page *)
Definition expensesOnly : TransactionController.Query :=
  {| TransactionController.q_page := None; TransactionController.q_limit := Some "2";
     TransactionController.q_type := Some "expense";
     TransactionController.q_category := None;
     TransactionController.q_startDate := None; TransactionController.q_endDate := None;
     TransactionController.q_minAmount := None; TransactionController.q_maxAmount := None;
     TransactionController.q_search := None; TransactionController.q_sortBy := None;
     TransactionController.q_sortOrder := None |}.

End Cases.

(** * Properties *)

Import Schema Store TransactionController Spec.

(** ** Statistics *)
Section Statistics.
Context `{RT : Runtime}.


Lemma groupAll_empty_iff (docs : list Transaction) : groupAll docs = [] <-> docs = [].
Proof. destruct docs; cbn; split; congruence. Qed.


Lemma no_document_in_window (uid : ObjectId) (start : Z) (db : list Transaction) :
  (forall t, In t db -> userId t = uid -> date t < start) ->
  List.filter (inWindow uid (Some start)) db = [].
Proof.
  induction db as [|t db IH]; intros H; [reflexivity|].
  cbn [List.filter].
  rewrite IH by (intros x Hx; apply H; now right).
  unfold inWindow, optTest.
  destruct (oidEqb (userId t) uid) eqn:Ho; [|reflexivity].
  assert (userId t = uid) as Hu.
  { unfold oidEqb in Ho. apply String.eqb_eq in Ho.
    destruct (userId t), uid. cbn in Ho. now subst. }
  specialize (H t (or_introl eq_refl) Hu).
  cbn. destruct (start <=? date t) eqn:Hle; [lia|reflexivity].
Qed.

Lemma startOfPeriod_unnamed (now : Z) (p : string) :
  namedPeriod p = false -> dateFilter now (Some p) = Some now.
Proof.
  unfold namedPeriod, dateFilter, startOfPeriod. cbn [existsb default from_option id].
  intros H.
  destruct (String.eqb p "today"); [discriminate|].
  destruct (String.eqb p "week"); [discriminate|].
  destruct (String.eqb p "month"); [discriminate|].
  destruct (String.eqb p "year"); [discriminate|].
  destruct (String.eqb p "all"); [discriminate|].
  reflexivity.
Qed.

(** C10 (amended): for a [period] that is none of 'today', 'week', 'month',
    'year' or 'all', the window starts at the current instant, and the request
    succeeds with the zeroed statistics for a user whose transactions are all
    dated strictly before that instant. *)
Theorem unnamed_period_starts_now
  (now : Z) (uid : ObjectId) (p : string) (db : list Transaction) :
  namedPeriod p = false ->
  (forall t, In t db -> userId t = uid -> date t < now) ->
  dateFilter now (Some p) = Some now
  /\ getTransactionStats now uid (Some p) db = ok None (PStats zeroStats [] []).
Proof.
  intros Hp Hdb. split; [now apply startOfPeriod_unnamed|].
  unfold getTransactionStats.
  rewrite (startOfPeriod_unnamed now p Hp).
  now rewrite (no_document_in_window uid now db Hdb).
Qed.

End Statistics.


(** C10 as stated fails on the boundary: a transaction dated exactly at the
    request instant is inside the window [date >= now] and is counted. *)
Lemma unnamed_period_counts_the_boundary :
  let now := 1705312800000 in
  let db := [Demo.tx Demo.alice "64a000000000000000000011" Expense (85 # 2) now] in
  namedPeriod "quarter" = false
  /\ (forall t, In t db -> userId t = Demo.alice -> date t <= now)
  /\ getTransactionStats (RT := Demo.runtime) now Demo.alice (Some "quarter") db
     <> ok None (PStats zeroStats [] []).
Proof.
  cbv zeta. split; [reflexivity|]. split.
  - intros t [<-|[]] _. cbn. lia.
  - vm_compute. discriminate.
Qed.

(** C10 (amended) on a store whose only transaction of the caller is dated one
    millisecond before the request. *)
Lemma unnamed_period_starts_now_witness :
  getTransactionStats (RT := Demo.runtime) 1705312800000 Demo.alice (Some "quarter")
    [Demo.tx Demo.alice "64a000000000000000000011" Expense (85 # 2) 1705312799999;
     Demo.tx Demo.bob "64a000000000000000000012" Income 5 1705312800000]
  = ok None (PStats zeroStats [] []).
Proof.
  apply (unnamed_period_starts_now (RT := Demo.runtime)).
  - reflexivity.
  - intros t [<-|[<-|[]]]; cbn; [lia|discriminate].
Defined.

(** ** Listing and pagination *)
Section Pagination.
Context `{RT : Runtime}.

Lemma insertBy_permutation {A} (leb : A -> A -> bool) (x : A) (l : list A) :
  Permutation (insertBy leb x l) (x :: l).
Proof.
  induction l as [|y l IH]; cbn; [reflexivity|].
  destruct (leb x y); [reflexivity|].
  rewrite IH. apply perm_swap.
Qed.

Lemma sortBy_permutation {A} (leb : A -> A -> bool) (l : list A) :
  Permutation (sortBy leb l) l.
Proof.
  induction l as [|x l IH]; cbn; [reflexivity|].
  rewrite insertBy_permutation. now apply perm_skip.
Qed.


(** [ceilDiv] is the ceiling of the quotient: the least number of pages of
    [limit] items that hold [total] items *)
Lemma ceilDiv_covers (total limit : Z) :
  0 <= total -> 1 <= limit ->
  0 <= ceilDiv total limit
  /\ total <= ceilDiv total limit * limit
  /\ (ceilDiv total limit - 1) * limit < total.
Proof.
  intros Ht Hl. unfold ceilDiv.
  pose proof (Z.div_mod (- total) limit ltac:(lia)) as Hdm.
  pose proof (Z.mod_pos_bound (- total) limit ltac:(lia)) as Hb.
  repeat split; nia.
Qed.



End Pagination.


(** ** Ownership *)
Section Ownership.
Context `{RT : Runtime}.

Lemma oidEqb_eq (a b : ObjectId) : oidEqb a b = true <-> a = b.
Proof.
  destruct a as [x], b as [y]. unfold oidEqb. cbn.
  rewrite String.eqb_eq. split; congruence.
Qed.

Lemma oidEqb_neq (a b : ObjectId) : oidEqb a b = false <-> a <> b.
Proof.
  rewrite <- oidEqb_eq. destruct (oidEqb a b); split; congruence.
Qed.

Lemma matches_owner (f : Filter) (t : Transaction) :
  matches f t = true -> userId t = f_userId f.
Proof.
  unfold matches. rewrite !andb_true_iff. intros H.
  apply oidEqb_eq. tauto.
Qed.

Lemma buildFilter_owner (uid : ObjectId) (q : Query) (f : Filter) :
  buildFilter uid q = Some f -> f_userId f = uid.
Proof.
  unfold buildFilter. intros H.
  repeat match type of H with
         | context [castWhen ?c ?o] => destruct (castWhen c o); cbn in H; [|discriminate]
         end.
  now inversion H.
Qed.

Lemma paginate_subset {A} (skip limit : Z) (l page : list A) (x : A) :
  paginate skip limit l = Some page -> In x page -> In x l.
Proof.
  unfold paginate. destruct (skip <? 0); [discriminate|].
  intros [= <-] Hx.
  assert (In x (drop (Z.to_nat skip) l)) as Hd.
  { destruct (limit =? 0); [exact Hx|].
    rewrite <- (take_drop (Z.abs_nat limit) (drop (Z.to_nat skip) l)).
    apply in_or_app. now left. }
  rewrite <- (take_drop (Z.to_nat skip) l). apply in_or_app. now right.
Qed.

(** every document [getTransactions] returns belongs to the caller *)
Lemma getTransactions_own (uid : ObjectId) (q : Query) (db ts : list Transaction)
  (pg : Pagination) (x : Transaction) :
  payload (getTransactions uid q db) = PPage ts pg -> In x ts -> userId x = uid.
Proof.
  unfold getTransactions.
  destruct (buildFilter uid q) as [f|] eqn:Hf; [|discriminate].
  destruct (pageNumber q) as [page|]; [|discriminate].
  destruct (limitNumber q) as [limit|]; [|discriminate].
  destruct (paginate _ _ _) as [page'|] eqn:Hp; [|discriminate].
  cbn. intros [= <- _] Hx.
  apply (paginate_subset _ _ _ _ _ Hp) in Hx.
  unfold selected, sortDocs in Hx.
  apply (Permutation_in _ (sortBy_permutation _ _)) in Hx.
  apply filter_In in Hx as [_ Hm].
  rewrite (matches_owner _ _ Hm). now apply buildFilter_owner with q.
Qed.

Lemma find_owned (oid uid : ObjectId) (db : list Transaction) (x : Transaction) :
  find (ownedWithId oid uid) db = Some x -> userId x = uid /\ _id x = oid /\ In x db.
Proof.
  intros H. apply find_some in H as [Hin Ho].
  unfold ownedWithId in Ho. apply andb_true_iff in Ho as [H1 H2].
  apply oidEqb_eq in H1, H2. auto.
Qed.

Lemma inWindow_other (uid : ObjectId) (start : option Z) (t : Transaction) :
  userId t <> uid -> inWindow uid start t = false.
Proof.
  intros H. unfold inWindow. apply oidEqb_neq in H. now rewrite H.
Qed.

Lemma filter_inWindow_skip (uid : ObjectId) (start : option Z) (t : Transaction)
  (db1 db2 : list Transaction) :
  userId t <> uid ->
  List.filter (inWindow uid start) (db1 ++ t :: db2)
  = List.filter (inWindow uid start) (db1 ++ db2).
Proof.
  intros H. rewrite !List.filter_app. cbn [List.filter].
  now rewrite inWindow_other.
Qed.

Lemma filter_matches_skip (f : Filter) (t : Transaction) (db1 db2 : list Transaction) :
  userId t <> f_userId f ->
  List.filter (matches f) (db1 ++ t :: db2) = List.filter (matches f) (db1 ++ db2).
Proof.
  intros H. rewrite !List.filter_app. cbn [List.filter].
  destruct (matches f t) eqn:Hm; [|reflexivity].
  now apply matches_owner in Hm.
Qed.

Lemma find_skip {A} (p : A -> bool) (x : A) (l1 l2 : list A) :
  p x = false -> find p (l1 ++ x :: l2) = find p (l1 ++ l2).
Proof.
  intros H. induction l1 as [|y l1 IH]; cbn [app find].
  - now rewrite H.
  - now rewrite IH.
Qed.

(** the two reading handlers answer the same with or without a document of
    another user in the store *)
Lemma getTransactions_skip (uid : ObjectId) (q : Query) (t : Transaction)
  (db1 db2 : list Transaction) :
  userId t <> uid ->
  getTransactions uid q (db1 ++ t :: db2) = getTransactions uid q (db1 ++ db2).
Proof.
  intros H. unfold getTransactions, selected.
  destruct (buildFilter uid q) as [f|] eqn:Hf; [|reflexivity].
  apply buildFilter_owner in Hf.
  now rewrite !filter_matches_skip by congruence.
Qed.

Lemma getTransactionById_skip (uid : ObjectId) (id : string) (t : Transaction)
  (db1 db2 : list Transaction) :
  userId t <> uid ->
  getTransactionById uid id (db1 ++ t :: db2) = getTransactionById uid id (db1 ++ db2).
Proof.
  intros H. unfold getTransactionById.
  destruct (castObjectId id) as [oid|]; [|reflexivity].
  rewrite find_skip; [reflexivity|].
  unfold ownedWithId. apply oidEqb_neq in H. rewrite H. apply andb_false_r.
Qed.

Lemma others_updateFirst (uid : ObjectId) (p : Transaction -> bool)
  (g : Transaction -> Transaction) (db : list Transaction) :
  (forall t, p t = true -> userId t = uid) ->
  (forall t, userId (g t) = userId t) ->
  others uid (updateFirst p g db) = others uid db.
Proof.
  intros Hp Hg. unfold others.
  induction db as [|t db IH]; [reflexivity|].
  cbn [updateFirst]. destruct (p t) eqn:Hpt.
  - cbn [List.filter]. rewrite Hg, (Hp t Hpt).
    assert (oidEqb uid uid = true) as -> by now apply oidEqb_eq.
    reflexivity.
  - cbn [List.filter]. now rewrite IH.
Qed.

Lemma others_deleteFirst (uid : ObjectId) (p : Transaction -> bool) (db : list Transaction) :
  (forall t, p t = true -> userId t = uid) ->
  others uid (deleteFirst p db) = others uid db.
Proof.
  intros Hp. unfold others.
  induction db as [|t db IH]; [reflexivity|].
  cbn [deleteFirst]. destruct (p t) eqn:Hpt.
  - cbn [List.filter]. rewrite (Hp t Hpt).
    assert (oidEqb uid uid = true) as -> by now apply oidEqb_eq.
    reflexivity.
  - cbn [List.filter]. now rewrite IH.
Qed.

Lemma others_deleteMany (uid : ObjectId) (p : Transaction -> bool) (db : list Transaction) :
  (forall t, p t = true -> userId t = uid) ->
  others uid (deleteMany p db) = others uid db.
Proof.
  intros Hp. unfold others, deleteMany.
  induction db as [|t db IH]; [reflexivity|].
  cbn [List.filter]. destruct (p t) eqn:Hpt; cbn [negb].
  - rewrite (Hp t Hpt).
    assert (oidEqb uid uid = true) as -> by now apply oidEqb_eq.
    exact IH.
  - cbn [List.filter]. now rewrite IH.
Qed.

Lemma ownedWithId_owner (oid uid : ObjectId) (t : Transaction) :
  ownedWithId oid uid t = true -> userId t = uid.
Proof.
  unfold ownedWithId. rewrite andb_true_iff, !oidEqb_eq. tauto.
Qed.

Lemma ownedAmong_owner (ids : list ObjectId) (uid : ObjectId) (t : Transaction) :
  ownedAmong ids uid t = true -> userId t = uid.
Proof.
  unfold ownedAmong. rewrite andb_true_iff, oidEqb_eq. tauto.
Qed.

Lemma in_others (uid : ObjectId) (t : Transaction) (db : list Transaction) :
  In t (others uid db) <-> In t db /\ userId t <> uid.
Proof.
  unfold others. rewrite filter_In, negb_true_iff, oidEqb_neq. tauto.
Qed.

(** the three mutating handlers leave the documents of every other user as
    they are, in the same order *)
Lemma updateTransaction_others (now : Z) (uid : ObjectId) (id : string) (b : Body)
  (db : list Transaction) :
  others uid (snd (updateTransaction now uid id b db)) = others uid db.
Proof.
  unfold updateTransaction.
  destruct (castObjectId id) as [oid|]; [|reflexivity].
  destruct (updateData b) as [u|]; [|reflexivity].
  destruct (find _ db); [|reflexivity].
  cbn [snd]. apply others_updateFirst; [apply ownedWithId_owner | reflexivity].
Qed.

Lemma deleteTransaction_others (uid : ObjectId) (id : string) (db : list Transaction) :
  others uid (snd (deleteTransaction uid id db)) = others uid db.
Proof.
  unfold deleteTransaction.
  destruct (castObjectId id) as [oid|]; [|reflexivity].
  destruct (find _ db); [|reflexivity].
  cbn [snd]. apply others_deleteFirst, ownedWithId_owner.
Qed.

Lemma bulkDeleteTransactions_others (uid : ObjectId) (ids : option (list string))
  (db : list Transaction) :
  others uid (snd (bulkDeleteTransactions uid ids db)) = others uid db.
Proof.
  unfold bulkDeleteTransactions.
  destruct ids as [[|i ids]|]; try reflexivity.
  destruct (castIds (i :: ids)) as [oids|]; [|reflexivity].
  cbn [snd]. apply others_deleteMany, ownedAmong_owner.
Qed.

(** C3: with [A] as the caller, a transaction [t] of another user [B] is in
    no page of [getTransactions], is never the document [getTransactionById]
    or [updateTransaction] returns, does not enter any reply of the four
    reading handlers (the listing, the lookup, the statistics and the category
    roll-up answer the same with [t] taken out of the store), and is still in
    the store, with all the documents [A] does not own unchanged, after
    [updateTransaction], [deleteTransaction] and [bulkDeleteTransactions],
    whatever identifiers [A] supplies. *)
Theorem ownership_isolation (A B : ObjectId) (t : Transaction) (db : list Transaction) :
  A <> B -> userId t = B -> In t db ->
  (forall q ts pg, payload (getTransactions A q db) = PPage ts pg -> ~ In t ts)
  /\ (forall id, payload (getTransactionById A id db) <> PTransaction t)
  /\ (forall now q id period db1 db2, db = (db1 ++ t :: db2)%list ->
        getTransactions A q db = getTransactions A q (db1 ++ db2)%list
        /\ getTransactionById A id db = getTransactionById A id (db1 ++ db2)%list
        /\ getTransactionStats now A period db
           = getTransactionStats now A period (db1 ++ db2)%list
        /\ getTransactionCategories A db = getTransactionCategories A (db1 ++ db2)%list)
  /\ (forall now id b,
        payload (fst (updateTransaction now A id b db)) <> PTransaction t
        /\ others A (snd (updateTransaction now A id b db)) = others A db
        /\ In t (snd (updateTransaction now A id b db)))
  /\ (forall id,
        others A (snd (deleteTransaction A id db)) = others A db
        /\ In t (snd (deleteTransaction A id db)))
  /\ (forall ids,
        others A (snd (bulkDeleteTransactions A ids db)) = others A db
        /\ In t (snd (bulkDeleteTransactions A ids db))).
Proof.
  intros Hne Ht Hin.
  assert (userId t <> A) as Hta by congruence.
  assert (forall db', others A db' = others A db -> In t db') as Hkeep.
  { intros db' Heq. apply (in_others A). rewrite Heq. now apply in_others. }
  refine (conj _ (conj _ (conj _ (conj _ (conj _ _))))).
  - intros q ts pg Hp Hts. apply Hta. eapply getTransactions_own; eauto.
  - intros id. unfold getTransactionById.
    destruct (castObjectId id) as [oid|]; [|discriminate].
    destruct (find _ db) as [x|] eqn:Hx; [|discriminate].
    cbn. intros [= ->]. now apply find_owned in Hx.
  - intros now q id period db1 db2 ->.
    split; [now apply getTransactions_skip|].
    split; [now apply getTransactionById_skip|].
    split.
    + unfold getTransactionStats, monthlyStatsOf.
      now rewrite !filter_inWindow_skip.
    + unfold getTransactionCategories.
      now rewrite !filter_inWindow_skip.
  - intros now id b. split; [|split].
    + unfold updateTransaction.
      destruct (castObjectId id) as [oid|]; [|discriminate].
      destruct (updateData b) as [u|]; [|discriminate].
      destruct (find _ db) as [x|] eqn:Hx; [|discriminate].
      cbn. intros [= Heq]. apply find_owned in Hx as [Hu _].
      apply Hta. rewrite <- Heq. exact Hu.
    + apply updateTransaction_others.
    + apply Hkeep, updateTransaction_others.
  - intros id. split.
    + apply deleteTransaction_others.
    + apply Hkeep, deleteTransaction_others.
  - intros ids. split.
    + apply bulkDeleteTransactions_others.
    + apply Hkeep, bulkDeleteTransactions_others.
Qed.

End Ownership.

(** C3 on the example store: [alice] asks for, and tries to delete, the
    transaction of [bob] by its identifier. *)
Lemma ownership_isolation_witness :
  payload (getTransactionById Demo.alice "64a000000000000000000012" Demo.ledger)
  <> PTransaction Demo.bobsTransaction
  /\ In Demo.bobsTransaction
       (snd (deleteTransaction Demo.alice "64a000000000000000000012" Demo.ledger))
  /\ In Demo.bobsTransaction
       (snd (bulkDeleteTransactions Demo.alice
               (Some ["64a000000000000000000011"; "64a000000000000000000012"])
               Demo.ledger)).
Proof.
  destruct (ownership_isolation (RT := Demo.runtime) Demo.alice Demo.bob
              Demo.bobsTransaction Demo.ledger
              ltac:(discriminate) eq_refl (or_intror (or_introl eq_refl)))
    as (_ & Hget & _ & _ & Hdel & Hbulk).
  split; [apply Hget|]. split; [apply Hdel | apply Hbulk].
Defined.

(** ** Routing *)
Section Routing.
Context `{RT : Runtime}.
Import TransactionRoutes.

(** what [bulkDeleteTransactions] does once it is reached: a missing or empty
    list is refused with status 400, and otherwise exactly the listed
    documents of the caller are removed and counted *)
Lemma bulkDeleteTransactions_controller (uid : ObjectId) (db : list Transaction) :
  (forall ids, ids = None \/ ids = Some [] ->
     bulkDeleteTransactions uid ids db
     = (failure 400 "Transaction IDs array is required" PNone, None, db))
  /\ (forall i ids oids, castIds (i :: ids) = Some oids ->
        bulkDeleteTransactions uid (Some (i :: ids)) db
        = (ok (Some "transactions deleted successfully") PNone,
           Some (Z.of_nat (length (List.filter (ownedAmong oids uid) db))),
           List.filter (fun t => negb (ownedAmong oids uid t)) db)).
Proof.
  split.
  - intros ids [-> | ->]; reflexivity.
  - intros i ids oids H. unfold bulkDeleteTransactions. now rewrite H.
Qed.

(** C4: a [DELETE] request for [/bulk] is taken by the route ['/:id'], which
    is registered before ['/bulk']: [deleteTransaction] runs with the
    identifier "bulk", the cast fails, and the reply is a 500 with the store
    unchanged, whatever the list of identifiers in the body. *)
Theorem delete_bulk_never_reaches_bulkDelete
  (now : Z) (newId uid : ObjectId) (q : Query) (period : option string) (b : Body)
  (ids : option (list string)) (db : list Transaction) :
  dispatch routes DELETE ["bulk"] = Some (DeleteTransaction, Some "bulk")
  /\ handle now newId
       {| r_method := DELETE; r_path := ["bulk"]; r_userId := uid; r_query := q;
          r_period := period; r_body := b; r_transactionIds := ids |} db
     = (failure 500 "Error deleting transaction" (PError CastError), db).
Proof. split; reflexivity. Qed.

End Routing.

(** the example of the specification, on the controller and through the
    router: the controller removes the one listed document of the caller, the
    router answers 500 and removes nothing *)
Lemma bulk_delete_example :
  snd (fst (bulkDeleteTransactions Demo.alice
              (Some ["64a000000000000000000011"; "64a000000000000000000012"])
              Demo.ledger)) = Some 1
  /\ TransactionRoutes.handle (RT := Demo.runtime) 0 Demo.alice
       (Demo.bulkRequest ["64a000000000000000000011"; "64a000000000000000000012"])
       Demo.ledger
     = (failure 500 "Error deleting transaction" (PError CastError), Demo.ledger).
Proof. split; reflexivity. Qed.

(** ** The auth service *)
Section Auth.
Context `{RT : Runtime}.
Import AuthController.

(** an access token carries no [type] claim *)
Lemma generateToken_type (env : Env) (now : Z) (id : ObjectId) :
  tk_type (generateToken env now id) = None.
Proof. reflexivity. Qed.

(** C5: a token whose payload does not carry the type claim 'refresh' is
    answered with status 401 and no new token pair, also when its signature
    verifies and it has not expired. *)
Theorem refreshToken_rejects_other_types
  (env : Env) (now : Z) (t : Token) (users : list User) :
  tk_type t <> Some "refresh" ->
  status (refreshToken env now (Jwt t) users) = 401
  /\ success (refreshToken env now (Jwt t) users) = false
  /\ token (refreshToken env now (Jwt t) users) = None
  /\ refreshToken_ (refreshToken env now (Jwt t) users) = None.
Proof.
  intros Hty. unfold refreshToken.
  destruct (verify t (refreshSecret env) now) as [[|]|decoded] eqn:Hv;
    [repeat split .. |].
  assert (decoded = t) as ->.
  { unfold verify in Hv.
    destruct (negb _); [discriminate|].
    destruct (_ <=? _); [discriminate|]. now inversion Hv. }
  destruct (tk_type t) as [ty|]; [|repeat split].
  destruct (String.eqb ty "refresh") eqn:He; [|repeat split].
  apply String.eqb_eq in He. now subst.
Qed.



End Auth.

(** C5 on an access token the service issued itself: the token verifies under
    the refresh secret and has not expired, and the reply is still a 401. *)
Lemma refreshToken_rejects_other_types_witness :
  let env := Demo.env "production" in
  let access := AuthController.generateToken env 0 Demo.alice in
  AuthController.verify access (AuthController.refreshSecret env) 1000 = inr access
  /\ AuthController.status
       (AuthController.refreshToken env 1000 (AuthController.Jwt access) Demo.users) = 401
  /\ AuthController.token
       (AuthController.refreshToken env 1000 (AuthController.Jwt access) Demo.users) = None.
Proof.
  cbv zeta. split; [reflexivity|].
  destruct (refreshToken_rejects_other_types (Demo.env "production") 1000
              (AuthController.generateToken (Demo.env "production") 0 Demo.alice)
              Demo.users ltac:(discriminate)) as (Hs & _ & Ht & _).
  split; [exact Hs | exact Ht].
Defined.



(** ** Creating and updating *)
Section Crud.
Context `{RT : Runtime}.
Import TransactionRoutes.

Lemma bind_Some {A B} (o : option A) (k : A -> option B) (b : B) :
  o ≫= k = Some b -> exists a, o = Some a /\ k a = Some b.
Proof. destruct o as [a|]; cbn; [eauto | discriminate]. Qed.

Lemma check_Some {A} (p : A -> bool) (a b : A) :
  check p a = Some b -> a = b /\ p a = true.
Proof. unfold check. destruct (p a) eqn:H; [|discriminate]. now intros [= <-]. Qed.

(** takes the first step of a chain of binds apart *)
Ltac bind_step H x Hx :=
  apply bind_Some in H as (x & Hx & H).

Lemma newTransaction_fields (now : Z) (newId uid : ObjectId) (b : Body) (t : Transaction) :
  newTransaction now newId uid b = Some t ->
  userId t = uid /\ _id t = newId
  /\ exists a, b_amount b = Some a /\ amountValid a = true /\ amount t = a.
Proof.
  unfold newTransaction. intros H.
  bind_step H ty Hty. bind_step H a Ha.
  apply bind_Some in Ha as (v & Hv & Hc). apply check_Some in Hc as [-> Hvalid].
  bind_step H c Hc. bind_step H d Hd. bind_step H ts Hts. bind_step H i Hi.
  inversion H. cbn.
  split; [reflexivity|]. split; [reflexivity|].
  eexists. split; [exact Hv|]. now split.
Qed.

Lemma amountValid_positive (a : Q) : amountValid a = true -> Qle_bool a 0 = false.
Proof.
  unfold amountValid. rewrite andb_true_iff, negb_true_iff. tauto.
Qed.

(** the schema alone: [createTransaction] answers an amount that is not
    positive with its 500 reply, and stores nothing *)
Lemma createTransaction_schema_rejects (now : Z) (newId uid : ObjectId) (b : Body)
  (db : list Transaction) (a : Q) :
  b_amount b = Some a -> ~ (0 < a)%Q ->
  createTransaction now newId uid b db
  = (failure 500 "Error creating transaction" (PError ValidationError), db).
Proof.
  intros Ha Hle. unfold createTransaction.
  destruct (newTransaction now newId uid b) as [t|] eqn:Ht; [|reflexivity].
  apply newTransaction_fields in Ht as (_ & _ & a' & Ha' & Hv & _).
  rewrite Ha in Ha'. injection Ha' as <-.
  apply amountValid_positive in Hv.
  destruct Hle. apply Qnot_le_lt. intros Hc.
  apply Qle_bool_iff in Hc. congruence.
Qed.

(** C8: on [POST /api/transactions], an amount that is not strictly greater
    than 0 is answered with status 400 and nothing is stored; a body the
    schema accepts is stored as a new transaction whose owner is the caller,
    with status 201; and whatever the body, the store is unchanged or has
    gained exactly one transaction owned by the caller. *)
Theorem create_request
  (now : Z) (newId uid : ObjectId) (q : Query) (period : option string) (b : Body)
  (ids : option (list string)) (db : list Transaction) :
  let r := {| r_method := POST; r_path := []; r_userId := uid; r_query := q;
              r_period := period; r_body := b; r_transactionIds := ids |} in
  (forall a, b_amount b = Some a -> ~ (0 < a)%Q ->
     handle now newId r db = (validationFailed, db) /\ status validationFailed = 400)
  /\ (forall t, newTransaction now newId uid b = Some t ->
        handle now newId r db
        = ({| status := 201; success := true;
              message := Some "Transaction created successfully";
              payload := PTransaction t |}, (db ++ [t])%list)
        /\ userId t = uid)
  /\ (snd (handle now newId r db) = db
      \/ exists t, snd (handle now newId r db) = (db ++ [t])%list
                   /\ userId t = uid
                   /\ status (fst (handle now newId r db)) = 201).
Proof.
  intros r. unfold handle. cbn [dispatch routes r_method r_path r methodEqb matchPattern
                                 r_body r_userId].
  refine (conj _ (conj _ _)).
  - intros a Ha Hle. unfold validateTransaction. rewrite Ha.
    destruct (Qle_bool a 0) eqn:Hq; [now split|].
    destruct Hle. apply Qnot_le_lt. intros Hc.
    apply Qle_bool_iff in Hc. congruence.
  - intros t Ht.
    destruct (newTransaction_fields _ _ _ _ _ Ht) as (Hu & _ & a & Ha & Hv & _).
    unfold validateTransaction. rewrite Ha, (amountValid_positive a Hv). cbn [negb].
    unfold createTransaction. rewrite Ht. now split.
  - destruct (validateTransaction b); [|now left].
    unfold createTransaction.
    destruct (newTransaction now newId uid b) as [t|] eqn:Ht; [|now left].
    right. exists t. cbn. repeat split.
    now apply newTransaction_fields in Ht.
Qed.

Lemma updateFirst_split (p : Transaction -> bool) (g : Transaction -> Transaction)
  (db : list Transaction) (t : Transaction) :
  find p db = Some t ->
  exists db1 db2, db = (db1 ++ t :: db2)%list
                  /\ updateFirst p g db = (db1 ++ g t :: db2)%list.
Proof.
  induction db as [|x db IH]; [discriminate|].
  cbn [find updateFirst]. destruct (p x).
  - intros [= ->]. now exists [], db.
  - intros H. destruct (IH H) as (db1 & db2 & -> & ->).
    now exists (x :: db1), db2.
Qed.

Lemma castField_None {A B} (cast : A -> option B) (r : option B) :
  castField cast None = Some r -> r = None.
Proof. now intros [= <-]. Qed.

Lemma updateData_absent (b : Body) (u : Update) :
  updateData b = Some u ->
  (b_type b = None -> up_type u = None)
  /\ (b_amount b = None -> up_amount u = None)
  /\ (b_category b = None -> up_category u = None)
  /\ (b_description b = None -> up_description u = None)
  /\ (b_tags b = None -> up_tags u = None)
  /\ (b_isRecurring b = None -> up_isRecurring u = None)
  /\ (b_recurringInterval b = None -> up_recurringInterval u = None)
  /\ (b_date b = None -> up_date u = None).
Proof.
  unfold updateData. intros H.
  bind_step H ty Hty. bind_step H a Ha. bind_step H c Hc.
  bind_step H d Hd. bind_step H ts Hts. bind_step H i Hi.
  inversion H. cbn.
  repeat split; intros Hn; try exact Hn;
    match goal with
    | Hf : castField _ ?o = Some _ |- _ =>
        match type of Hn with o = None => rewrite Hn in Hf; now inversion Hf end
    end.
Qed.

(** C9 (amended): when the identifier is well formed, the supplied fields
    pass the validators and the caller owns a transaction with that
    identifier, that one document is replaced, in place, by a document that
    differs from it only in the supplied fields and in [updatedAt] (set to the
    time of the update): the identifier, the owner, the attachments, the
    creation time and every field the body does not supply keep their values,
    and every other document is unchanged.  When the caller owns no such
    transaction, the reply is a 404 and the store is unchanged; when the
    identifier is malformed or a supplied field is invalid, the reply is a
    500 and the store is unchanged. *)
Theorem updateTransaction_frame
  (now : Z) (uid : ObjectId) (id : string) (b : Body) (db : list Transaction) :
  (forall oid u t,
     castObjectId id = Some oid -> updateData b = Some u ->
     find (ownedWithId oid uid) db = Some t ->
     exists db1 db2 t',
       db = (db1 ++ t :: db2)%list
       /\ updateTransaction now uid id b db
          = (ok (Some "Transaction updated successfully") (PTransaction t'),
             (db1 ++ t' :: db2)%list)
       /\ t' = applyUpdate now u t
       /\ _id t' = _id t /\ userId t' = userId t
       /\ attachments t' = attachments t /\ createdAt t' = createdAt t
       /\ updatedAt t' = now
       /\ (b_type b = None -> type t' = type t)
       /\ (b_amount b = None -> amount t' = amount t)
       /\ (b_category b = None -> category t' = category t)
       /\ (b_description b = None -> description t' = description t)
       /\ (b_tags b = None -> tags t' = tags t)
       /\ (b_isRecurring b = None -> isRecurring t' = isRecurring t)
       /\ (b_recurringInterval b = None -> recurringInterval t' = recurringInterval t)
       /\ (b_date b = None -> date t' = date t))
  /\ (forall oid u,
        castObjectId id = Some oid -> updateData b = Some u ->
        find (ownedWithId oid uid) db = None ->
        updateTransaction now uid id b db = (failure 404 "Transaction not found" PNone, db))
  /\ (castObjectId id = None \/ updateData b = None ->
        snd (updateTransaction now uid id b db) = db
        /\ status (fst (updateTransaction now uid id b db)) = 500).
Proof.
  refine (conj _ (conj _ _)).
  - intros oid u t Hid Hu Ht.
    destruct (updateFirst_split _ (applyUpdate now u) _ _ Ht) as (db1 & db2 & Hdb & Hup).
    exists db1, db2, (applyUpdate now u t).
    destruct (updateData_absent b u Hu) as (H1 & H2 & H3 & H4 & H5 & H6 & H7 & H8).
    split; [exact Hdb|]. split.
    { unfold updateTransaction. now rewrite Hid, Hu, Ht, Hup. }
    repeat split; intros Hn; cbn.
    + now rewrite (H1 Hn).
    + now rewrite (H2 Hn).
    + now rewrite (H3 Hn).
    + now rewrite (H4 Hn).
    + now rewrite (H5 Hn).
    + now rewrite (H6 Hn).
    + now rewrite (H7 Hn).
    + now rewrite (H8 Hn).
  - intros oid u Hid Hu Hfind. unfold updateTransaction.
    now rewrite Hid, Hu, Hfind.
  - intros [Hid | Hu]; unfold updateTransaction.
    + now rewrite Hid.
    + destruct (castObjectId id); [rewrite Hu|]; now split.
Qed.

End Crud.

(** C8 on the example of the specification and on an amount of 0. *)
Lemma create_request_witness :
  TransactionRoutes.handle (RT := Demo.runtime) 1705312800000
    (Oid "64a000000000000000000015") (Demo.createRequest (Demo.amountOnly 0)) Demo.ledger
  = (TransactionRoutes.validationFailed, Demo.ledger)
  /\ exists t,
       snd (TransactionRoutes.handle (RT := Demo.runtime) 1705312800000
              (Oid "64a000000000000000000015") (Demo.createRequest Demo.lunch) Demo.ledger)
       = (Demo.ledger ++ [t])%list
       /\ userId t = Demo.alice /\ amount t = (85 # 2)%Q /\ type t = Expense.
Proof.
  split.
  - destruct (create_request (RT := Demo.runtime) 1705312800000
                (Oid "64a000000000000000000015") Demo.alice Demo.emptyQuery None
                (Demo.amountOnly 0) None Demo.ledger) as (H400 & _ & _).
    apply (H400 0%Q eq_refl). intros H. discriminate H.
  - destruct (create_request (RT := Demo.runtime) 1705312800000
                (Oid "64a000000000000000000015") Demo.alice Demo.emptyQuery None
                Demo.lunch None Demo.ledger) as (_ & H201 & _).
    eexists. destruct (H201 _ eq_refl) as [Heq Hu].
    split; [exact (f_equal snd Heq)|]. split; [exact Hu|]. split; reflexivity.
Defined.

(** C9 as stated fails twice: an identifier that is not a well-formed
    [ObjectId] names no transaction of the caller, and the reply is a 500, not
    a 404; and an update that supplies the amount alone also changes
    [updatedAt]. *)
Lemma updateTransaction_not_found_and_frame_fail :
  ((forall t, In t Demo.ledger -> oidHex (_id t) <> "xyz")
   /\ castObjectId "xyz" = None
   /\ status (fst (updateTransaction 1705312800000 Demo.alice "xyz"
                     (Demo.amountOnly 12) Demo.ledger)) = 500)
  /\ exists t t',
       find (ownedWithId (Oid "64a000000000000000000011") Demo.alice) Demo.ledger = Some t
       /\ payload (fst (updateTransaction 1705312800000 Demo.alice
                          "64a000000000000000000011" (Demo.amountOnly 12) Demo.ledger))
          = PTransaction t'
       /\ updatedAt t = 1705276800000
       /\ updatedAt t' = 1705312800000.
Proof.
  split.
  - split; [|split; reflexivity].
    intros t [<-|[<-|[<-|[<-|[]]]]]; discriminate.
  - eexists _, _. repeat split.
Qed.

(** C9 (amended) on the example store: an update of the amount of a
    transaction of the caller, and an update aimed at a transaction of
    another user. *)
Lemma updateTransaction_frame_witness :
  (exists t',
     payload (fst (updateTransaction 1705312800000 Demo.alice "64a000000000000000000011"
                     (Demo.amountOnly 12) Demo.ledger)) = PTransaction t'
     /\ userId t' = Demo.alice /\ category t' = "Food" /\ date t' = 1705276800000
     /\ updatedAt t' = 1705312800000)
  /\ updateTransaction 1705312800000 Demo.alice "64b000000000000000000012"
       (Demo.amountOnly 12) Demo.ledger
     = (failure 404 "Transaction not found" PNone, Demo.ledger).
Proof.
  destruct (updateTransaction_frame 1705312800000 Demo.alice "64a000000000000000000011"
              (Demo.amountOnly 12) Demo.ledger) as (Hfound & _ & _).
  destruct (updateTransaction_frame 1705312800000 Demo.alice "64b000000000000000000012"
              (Demo.amountOnly 12) Demo.ledger) as (_ & Hmissing & _).
  split; [|exact (Hmissing _ _ eq_refl eq_refl eq_refl)].
  destruct (Hfound _ _ _ eq_refl eq_refl eq_refl)
    as (db1 & db2 & t' & _ & Heq & _ & _ & Hu & _ & _ & Hnow & _ & _ & Hc & _ & _ & _ & _ & Hd).
  exists t'. rewrite Heq. split; [reflexivity|].
  split; [exact Hu|]. split; [exact (Hc eq_refl)|]. split; [exact (Hd eq_refl) | exact Hnow].
Defined.

(** ** The client's recovery from a 401 *)
Section ClientRecovery.
Import Client.

Lemma fetch_refreshRequest (rt : string) (b : Browser) (net : list NetEvent) :
  fetch (refreshRequest rt) b net
  = match net with
    | [] => (inl TypeError, record (refreshRequest rt) b, [])
    | Unreachable :: net' => (inl TypeError, record (refreshRequest rt) b, net')
    | Reply r :: net' => (inr r, record (refreshRequest rt) b, net')
    end.
Proof. reflexivity. Qed.

Lemma refreshToken_unfold (rt : string) (b : Browser) (net : list NetEvent) :
  getItem "refreshToken" b = Some rt -> JsString.truthy rt = true ->
  refreshToken b net
  = match fetch (refreshRequest rt) b net with
    | (inr response, b1, net1) =>
        if rs_ok response then
          match rs_json response with
          | Some d =>
              (true,
               setItem "refreshToken" (default "undefined" (d !! "refreshToken"))
                 (setItem "token" (default "undefined" (d !! "token")) b1), net1)
          | None => (false, clearAndRedirect b1, net1)
          end
        else (false, clearAndRedirect b1, net1)
    | (inl _, b1, net1) => (false, clearAndRedirect b1, net1)
    end.
Proof. intros Hrt Ht. unfold refreshToken. now rewrite Hrt, Ht. Qed.

Lemma refreshToken_fails (rt : string) (b : Browser) (net : list NetEvent) :
  getItem "refreshToken" b = Some rt -> JsString.truthy rt = true ->
  refreshFails net = true ->
  refreshToken b net = (false, clearAndRedirect (record (refreshRequest rt) b), List.tl net).
Proof.
  intros Hrt Ht Hf. rewrite (refreshToken_unfold rt b net Hrt Ht), fetch_refreshRequest.
  destruct net as [|[|r] net']; try reflexivity.
  cbn in Hf. destruct (rs_ok r); [|reflexivity].
  destruct (rs_json r); [discriminate|reflexivity].
Qed.

Lemma refreshToken_succeeds (rt : string) (b : Browser) (r : FetchResponse)
  (d : gmap string string) (net' : list NetEvent) :
  getItem "refreshToken" b = Some rt -> JsString.truthy rt = true ->
  rs_ok r = true -> rs_json r = Some d ->
  refreshToken b (Reply r :: net') = (true, refreshed rt d b, net').
Proof.
  intros Hrt Ht Hok Hd.
  rewrite (refreshToken_unfold rt b _ Hrt Ht), fetch_refreshRequest.
  now rewrite Hok, Hd.
Qed.

Lemma refreshToken_absent (b : Browser) (net : list NetEvent) :
  JsString.truthyOpt (getItem "refreshToken" b) = false ->
  refreshToken b net = (false, b, net).
Proof.
  unfold refreshToken, JsString.truthyOpt.
  destruct (getItem "refreshToken" b) as [rt|]; [|reflexivity].
  now intros ->.
Qed.

Lemma cleared_storage (b : Browser) :
  localStorage (clearAndRedirect b) !! "token" = None
  /\ localStorage (clearAndRedirect b) !! "refreshToken" = None
  /\ localStorage (clearAndRedirect b) !! "user" = None
  /\ href (clearAndRedirect b) = "/".
Proof.
  unfold clearAndRedirect, navigate, removeItem. cbn [localStorage href].
  repeat split.
  - rewrite lookup_delete_ne, lookup_delete_ne by discriminate. apply lookup_delete_eq.
  - rewrite lookup_delete_ne by discriminate. apply lookup_delete_eq.
  - apply lookup_delete_eq.
Qed.

(** the slip in [handleResponse]: the retry is built from the response, whose
    method is [undefined] and whose body is a stream, and [fetch] refuses a
    GET with a body; no request is sent again *)
Lemma replay_is_refused (fuel : nat) (b : Browser) (net : list NetEvent) (url : string) :
  retryRequest fuel b net url None (Some ResponseStream) = (Some (inl TypeError), b, net).
Proof. reflexivity. Qed.

Lemma refreshToken_needs_network (b : Browser) (b' : Browser) (net' : list NetEvent) :
  refreshToken b [] <> (true, b', net').
Proof.
  unfold refreshToken.
  destruct (getItem "refreshToken" b) as [rt|]; [|discriminate].
  destruct (negb (JsString.truthy rt)); discriminate.
Qed.

(** [apiCall] always settles: the recursion budget it starts with suffices *)
Lemma apiCall_settles (b : Browser) (net : list NetEvent) (endpoint : string)
  (method : option string) (body : option BodyInit) :
  fst (fst (apiCall b net endpoint method body)) <> None.
Proof.
  unfold apiCall.
  destruct (fetch _ b net) as [[[e|response] b1] net1]; [discriminate|].
  destruct net1 as [|ev net1]; cbn [length handleResponse].
  - destruct (rs_json response); [|discriminate].
    destruct (rs_ok response); [discriminate|].
    destruct (rs_status response =? 401); [|discriminate].
    destruct (refreshToken b1 []) as [[[] b2] net2] eqn:Hr; [|discriminate].
    now apply refreshToken_needs_network in Hr.
  - destruct (rs_json response); [|discriminate].
    destruct (rs_ok response); [discriminate|].
    destruct (rs_status response =? 401); [|discriminate].
    destruct (refreshToken b1 (ev :: net1)) as [[[] b2] net2]; [|discriminate].
    pose proof (replay_is_refused (length net1) b2 net2 (rs_url response)) as Hrep.
    unfold retryRequest in Hrep. rewrite Hrep. discriminate.
Qed.

(** C7 (amended): on a 401 reply, [handleResponse] calls [refreshToken] once.
    With no refresh token stored, nothing is sent, the stored session is left
    as it is and the call fails with the API error.  With one stored, exactly
    one refresh request is sent; when it gets no usable answer, the token, the
    refresh token and the user are removed, the location is set to "/", and
    the call fails with the API error; when it succeeds, the new pair of
    tokens is stored and the handler goes on to [retryRequest] for the URL of
    the failed reply. *)
Theorem handleResponse_unauthorized
  (fuel : nat) (b : Browser) (net : list NetEvent) (response : FetchResponse)
  (data : gmap string string) :
  rs_json response = Some data -> rs_ok response = false -> rs_status response = 401 ->
  let error := ApiError (errorMessage data) response data in
  (JsString.truthyOpt (getItem "refreshToken" b) = false ->
     handleResponse fuel b net response = (Some (inl error), b, net))
  /\ (forall rt,
        getItem "refreshToken" b = Some rt -> JsString.truthy rt = true ->
        (refreshFails net = true ->
           let b' := clearAndRedirect (record (refreshRequest rt) b) in
           handleResponse fuel b net response = (Some (inl error), b', List.tl net)
           /\ sent b' = (sent b ++ [refreshRequest rt])%list
           /\ localStorage b' !! "token" = None
           /\ localStorage b' !! "refreshToken" = None
           /\ localStorage b' !! "user" = None
           /\ href b' = "/")
        /\ (forall r d net',
              net = Reply r :: net' -> rs_ok r = true -> rs_json r = Some d ->
              refreshToken b net = (true, refreshed rt d b, net')
              /\ sent (refreshed rt d b) = (sent b ++ [refreshRequest rt])%list
              /\ localStorage (refreshed rt d b) !! "token"
                 = Some (default "undefined" (d !! "token"))
              /\ localStorage (refreshed rt d b) !! "refreshToken"
                 = Some (default "undefined" (d !! "refreshToken"))
              /\ exists method body,
                   handleResponse (S fuel) b net response
                   = retryRequest fuel (refreshed rt d b) net' (rs_url response)
                       method body)).
Proof.
  intros Hdata Hok Hstatus error.
  assert (forall n, handleResponse n b net response
                    = match refreshToken b net with
                      | (true, b1, net1) =>
                          match n with
                          | O => (None, b1, net1)
                          | S n' => retryRequestWith (handleResponse n') b1 net1
                                      (rs_url response) None (Some ResponseStream)
                          end
                      | (false, b1, net1) => (Some (inl error), b1, net1)
                      end) as Hunfold.
  { intros n. destruct n; cbn [handleResponse]; now rewrite Hdata, Hok, Hstatus. }
  split.
  - intros Hnone. now rewrite Hunfold, refreshToken_absent.
  - intros rt Hrt Ht. split.
    + intros Hfail b'. split.
      * now rewrite Hunfold, (refreshToken_fails rt b net Hrt Ht Hfail).
      * split; [reflexivity|]. apply cleared_storage.
    + intros r d net' -> Hrok Hd.
      pose proof (refreshToken_succeeds rt b r d net' Hrt Ht Hrok Hd) as Hr.
      split; [exact Hr|]. split; [reflexivity|]. split.
      { unfold refreshed, setItem. cbn [localStorage].
        rewrite lookup_insert_ne by discriminate. apply lookup_insert_eq. }
      split.
      { unfold refreshed, setItem. cbn [localStorage]. apply lookup_insert_eq. }
      exists None, (Some ResponseStream). now rewrite Hunfold, Hr.
Qed.

End ClientRecovery.

(** C7 as stated fails when no refresh token is stored: the 401 is not
    followed by a refresh request, the call fails, and the stored token and
    user stay where they are, with the location unchanged. *)
Lemma unauthorized_without_refresh_token_keeps_session :
  exists e b',
    Client.apiCall Demo.staleSession [Client.Reply Demo.unauthorized]
      "/transactions/stats?" None None
    = (Some (inl e), b', [])
    /\ length (Client.sent b') = 1%nat
    /\ Client.localStorage b' !! "token" = Some "t1"
    /\ Client.localStorage b' !! "user" = Some "alice"
    /\ Client.href b' = "/dashboard".
Proof. eexists _, _. repeat split. Qed.

(** C7 on the two ways a stored refresh token is used: the refresh is refused
    and the session is cleared; the refresh succeeds and the new tokens are
    stored. *)
Lemma handleResponse_unauthorized_witness :
  (exists e b',
     Client.handleResponse 1 Demo.fullSession [Client.Reply Demo.unauthorized]
       Demo.unauthorized
     = (Some (inl e), b', [])
     /\ Client.localStorage b' !! "token" = None
     /\ Client.localStorage b' !! "user" = None
     /\ Client.href b' = "/")
  /\ Client.refreshToken Demo.fullSession [Client.Reply Demo.freshTokens]
     = (true, refreshed "r1" {[ "token" := "t2"; "refreshToken" := "r2" ]} Demo.fullSession,
        []).
Proof.
  destruct (handleResponse_unauthorized 1 Demo.fullSession
              [Client.Reply Demo.unauthorized] Demo.unauthorized _
              eq_refl eq_refl eq_refl) as (_ & Hused).
  destruct (Hused "r1" eq_refl eq_refl) as (Hfail & _).
  destruct (Hfail eq_refl) as (Heq & _ & Ht & _ & Hu & Hh).
  destruct (handleResponse_unauthorized 1 Demo.fullSession
              [Client.Reply Demo.freshTokens] Demo.unauthorized _
              eq_refl eq_refl eq_refl) as (_ & Hused').
  destruct (Hused' "r1" eq_refl eq_refl) as (_ & Hok).
  destruct (Hok Demo.freshTokens _ [] eq_refl eq_refl eq_refl) as (Hr & _).
  split; [|exact Hr].
  eexists _, _. split; [exact Heq|]. split; [exact Ht|]. split; [exact Hu | exact Hh].
Defined.

(** * Further properties of the handlers *)

(** takes the first step of a chain of binds apart *)
Ltac bind_inv H x Hx :=
  apply bind_Some in H as (x & Hx & H).

(** ** Create, read, update and delete work together *)
Section Lifecycle.
Context `{RT : Runtime}.

Lemma find_app_none {A} (p : A -> bool) (l1 l2 : list A) :
  (forall x, In x l1 -> p x = false) -> find p (l1 ++ l2) = find p l2.
Proof.
  induction l1 as [|y l1 IH]; intros H; [reflexivity|].
  cbn [app find]. rewrite (H y (or_introl eq_refl)).
  apply IH. intros x Hx. apply H. now right.
Qed.

Lemma ownedWithId_true (oid uid : ObjectId) (t : Transaction) :
  ownedWithId oid uid t = true <-> _id t = oid /\ userId t = uid.
Proof. unfold ownedWithId. now rewrite andb_true_iff, !oidEqb_eq. Qed.

Lemma ownedWithId_other_id (oid uid : ObjectId) (t : Transaction) :
  _id t <> oid -> ownedWithId oid uid t = false.
Proof.
  intros H. destruct (ownedWithId oid uid t) eqn:He; [|reflexivity].
  apply ownedWithId_true in He. tauto.
Qed.

(** X1: A transaction that was just created is what [getTransactionById] returns
    to its owner for the new identifier, and any other user gets the 404
    reply; the identifier is one the store did not hold before. *)
Theorem create_then_get
  (now : Z) (newId uid other : ObjectId) (id : string) (b : Body)
  (db : list Transaction) (t : Transaction) :
  newTransaction now newId uid b = Some t ->
  castObjectId id = Some newId ->
  (forall x, In x db -> _id x <> newId) ->
  other <> uid ->
  getTransactionById uid id (snd (createTransaction now newId uid b db))
  = ok None (PTransaction t)
  /\ getTransactionById other id (snd (createTransaction now newId uid b db))
     = failure 404 "Transaction not found" PNone.
Proof.
  intros Ht Hid Hfresh Hother.
  destruct (newTransaction_fields _ _ _ _ _ Ht) as (Hu & Hi & _).
  unfold createTransaction, getTransactionById. rewrite Ht, Hid. cbn [snd].
  rewrite !find_app_none
    by (intros x Hx; apply ownedWithId_other_id; now apply Hfresh).
  cbn [find].
  assert (ownedWithId newId uid t = true) as -> by now apply ownedWithId_true.
  split; [reflexivity|].
  destruct (ownedWithId newId other t) eqn:He; [|reflexivity].
  apply ownedWithId_true in He as [_ He]. congruence.
Qed.

Lemma find_updateFirst (p : Transaction -> bool) (g : Transaction -> Transaction)
  (db : list Transaction) (t : Transaction) :
  find p db = Some t -> p (g t) = true -> find p (updateFirst p g db) = Some (g t).
Proof.
  induction db as [|x db IH]; [discriminate|].
  cbn [find updateFirst]. destruct (p x) eqn:Hx.
  - intros [= ->] Hg. cbn [find]. now rewrite Hg.
  - intros Hf Hg. cbn [find]. rewrite Hx. now apply IH.
Qed.

(** X2: After a successful [updateTransaction], [getTransactionById] for the same
    identifier returns the document the update replied with. *)
Theorem update_then_get
  (now : Z) (uid : ObjectId) (id : string) (b : Body) (db : list Transaction)
  (t' : Transaction) :
  payload (fst (updateTransaction now uid id b db)) = PTransaction t' ->
  getTransactionById uid id (snd (updateTransaction now uid id b db))
  = ok None (PTransaction t').
Proof.
  unfold updateTransaction, getTransactionById.
  destruct (castObjectId id) as [oid|]; [|discriminate].
  destruct (updateData b) as [u|]; [|discriminate].
  destruct (find (ownedWithId oid uid) db) as [t|] eqn:Ht; [|discriminate].
  cbn [fst snd payload ok]. intros [= <-].
  rewrite (find_updateFirst _ (applyUpdate now u) db t Ht); [reflexivity|].
  apply find_some in Ht as [_ Ht]. exact Ht.
Qed.

Lemma deleteFirst_split (p : Transaction -> bool) (db : list Transaction) (t : Transaction) :
  find p db = Some t ->
  exists db1 db2, db = (db1 ++ t :: db2)%list
                  /\ (forall x, In x db1 -> p x = false)
                  /\ deleteFirst p db = (db1 ++ db2)%list.
Proof.
  induction db as [|x db IH]; [discriminate|].
  cbn [find deleteFirst]. destruct (p x) eqn:Hx.
  - intros [= ->]. exists [], db. repeat split. intros y [].
  - intros H. destruct (IH H) as (db1 & db2 & -> & Hn & ->).
    exists (x :: db1), db2. repeat split.
    intros y [<-|Hy]; [exact Hx | now apply Hn].
Qed.

(** X3: [deleteTransaction] answers 200 exactly when the caller owns a
    transaction with the identifier; it then removes that one document and
    nothing else, and, identifiers being unique in the store, a second delete
    and a lookup of the same identifier both get the 404 reply. *)
Theorem delete_removes_one
  (uid : ObjectId) (id : string) (db : list Transaction) :
  status (fst (deleteTransaction uid id db)) = 200 ->
  List.NoDup (map _id db) ->
  exists db1 t db2,
    db = (db1 ++ t :: db2)%list
    /\ Some (_id t) = castObjectId id /\ userId t = uid
    /\ snd (deleteTransaction uid id db) = (db1 ++ db2)%list
    /\ deleteTransaction uid id (db1 ++ db2)
       = (failure 404 "Transaction not found" PNone, (db1 ++ db2)%list)
    /\ getTransactionById uid id (db1 ++ db2)
       = failure 404 "Transaction not found" PNone.
Proof.
  unfold deleteTransaction, getTransactionById.
  destruct (castObjectId id) as [oid|]; [|discriminate].
  destruct (find (ownedWithId oid uid) db) as [t|] eqn:Ht; [|discriminate].
  intros _ Hnd.
  destruct (deleteFirst_split _ _ _ Ht) as (db1 & db2 & -> & Hn & Hdel).
  apply find_some in Ht as [_ Ht]. apply ownedWithId_true in Ht as [Hi Hu].
  exists db1, t, db2. cbn [snd]. rewrite Hdel.
  assert (find (ownedWithId oid uid) (db1 ++ db2) = None) as Hgone.
  { destruct (find _ (db1 ++ db2)) as [x|] eqn:Hx; [|reflexivity].
    apply find_some in Hx as [Hin Hx]. apply ownedWithId_true in Hx as [Hxi _].
    rewrite map_app in Hnd. cbn [map] in Hnd.
    apply List.NoDup_remove_2 in Hnd. destruct Hnd.
    rewrite <- map_app, Hi, <- Hxi. now apply in_map. }
  rewrite Hgone. repeat split; congruence.
Qed.

Lemma castIds_cons (i : string) (ids : list string) (oids : list ObjectId) :
  castIds (i :: ids) = Some oids -> oids <> [].
Proof.
  cbn. destruct (castObjectId i); [|discriminate].
  destruct (castIds ids); [|discriminate]. now intros [= <-].
Qed.

Lemma filter_length_split {A} (p : A -> bool) (l : list A) :
  (length (List.filter p l) + length (List.filter (fun x => negb (p x)) l))%nat = length l.
Proof.
  induction l as [|x l IH]; [reflexivity|].
  cbn [List.filter]. destruct (p x); cbn [negb length]; lia.
Qed.

Lemma filter_none {A} (p : A -> bool) (l : list A) :
  (forall x, In x l -> p x = false) -> List.filter p l = [].
Proof.
  induction l as [|x l IH]; intros H; [reflexivity|].
  cbn [List.filter]. rewrite (H x (or_introl eq_refl)).
  apply IH. intros y Hy. apply H. now right.
Qed.

Lemma filter_twice {A} (p : A -> bool) (l : list A) :
  List.filter p (List.filter p l) = List.filter p l.
Proof.
  induction l as [|x l IH]; [reflexivity|].
  cbn [List.filter]. destruct (p x) eqn:Hx; [|exact IH].
  cbn [List.filter]. now rewrite Hx, IH.
Qed.

(** X4: [bulkDeleteTransactions] on a non-empty list of well-formed identifiers:
    the count it reports is the number of documents the store lost, a document
    stays exactly when it is not both listed and owned by the caller, and the
    same request sent again reports 0 and changes nothing. *)
Theorem bulk_delete_count_and_repeat
  (uid : ObjectId) (ids : list string) (oids : list ObjectId) (db : list Transaction) :
  ids <> [] -> castIds ids = Some oids ->
  exists n db',
    bulkDeleteTransactions uid (Some ids) db
    = (ok (Some "transactions deleted successfully") PNone, Some n, db')
    /\ n = Z.of_nat (length db) - Z.of_nat (length db')
    /\ (forall t, In t db' <-> In t db /\ ~ (In (_id t) oids /\ userId t = uid))
    /\ bulkDeleteTransactions uid (Some ids) db'
       = (ok (Some "transactions deleted successfully") PNone, Some 0, db').
Proof.
  intros Hne Hcast.
  destruct ids as [|i ids]; [contradiction|].
  unfold bulkDeleteTransactions. rewrite Hcast.
  eexists _, _. split; [reflexivity|].
  assert (forall t, ownedAmong oids uid t = true <-> In (_id t) oids /\ userId t = uid)
    as Hspec.
  { intros t. unfold ownedAmong. rewrite andb_true_iff, oidEqb_eq, existsb_exists.
    split.
    - intros [(o & Ho & He) Hu]. apply oidEqb_eq in He. now subst.
    - intros [Ho Hu]. split; [|exact Hu]. exists (_id t). split; [exact Ho|].
      now apply oidEqb_eq. }
  split; [|split].
  - unfold deleteMany.
    pose proof (filter_length_split (ownedAmong oids uid) db). lia.
  - intros t. unfold deleteMany. rewrite filter_In, negb_true_iff, <- Hspec.
    destruct (ownedAmong oids uid t); split; intros [? ?]; split; congruence.
  - assert (List.filter (ownedAmong oids uid) (deleteMany (ownedAmong oids uid) db) = [])
      as Hnone.
    { apply filter_none. intros x Hx. unfold deleteMany in Hx.
      apply filter_In in Hx as [_ Hx]. now apply negb_true_iff. }
    rewrite Hnone. cbn [length Z.of_nat].
    unfold deleteMany. now rewrite filter_twice.
Qed.

Lemma map_updateFirst {B} (h : Transaction -> B) (p : Transaction -> bool)
  (g : Transaction -> Transaction) (db : list Transaction) :
  (forall t, h (g t) = h t) -> map h (updateFirst p g db) = map h db.
Proof.
  intros Hg. induction db as [|x db IH]; [reflexivity|].
  cbn [updateFirst]. destruct (p x); cbn [map]; now rewrite ?Hg, ?IH.
Qed.

Lemma NoDup_map_filter {A B} (h : A -> B) (p : A -> bool) (l : list A) :
  List.NoDup (map h l) -> List.NoDup (map h (List.filter p l)).
Proof.
  induction l as [|x l IH]; cbn [map List.filter]; intros H; [constructor|].
  inversion H as [|? ? Hx Hl]; subst.
  destruct (p x); [|now apply IH].
  cbn [map]. constructor; [|now apply IH].
  intros Hin. apply Hx. apply in_map_iff in Hin as (y & Hy & Hin).
  apply filter_In in Hin as [Hin _]. rewrite <- Hy. now apply in_map.
Qed.

Lemma NoDup_map_deleteFirst {B} (h : Transaction -> B) (p : Transaction -> bool)
  (db : list Transaction) :
  List.NoDup (map h db) -> List.NoDup (map h (deleteFirst p db)).
Proof.
  induction db as [|x db IH]; cbn [map deleteFirst]; intros H; [constructor|].
  inversion H as [|? ? Hx Hl]; subst.
  destruct (p x); [exact Hl|].
  cbn [map]. constructor; [|now apply IH].
  intros Hin. apply Hx. clear - Hin.
  induction db as [|y db IHdb]; [destruct Hin|].
  cbn [deleteFirst] in Hin. destruct (p y).
  - now right.
  - destruct Hin as [Hy|Hin]; [now left | right; now apply IHdb].
Qed.

(** X5: The identifiers of the store stay pairwise distinct under every handler:
    [createTransaction] with an identifier the store does not hold yet,
    [updateTransaction] (which also keeps the identifier and the owner of
    every document, position by position), [deleteTransaction] and
    [bulkDeleteTransactions]. *)
Theorem identifiers_stay_unique
  (now : Z) (newId uid : ObjectId) (id : string) (b : Body)
  (ids : option (list string)) (db : list Transaction) :
  List.NoDup (map _id db) ->
  ((forall x, In x db -> _id x <> newId) ->
     List.NoDup (map _id (snd (createTransaction now newId uid b db))))
  /\ map _id (snd (updateTransaction now uid id b db)) = map _id db
  /\ map userId (snd (updateTransaction now uid id b db)) = map userId db
  /\ List.NoDup (map _id (snd (deleteTransaction uid id db)))
  /\ List.NoDup (map _id (snd (bulkDeleteTransactions uid ids db))).
Proof.
  intros Hnd. refine (conj _ (conj _ (conj _ (conj _ _)))).
  - intros Hfresh. unfold createTransaction.
    destruct (newTransaction now newId uid b) as [t|] eqn:Ht; [|exact Hnd].
    cbn [snd]. rewrite map_app. cbn [map].
    apply List.NoDup_app; [exact Hnd | repeat constructor; intros [] |].
    intros o Ho [<-|[]]. apply in_map_iff in Ho as (x & Hx & Hin).
    apply (Hfresh x Hin). rewrite Hx.
    now destruct (newTransaction_fields _ _ _ _ _ Ht) as (_ & -> & _).
  - unfold updateTransaction.
    destruct (castObjectId id); [|reflexivity].
    destruct (updateData b); [|reflexivity].
    destruct (find _ db); [|reflexivity].
    cbn [snd]. now apply map_updateFirst.
  - unfold updateTransaction.
    destruct (castObjectId id); [|reflexivity].
    destruct (updateData b); [|reflexivity].
    destruct (find _ db); [|reflexivity].
    cbn [snd]. now apply map_updateFirst.
  - unfold deleteTransaction.
    destruct (castObjectId id); [|exact Hnd].
    destruct (find _ db); [|exact Hnd].
    cbn [snd]. now apply NoDup_map_deleteFirst.
  - unfold bulkDeleteTransactions.
    destruct ids as [[|i ids]|]; try exact Hnd.
    destruct (castIds (i :: ids)); [|exact Hnd].
    cbn [snd]. now apply NoDup_map_filter.
Qed.

End Lifecycle.

(** ** What a listing holds *)
Section Listing.
Context `{RT : Runtime}.

Lemma castWhen_value {A} (cast : string -> option A) (s : string) (v : A) (r : option A) :
  JsString.truthy s = true -> cast s = Some v ->
  castWhen cast (Some s) = Some r -> r = Some v.
Proof. unfold castWhen. intros -> ->. cbn. now intros [= <-]. Qed.

Lemma buildFilter_fields (uid : ObjectId) (q : Query) (f : Filter) :
  buildFilter uid q = Some f ->
  f_userId f = uid
  /\ f_type f = (if JsString.truthyOpt (q_type q) then q_type q else None)
  /\ castWhen regexCompile (q_category q) = Some (f_category f)
  /\ castWhen parseDate (q_startDate q) = Some (f_dateGte f)
  /\ castWhen parseDate (q_endDate q) = Some (f_dateLte f)
  /\ castWhen parseFloat (q_minAmount q) = Some (f_amountGte f)
  /\ castWhen parseFloat (q_maxAmount q) = Some (f_amountLte f)
  /\ castWhen regexCompile (q_search q) = Some (f_or f).
Proof.
  unfold buildFilter. intros H.
  bind_inv H c Hc. bind_inv H d1 Hd1. bind_inv H d2 Hd2.
  bind_inv H a1 Ha1. bind_inv H a2 Ha2. bind_inv H sr Hsr.
  inversion H. cbn. repeat split; assumption.
Qed.

Lemma listed_matches (uid : ObjectId) (q : Query) (db : list Transaction) (x : Transaction) :
  In x (View.itemsOf (getTransactions uid q db)) ->
  exists f, buildFilter uid q = Some f /\ matches f x = true /\ In x db.
Proof.
  unfold View.itemsOf, getTransactions.
  destruct (buildFilter uid q) as [f|] eqn:Hf; [|intros []].
  destruct (pageNumber q) as [page|]; [|intros []].
  destruct (limitNumber q) as [limit|]; [|intros []].
  destruct (paginate _ _ _) as [ts|] eqn:Hp; [|intros []].
  cbn. intros Hx.
  apply (paginate_subset _ _ _ _ _ Hp) in Hx.
  unfold selected, sortDocs in Hx.
  apply (Permutation_in _ (sortBy_permutation _ _)) in Hx.
  apply filter_In in Hx as [Hin Hm]. eauto.
Qed.

(** X6: Every transaction [getTransactions] lists belongs to the caller and
    satisfies each condition the query gives: the type, the category pattern,
    the bounds on the date and on the amount, and, for a search term, a match
    in the description, the category or one of the tags. *)
Theorem listed_transactions_satisfy_the_query
  (uid : ObjectId) (q : Query) (db : list Transaction) (x : Transaction) :
  In x (View.itemsOf (getTransactions uid q db)) ->
  In x db /\ userId x = uid
  /\ (forall s, q_type q = Some s -> JsString.truthy s = true -> typeName (type x) = s)
  /\ (forall s r, q_category q = Some s -> JsString.truthy s = true ->
        regexCompile s = Some r -> r (category x) = true)
  /\ (forall s d, q_startDate q = Some s -> JsString.truthy s = true ->
        parseDate s = Some d -> d <= date x)
  /\ (forall s d, q_endDate q = Some s -> JsString.truthy s = true ->
        parseDate s = Some d -> date x <= d)
  /\ (forall s a, q_minAmount q = Some s -> JsString.truthy s = true ->
        parseFloat s = Some a -> (a <= amount x)%Q)
  /\ (forall s a, q_maxAmount q = Some s -> JsString.truthy s = true ->
        parseFloat s = Some a -> (amount x <= a)%Q)
  /\ (forall s r, q_search q = Some s -> JsString.truthy s = true ->
        regexCompile s = Some r ->
        (exists d, description x = Some d /\ r d = true)
        \/ r (category x) = true
        \/ exists tag, In tag (tags x) /\ r tag = true).
Proof.
  intros Hx. destruct (listed_matches _ _ _ _ Hx) as (f & Hf & Hm & Hin).
  destruct (buildFilter_fields _ _ _ Hf) as (Hu & Hty & Hc & Hd1 & Hd2 & Ha1 & Ha2 & Hs).
  unfold matches in Hm. rewrite !andb_true_iff in Hm.
  destruct Hm as (((((((Mu & Mty) & Mc) & Md1) & Md2) & Ma1) & Ma2) & Ms).
  split; [exact Hin|]. split; [apply oidEqb_eq in Mu; congruence|].
  refine (conj _ (conj _ (conj _ (conj _ (conj _ (conj _ _)))))).
  - intros s Hq Ht. rewrite Hty, Hq in Mty. cbn in Mty. rewrite Ht in Mty.
    cbn in Mty. now apply String.eqb_eq.
  - intros s r Hq Ht Hr. rewrite Hq in Hc.
    rewrite (castWhen_value _ _ _ _ Ht Hr Hc) in Mc. exact Mc.
  - intros s d Hq Ht Hd. rewrite Hq in Hd1.
    rewrite (castWhen_value _ _ _ _ Ht Hd Hd1) in Md1. cbn in Md1. lia.
  - intros s d Hq Ht Hd. rewrite Hq in Hd2.
    rewrite (castWhen_value _ _ _ _ Ht Hd Hd2) in Md2. cbn in Md2. lia.
  - intros s a Hq Ht Ha. rewrite Hq in Ha1.
    rewrite (castWhen_value _ _ _ _ Ht Ha Ha1) in Ma1. now apply Qle_bool_iff.
  - intros s a Hq Ht Ha. rewrite Hq in Ha2.
    rewrite (castWhen_value _ _ _ _ Ht Ha Ha2) in Ma2. now apply Qle_bool_iff.
  - intros s r Hq Ht Hr. rewrite Hq in Hs.
    rewrite (castWhen_value _ _ _ _ Ht Hr Hs) in Ms. cbn in Ms.
    rewrite !orb_true_iff in Ms. destruct Ms as [[Md|Mcat]|Mtag].
    + left. destruct (description x) as [d|]; [eauto | discriminate].
    + right. now left.
    + right. right. apply existsb_exists in Mtag. exact Mtag.
Qed.

(** X7: A page number beyond the last page gets an empty page with status 200; a
    page number of 0 or less gets the 500 reply, the store refusing a negative
    skip. *)
Theorem pages_out_of_range
  (uid : ObjectId) (q : Query) (db : list Transaction) (f : Filter)
  (limit : Z) (page : option string) (p : Z) :
  buildFilter uid q = Some f ->
  limitNumber q = Some limit -> 1 <= limit ->
  pageNumber (setPage page q) = Some p ->
  (ceilDiv (Z.of_nat (length (List.filter (matches f) db))) limit < p ->
     status (getTransactions uid (setPage page q) db) = 200
     /\ payload (getTransactions uid (setPage page q) db) <> PNone
     /\ View.itemsOf (getTransactions uid (setPage page q) db) = [])
  /\ (p <= 0 ->
        getTransactions uid (setPage page q) db
        = failure 500 "Error fetching transactions" (PError QueryError)).
Proof.
  intros Hf Hlimit Hl Hp.
  unfold getTransactions, View.itemsOf.
  change (buildFilter uid (setPage page q)) with (buildFilter uid q).
  change (limitNumber (setPage page q)) with (limitNumber q).
  rewrite Hf, Hp, Hlimit.
  change (selected f (setPage page q) db) with (selected f q db).
  unfold paginate. split.
  - intros Hbeyond.
    destruct (ceilDiv_covers (Z.of_nat (length (List.filter (matches f) db))) limit
                ltac:(lia) Hl) as (Hn & Hc & _).
    destruct ((p - 1) * limit <? 0) eqn:Hskip; [nia|].
    destruct (limit =? 0) eqn:Hz; [lia|].
    cbn. split; [reflexivity|]. split; [discriminate|].
    rewrite drop_ge; [apply take_nil|].
    unfold selected, sortDocs.
    rewrite (Permutation_length (sortBy_permutation _ _)). nia.
  - intros Hneg. destruct ((p - 1) * limit <? 0) eqn:Hskip; [reflexivity|nia].
Qed.


Lemma insertBy_sorted {A} (leb : A -> A -> bool) (x : A) (l : list A) :
  (forall a b, leb a b = false -> leb b a = true) ->
  Sorted (fun a b => leb a b = true) l ->
  Sorted (fun a b => leb a b = true) (insertBy leb x l).
Proof.
  intros Htotal. induction l as [|y l IH]; intros Hs; cbn [insertBy].
  - repeat constructor.
  - destruct (leb x y) eqn:Hxy.
    + constructor; [exact Hs | now constructor].
    + apply Sorted_inv in Hs as [Hs Hhd]. constructor; [now apply IH|].
      destruct l as [|z l]; cbn [insertBy].
      * constructor. now apply Htotal.
      * destruct (leb x z); constructor; [now apply Htotal|].
        now inversion Hhd.
Qed.

Lemma sortBy_sorted {A} (leb : A -> A -> bool) (l : list A) :
  (forall a b, leb a b = false -> leb b a = true) ->
  Sorted (fun a b => leb a b = true) (sortBy leb l).
Proof.
  intros Htotal. induction l as [|x l IH]; cbn; [constructor|].
  now apply insertBy_sorted.
Qed.


Lemma Sorted_take {A} (R : A -> A -> Prop) (n : nat) (l : list A) :
  Sorted R l -> Sorted R (take n l).
Proof.
  revert l. induction n as [|n IH]; intros l Hs; [constructor|].
  destruct l as [|x l]; [constructor|].
  cbn. apply Sorted_inv in Hs as [Hs Hhd]. constructor; [now apply IH|].
  destruct l as [|y l]; [rewrite take_nil; constructor|].
  destruct n; cbn; constructor. now inversion Hhd.
Qed.

Lemma Sorted_weaken {A} (R R' : A -> A -> Prop) (l : list A) :
  (forall a b, R a b -> R' a b) -> Sorted R l -> Sorted R' l.
Proof.
  intros Hw. induction 1 as [|x l Hs IH Hhd]; constructor; [exact IH|].
  destruct Hhd; constructor. now apply Hw.
Qed.


End Listing.

(** ** What the statistics add up to *)
Section Rollups.
Context `{RT : Runtime}.









(** X11: [Transaction.getUserStats] and [getTransactionStats] without a period (or
    with 'all') report the same totals, count, average and net amount. *)
Theorem getUserStats_agrees
  (now : Z) (uid : ObjectId) (period : option string) (db : list Transaction) :
  default "all" period = "all" ->
  exists s,
    View.statsOf (getTransactionStats now uid period db) = Some s
    /\ totalIncome (getUserStats uid db) = totalIncome s
    /\ totalExpenses (getUserStats uid db) = totalExpenses s
    /\ totalTransactions (getUserStats uid db) = totalTransactions s
    /\ avgTransactionAmount (getUserStats uid db) = avgTransactionAmount s
    /\ netAmount (getUserStats uid db) = netAmount s.
Proof.
  intros Hall. unfold getTransactionStats, getUserStats, View.statsOf, dateFilter.
  rewrite Hall. cbn [String.eqb Ascii.eqb Bool.eqb].
  destruct (List.filter (inWindow uid None) db) as [|d rest]; cbn; eexists; repeat split.
Qed.

End Rollups.

(** ** Categories *)
Section Categories.
Context `{RT : Runtime}.

Lemma in_distinct (l : list string) (k : string) :
  In k (distinct String.eqb l) <-> In k l.
Proof.
  induction l as [|x l IH]; cbn [distinct]; [reflexivity|].
  cbn [In]. rewrite filter_In, IH, negb_true_iff.
  destruct (String.eqb_spec x k) as [->|Hne]; [tauto|].
  split; [tauto|]. intros [H|H]; [tauto|]. right. now split.
Qed.

Lemma NoDup_distinct (l : list string) : List.NoDup (distinct String.eqb l).
Proof.
  induction l as [|x l IH]; cbn [distinct]; constructor.
  - rewrite filter_In, negb_true_iff, String.eqb_refl. intros [_ H]. discriminate.
  - now apply List.NoDup_filter.
Qed.

(** how many documents of [l] have the category [k] *)
Lemma count_once (ks : list string) (k : string) :
  List.NoDup ks -> In k ks ->
  fold_right Z.add 0 (map (fun k' => if String.eqb k' k then 1 else 0) ks) = 1.
Proof.
  induction ks as [|x ks IH]; intros Hnd Hin; [destruct Hin|].
  inversion Hnd as [|? ? Hx Hks]; subst. cbn [map fold_right].
  destruct (String.eqb_spec x k) as [->|Hne].
  - assert (fold_right Z.add 0 (map (fun k' => if String.eqb k' k then 1 else 0) ks) = 0)
      as ->; [|reflexivity].
    clear IH Hnd Hin Hks. induction ks as [|y ks IH]; [reflexivity|].
    cbn [map fold_right].
    destruct (String.eqb_spec y k) as [->|_]; [destruct Hx; now left|].
    rewrite IH; [reflexivity|]. intros H. apply Hx. now right.
  - destruct Hin as [->|Hin]; [contradiction|]. now rewrite IH.
Qed.

Lemma groups_cover (ks : list string) (l : list Transaction) :
  List.NoDup ks -> (forall t, In t l -> In (category t) ks) ->
  fold_right Z.add 0
    (map (fun k => Z.of_nat (length (List.filter (fun x => String.eqb k (category x)) l))) ks)
  = Z.of_nat (length l).
Proof.
  intros Hnd. induction l as [|t l IH]; intros Hin.
  - cbn. clear. induction ks as [|k ks IH]; [reflexivity | cbn; now rewrite IH].
  - specialize (IH (fun x Hx => Hin x (or_intror Hx))).
    pose proof (count_once ks (category t) Hnd (Hin t (or_introl eq_refl))) as Hone.
    assert (forall ks',
              fold_right Z.add 0
                (map (fun k => Z.of_nat (length (List.filter
                                 (fun x => String.eqb k (category x)) (t :: l)))) ks')
              = fold_right Z.add 0
                  (map (fun k' => if String.eqb k' (category t) then 1 else 0) ks')
                + fold_right Z.add 0
                    (map (fun k => Z.of_nat (length (List.filter
                                     (fun x => String.eqb k (category x)) l))) ks'))
      as Hstep.
    { induction ks' as [|k ks' IHk]; [reflexivity|].
      cbn [map fold_right]. rewrite IHk. cbn [List.filter].
      destruct (String.eqb k (category t)); cbn [length]; lia. }
    rewrite Hstep, Hone, IH. cbn [length]. lia.
Qed.

Lemma countedIn_permutation (a b : list CategoryStat) :
  Permutation a b -> View.countedIn a = View.countedIn b.
Proof.
  unfold View.countedIn. induction 1; cbn [map fold_right]; lia.
Qed.

Lemma groupCategories_ids (docs : list Transaction) :
  map cs_id (groupCategories docs) = distinct String.eqb (map category docs).
Proof.
  unfold groupCategories, groupBy. rewrite !map_map.
  rewrite <- (map_id (distinct _ _)) at 2. now apply map_ext.
Qed.

Lemma groupCategories_counted (docs : list Transaction) :
  View.countedIn (groupCategories docs) = Z.of_nat (length docs).
Proof.
  unfold View.countedIn, groupCategories, groupBy. rewrite !map_map. cbn [cs_count].
  apply groups_cover; [apply NoDup_distinct|].
  intros t Ht. apply in_distinct. now apply in_map.
Qed.

(** X12: The category roll-up of [getTransactionCategories] names every category
    of the caller's transactions exactly once, accounts for every one of the
    caller's transactions in exactly one entry (the counts add up to their
    number), and lists the entries by falling count. *)
Theorem categories_partition (uid : ObjectId) (db : list Transaction) :
  let mine := List.filter (inWindow uid None) db in
  let cs := View.categoryStatsIn (getTransactionCategories uid db) in
  List.NoDup (map cs_id cs)
  /\ (forall c, In c (map cs_id cs) <-> exists t, In t mine /\ category t = c)
  /\ View.countedIn cs = Z.of_nat (length mine)
  /\ Sorted (fun a b => cs_count b <= cs_count a) cs.
Proof.
  intros mine cs.
  assert (Permutation cs (groupCategories mine)) as Hperm
    by apply sortBy_permutation.
  refine (conj _ (conj _ (conj _ _))).
  - eapply Permutation_NoDup; [symmetry; apply Permutation_map, Hperm|].
    rewrite groupCategories_ids. apply NoDup_distinct.
  - intros c. rewrite (Permutation_in' eq_refl (Permutation_map cs_id Hperm)).
    rewrite groupCategories_ids, in_distinct, in_map_iff.
    split; intros (t & H1 & H2); exists t; tauto.
  - rewrite (countedIn_permutation _ _ Hperm). apply groupCategories_counted.
  - unfold cs, getTransactionCategories, View.categoryStatsIn. cbn [payload ok].
    eapply Sorted_weaken; [|apply sortBy_sorted].
    + intros a b. cbn beta. lia.
    + intros a b. cbn beta. lia.
Qed.

(** X13: The category breakdown inside [getTransactionStats] has at most ten
    entries, each for a different category of the window, in the order of
    falling totals; its count for a category is the number of the caller's
    transactions of that category in the window. *)
Theorem category_breakdown_top_ten
  (now : Z) (uid : ObjectId) (period : option string) (db : list Transaction) :
  let window := List.filter (inWindow uid (dateFilter now period)) db in
  let cs := View.categoryStatsIn (getTransactionStats now uid period db) in
  (length cs <= 10)%nat
  /\ List.NoDup (map cs_id cs)
  /\ Sorted (fun a b => (cs_total b <= cs_total a)%Q) cs
  /\ (forall c, In c cs ->
        cs_count c
        = Z.of_nat (length (List.filter (fun t => String.eqb (cs_id c) (category t)) window))
        /\ 1 <= cs_count c).
Proof.
  intros window cs.
  assert (cs = categoryStatsOf window) as ->.
  { unfold cs, getTransactionStats, View.categoryStatsIn. fold window.
    destruct window as [|d rest]; reflexivity. }
  unfold categoryStatsOf.
  set (sorted := sortBy _ (groupCategories window)).
  assert (Permutation sorted (groupCategories window)) as Hperm
    by apply sortBy_permutation.
  assert (List.NoDup (map cs_id sorted)) as Hnd.
  { eapply Permutation_NoDup; [symmetry; apply Permutation_map, Hperm|].
    rewrite groupCategories_ids. apply NoDup_distinct. }
  refine (conj _ (conj _ (conj _ _))).
  - rewrite length_take. lia.
  - rewrite <- (take_drop 10 sorted), map_app in Hnd.
    now apply List.NoDup_app_remove_r in Hnd.
  - apply Sorted_take. unfold sorted.
    eapply Sorted_weaken; [|apply sortBy_sorted].
    + intros a b. cbn beta. apply Qle_bool_iff.
    + intros a b. cbn beta. intros H.
      apply Qle_bool_iff, Qlt_le_weak, Qnot_le_lt.
      intros Hle. apply Qle_bool_iff in Hle. congruence.
  - intros c Hc.
    assert (In c (groupCategories window)) as Hin.
    { apply (Permutation_in _ Hperm).
      rewrite <- (take_drop 10 sorted). apply in_or_app. now left. }
    unfold groupCategories, groupBy in Hin.
    apply in_map_iff in Hin as ([k ts] & <- & Hin).
    apply in_map_iff in Hin as (k' & [= <- <-] & Hk).
    cbn [cs_count cs_id]. split; [reflexivity|].
    apply in_distinct, in_map_iff in Hk as (t & <- & Ht).
    assert (In t (List.filter (fun x => String.eqb (category t) (category x)) window))
      as Hmem by (apply filter_In; split; [exact Ht | apply String.eqb_refl]).
    destruct (List.filter _ window); [destruct Hmem | cbn [length]; lia].
Qed.

End Categories.

(** ** The routing table, as the router reads it *)
Section RoutingTable.
Import TransactionRoutes.

(** X14: Which handler a request reaches: the root serves POST and GET; a single
    segment serves GET (the statistics and the categories for the two reserved
    words, in any case of letters, the lookup for any other segment), PUT and
    DELETE; nothing else matches, and no request reaches
    [bulkDeleteTransactions]. *)
Theorem dispatch_table (m : Method) (path : list string) :
  dispatch routes m path
  = match m, path with
    | POST, [] => Some (CreateTransaction, None)
    | GET, [] => Some (GetTransactions, None)
    | GET, [x] =>
        if String.eqb (JsString.lower x) "stats" then Some (GetTransactionStats, None)
        else if String.eqb (JsString.lower x) "categories"
             then Some (GetTransactionCategories, None)
             else if JsString.truthy x then Some (GetTransactionById, Some x) else None
    | PUT, [x] => if JsString.truthy x then Some (UpdateTransaction, Some x) else None
    | DELETE, [x] => if JsString.truthy x then Some (DeleteTransaction, Some x) else None
    | _, _ => None
    end
  /\ forall param, dispatch routes m path <> Some (BulkDeleteTransactions, param).
Proof.
  assert (forall x, JsString.truthy x = false -> String.eqb (JsString.lower x) "bulk" = false)
    as Hempty.
  { intros [|c x]; [reflexivity | discriminate]. }
  destruct m; destruct path as [|x [|y rest]]; cbn [dispatch routes methodEqb matchPattern];
    (split; [|intros param]); try reflexivity; try discriminate.
  - destruct (String.eqb (JsString.lower x) "stats"); [reflexivity|].
    destruct (String.eqb (JsString.lower x) "categories"); [reflexivity|].
    destruct (JsString.truthy x); reflexivity.
  - destruct (String.eqb (JsString.lower x) "stats"); [discriminate|].
    destruct (String.eqb (JsString.lower x) "categories"); [discriminate|].
    destruct (JsString.truthy x); discriminate.
  - destruct (JsString.truthy x); reflexivity.
  - destruct (JsString.truthy x); discriminate.
  - destruct (JsString.truthy x) eqn:Hx; [reflexivity|]. now rewrite Hempty.
  - destruct (JsString.truthy x) eqn:Hx; [discriminate|]. now rewrite Hempty.
Qed.

End RoutingTable.

(** ** The properties above on the example store *)

Lemma ledger_identifiers_distinct : List.NoDup (map _id Demo.ledger).
Proof.
  repeat constructor; cbn; intuition discriminate.
Qed.

Lemma create_then_get_witness :
  exists t,
    getTransactionById Demo.alice "64A000000000000000000015"
      (snd (createTransaction 1705312800000 (Oid "64a000000000000000000015") Demo.alice
              Demo.lunch Demo.ledger))
    = ok None (PTransaction t)
    /\ category t = "Food & Dining"
    /\ getTransactionById Demo.bob "64A000000000000000000015"
         (snd (createTransaction 1705312800000 (Oid "64a000000000000000000015") Demo.alice
                 Demo.lunch Demo.ledger))
       = failure 404 "Transaction not found" PNone.
Proof.
  eexists.
  destruct (create_then_get 1705312800000 (Oid "64a000000000000000000015") Demo.alice
              Demo.bob "64A000000000000000000015" Demo.lunch Demo.ledger _
              eq_refl eq_refl) as [Hown Hother].
  - intros x [<-|[<-|[<-|[<-|[]]]]]; discriminate.
  - discriminate.
  - split; [exact Hown|]. split; [reflexivity | exact Hother].
Defined.

Lemma update_then_get_witness :
  exists t',
    getTransactionById Demo.alice "64a000000000000000000011"
      (snd (updateTransaction 1705312800000 Demo.alice "64a000000000000000000011"
              (Demo.amountOnly 12) Demo.ledger))
    = ok None (PTransaction t')
    /\ amount t' = 12%Q.
Proof.
  eexists. split.
  - apply update_then_get. reflexivity.
  - reflexivity.
Defined.

Lemma delete_removes_one_witness :
  snd (deleteTransaction Demo.alice "64a000000000000000000013" Demo.ledger)
  = [ Demo.tx Demo.alice "64a000000000000000000011" Expense (85 # 2) 1705276800000;
      Demo.bobsTransaction;
      Demo.tx Demo.alice "64a000000000000000000014" Expense 10 1705287600000 ]
  /\ exists db',
       snd (deleteTransaction Demo.alice "64a000000000000000000013" Demo.ledger) = db'
       /\ getTransactionById Demo.alice "64a000000000000000000013" db'
          = failure 404 "Transaction not found" PNone.
Proof.
  split; [reflexivity|].
  destruct (delete_removes_one Demo.alice "64a000000000000000000013" Demo.ledger
              eq_refl ledger_identifiers_distinct)
    as (db1 & t & db2 & _ & _ & _ & Hdb & _ & Hget).
  exists (db1 ++ db2)%list. split; [exact Hdb | exact Hget].
Defined.

Lemma bulk_delete_count_and_repeat_witness :
  exists db',
    bulkDeleteTransactions Demo.alice
      (Some ["64a000000000000000000011"; "64a000000000000000000012"]) Demo.ledger
    = (ok (Some "transactions deleted successfully") PNone, Some 1, db')
    /\ In Demo.bobsTransaction db'
    /\ bulkDeleteTransactions Demo.alice
         (Some ["64a000000000000000000011"; "64a000000000000000000012"]) db'
       = (ok (Some "transactions deleted successfully") PNone, Some 0, db').
Proof.
  destruct (bulk_delete_count_and_repeat Demo.alice
              ["64a000000000000000000011"; "64a000000000000000000012"] _ Demo.ledger
              ltac:(discriminate) eq_refl)
    as (n & db' & Hfirst & Hn & Hin & Hagain).
  injection Hfirst as <- <-.
  eexists. split; [reflexivity|]. split; [|exact Hagain].
  left. reflexivity.
Defined.

Lemma identifiers_stay_unique_witness :
  List.NoDup (map _id (snd (createTransaction 1705312800000
                             (Oid "64a000000000000000000015") Demo.alice
                             Demo.lunch Demo.ledger)))
  /\ List.NoDup (map _id (snd (deleteTransaction Demo.alice "64a000000000000000000013"
                                 Demo.ledger))).
Proof.
  destruct (identifiers_stay_unique 1705312800000 (Oid "64a000000000000000000015")
              Demo.alice "64a000000000000000000013" Demo.lunch None Demo.ledger
              ledger_identifiers_distinct) as (Hcreate & _ & _ & Hdelete & _).
  split; [|exact Hdelete].
  apply Hcreate. intros x [<-|[<-|[<-|[<-|[]]]]]; discriminate.
Defined.

(** ** Accounts: tokens, login and the middleware *)
Section Sessions.
Context `{RT : Runtime} `{BC : Bcrypt}.
Import AuthController UserModel AuthMiddleware JsText.

Lemma verify_accepts (t : Token) (secret : string) (now : Z) (t' : Token) :
  verify t secret now = inr t' <->
  t' = t /\ tk_key t = secret /\ now / 1000 < tk_exp t.
Proof.
  unfold verify.
  destruct (String.eqb_spec (tk_key t) secret) as [He|He]; cbn [negb].
  - destruct (tk_exp t <=? now / 1000) eqn:Hexp.
    + split; [discriminate|]. intros (_ & _ & H). lia.
    + split; [intros [= <-] | intros (-> & _ & _); reflexivity].
      repeat split; [exact He | lia].
  - split; [discriminate | tauto].
Qed.

Lemma refreshToken_accepts (env : Env) (now : Z) (t : AuthController.Token)
  (users : list User) (user : User) :
  tk_key t = refreshSecret env -> now / 1000 < tk_exp t ->
  tk_type t = Some "refresh" ->
  find (fun u => oidEqb (u_id u) (tk_id t)) users = Some user ->
  isActive user = true ->
  refreshToken env now (Jwt t) users
  = {| status := 200; success := true; message := "";
       token := Some (generateToken env now (u_id user));
       refreshToken_ := Some (generateRefreshToken env now (u_id user));
       resetToken := None |}.
Proof.
  intros Hk He Hty Hu Ha. unfold refreshToken.
  assert (verify t (refreshSecret env) now = inr t) as ->
    by (apply verify_accepts; auto).
  now rewrite Hty, Hu, Ha.
Qed.

(** X15: [refreshToken] answers 200 exactly for a token that is signed with the
    refresh secret, has not expired, carries the type 'refresh' and names a
    user who exists and is active; the reply then holds a new access token
    and a new refresh token for that user. *)
Theorem refreshToken_succeeds_iff
  (env : Env) (now : Z) (presented : Presented) (users : list User) :
  status (refreshToken env now presented users) = 200 <->
  exists t user,
    presented = Jwt t
    /\ tk_key t = refreshSecret env /\ now / 1000 < tk_exp t
    /\ tk_type t = Some "refresh"
    /\ find (fun u => oidEqb (u_id u) (tk_id t)) users = Some user
    /\ isActive user = true
    /\ refreshToken env now presented users
       = {| status := 200; success := true; message := "";
            token := Some (generateToken env now (u_id user));
            refreshToken_ := Some (generateRefreshToken env now (u_id user));
            resetToken := None |}.
Proof.
  split.
  - unfold refreshToken. destruct presented as [|s|t]; try discriminate.
    destruct (verify t (refreshSecret env) now) as [[|]|decoded] eqn:Hv; try discriminate.
    apply verify_accepts in Hv as (-> & Hk & He).
    destruct (tk_type t) as [ty|] eqn:Hty; [|discriminate].
    destruct (String.eqb_spec ty "refresh") as [->|]; [|discriminate].
    cbn [negb].
    destruct (find _ users) as [user|] eqn:Hu; [|discriminate].
    destruct (isActive user) eqn:Ha; [|discriminate].
    intros _. exists t, user.
    repeat (split; [first [reflexivity | assumption]|]). reflexivity.
  - intros (t & user & -> & Hk & He & Hty & Hu & Ha & _).
    now rewrite (refreshToken_accepts env now t users user).
Qed.

Lemma append_String (c : ascii) (s r : string) :
  (String c s ++ r)%string = String c (s ++ r)%string.
Proof. reflexivity. Qed.

Lemma append_Empty (r : string) : ("" ++ r)%string = r.
Proof. reflexivity. Qed.

Lemma startsWith_app (p s : string) :
  startsWith p s = true <-> exists rest, s = (p ++ rest)%string.
Proof.
  revert s. induction p as [|a p IH]; intros s; cbn [startsWith].
  - split; [intros _; now exists s | reflexivity].
  - destruct s as [|b s].
    + split; [discriminate | intros [rest H]; rewrite append_String in H; discriminate].
    + rewrite andb_true_iff, IH. split.
      * intros [Hab [rest ->]]. apply Ascii.eqb_eq in Hab. subst. now exists rest.
      * intros [rest H]. rewrite append_String in H. injection H as -> ->.
        split; [apply Ascii.eqb_refl | now exists rest].
Qed.

(** the second piece of a header that starts with "Bearer " is what stands
    between the first space and the next one *)
Lemma second_piece (rest : string) :
  nth_error (split " " ("Bearer " ++ rest)) 1 = Some (hd "" (split " " rest)).
Proof.
  rewrite !append_String, append_Empty.
  cbn. destruct (split " " rest) as [|piece pieces] eqn:Hs; [|reflexivity].
  destruct rest as [|c rest]; cbn in Hs; [discriminate|].
  destruct (Ascii.eqb c " "); [discriminate|].
  destruct (split " " rest); discriminate.
Qed.

(** X16: [authMiddleware] lets a request through, as the user [uid], exactly when
    the header starts with "Bearer " and what follows, up to the next space,
    is a token signed with [JWT_SECRET] that has not expired and carries the
    identifier [uid]; the type claim is not looked at, and anything after a
    second space is ignored.  Every other request gets a 401 reply. *)
Theorem authMiddleware_accepts_iff
  (decode : string -> Presented) (env : Env) (now : Z)
  (authorization : option string) (uid : ObjectId) :
  (authMiddleware decode env now authorization = inr uid <->
   exists rest t,
     authorization = Some ("Bearer " ++ rest)%string
     /\ decode (hd "" (split " " rest)) = Jwt t
     /\ tk_key t = JWT_SECRET env /\ now / 1000 < tk_exp t /\ tk_id t = uid)
  /\ (forall reply, authMiddleware decode env now authorization = inl reply ->
        fst reply = 401).
Proof.
  assert (forall p, authorize env now p = inr uid <->
            exists t, p = Jwt t /\ tk_key t = JWT_SECRET env
                      /\ now / 1000 < tk_exp t /\ tk_id t = uid) as Hauth.
  { intros p. unfold authorize. destruct p as [|s|t].
    - split; [discriminate | intros (t & H & _); discriminate].
    - split; [discriminate | intros (t & H & _); discriminate].
    - destruct (verify t (JWT_SECRET env) now) as [e|d] eqn:Hv.
      + split; [discriminate|]. intros (t' & [= <-] & Hk & He & _).
        assert (verify t (JWT_SECRET env) now = inr t) as Hok
          by (apply verify_accepts; auto).
        congruence.
      + apply verify_accepts in Hv as (-> & Hk & He).
        split; [intros [= <-]; now exists t|].
        intros (t' & [= <-] & _ & _ & <-). reflexivity. }
  assert (forall p reply, authorize env now p = inl reply -> fst reply = 401) as Hdeny.
  { intros p reply. unfold authorize. destruct p as [|s|t]; try (now intros [= <-]).
    destruct (verify _ _ _); [now intros [= <-] | discriminate]. }
  unfold authMiddleware. destruct authorization as [authHeader|].
  - destruct (JsString.truthy authHeader) eqn:Ht; cbn [negb orb].
    + destruct (startsWith "Bearer " authHeader) eqn:Hs; cbn [negb].
      * apply startsWith_app in Hs as [rest ->]. rewrite second_piece. split.
        -- rewrite Hauth. split.
           ++ intros (t & H). exists rest, t. now split.
           ++ intros (rest' & t & [= Hr] & H).
              rewrite !append_Empty in Hr. subst. now exists t.
        -- apply Hdeny.
      * split; [|now intros reply [= <-]].
        split; [discriminate|]. intros (rest & t & [= ->] & _).
        assert (startsWith "Bearer " ("Bearer " ++ rest) = true) as Hyes
          by (apply startsWith_app; now exists rest).
        congruence.
    + split; [|now intros reply [= <-]].
      split; [discriminate|]. intros (rest & t & [= ->] & _).
      rewrite append_String in Ht. discriminate.
  - split; [|now intros reply [= <-]].
    split; [discriminate | intros (rest & t & H & _); discriminate].
Qed.

Lemma find_save (q : User -> bool) (user user' : User) (users : list User) :
  find q users = Some user -> u_id user' = u_id user -> q user' = true ->
  find q (save user' users) = Some user'.
Proof.
  intros Hfind Hid Hq. unfold save.
  induction users as [|v users IH]; [discriminate|].
  cbn [find map] in *.
  destruct (oidEqb (u_id v) (u_id user')) eqn:Hv.
  - now rewrite Hq.
  - destruct (q v) eqn:Hqv; [|now apply IH].
    injection Hfind as ->. rewrite Hid in Hv.
    assert (oidEqb (u_id user) (u_id user) = true) by now apply oidEqb_eq.
    congruence.
Qed.

(** X17: For an email given as it is stored (lower case, no blanks around it): a
    login is answered with status 200 exactly when the email is that of an
    active user and the password matches its hash; every other login, whether
    for an unknown email, an inactive account or a wrong password, gets the
    same 401 reply, without a profile, and leaves the users as they are. *)
Theorem login_fails_uniformly
  (env : Env) (now : Z) (mail p : string) (users : list User) :
  normalizeEmail mail = mail ->
  (status (fst (fst (login env now mail p users))) = 200 <->
   exists user,
     find (fun u => String.eqb (email u) mail && isActive u) users = Some user
     /\ comparePassword user p = true)
  /\ (status (fst (fst (login env now mail p users))) <> 200 ->
      login env now mail p users
      = (reply 401 false "Invalid email or password.", None, users)).
Proof.
  intros _. unfold login.
  destruct (find _ users) as [user|].
  - destruct (comparePassword user p) eqn:Hp; cbn.
    + split; [|intros H; now destruct H]. split; [eauto | reflexivity].
    + split; [|reflexivity].
      split; [discriminate | intros (u & [= <-] & H); congruence].
  - cbn. split; [|reflexivity].
    split; [discriminate | intros (u & H & _); discriminate].
Qed.

Lemma same_id_same_user (users : list User) (a b : User) :
  List.NoDup (map u_id users) -> In a users -> In b users -> u_id a = u_id b -> a = b.
Proof.
  induction users as [|v users IH]; intros Hnd Ha Hb Hid; [destruct Ha|].
  cbn [map] in Hnd. inversion Hnd as [|? ? Hv Hrest]; subst.
  destruct Ha as [->|Ha], Hb as [->|Hb]; [reflexivity | | | now apply IH].
  - destruct Hv. rewrite Hid. now apply in_map.
  - destruct Hv. rewrite <- Hid. now apply in_map.
Qed.

(** saving a document leaves every field alone on which it agrees with the
    stored document of the same identifier *)
Lemma save_frame {B} (h : User -> B) (user user' : User) (users : list User) :
  List.NoDup (map u_id users) -> In user users ->
  u_id user' = u_id user -> h user' = h user ->
  map h (save user' users) = map h users.
Proof.
  intros Hnd Hin Hid Hh. unfold save. rewrite map_map.
  apply map_ext_in. intros v Hv.
  destruct (oidEqb (u_id v) (u_id user')) eqn:He; [|reflexivity].
  apply oidEqb_eq in He. rewrite Hid in He.
  now rewrite (same_id_same_user users v user Hnd Hv Hin He).
Qed.

(** X18: A successful login stamps [lastLogin] on the user and changes nothing
    else: identifiers, emails, passwords and active flags stay.  The access
    token it returns is accepted by the middleware as that user until it
    expires, and the refresh token it returns is accepted by [refreshToken],
    on the users as the login left them, for seven days. *)
Theorem login_session
  (env : Env) (now later : Z) (mail p : string) (users : list User) (user : User) :
  List.NoDup (map u_id users) ->
  find (fun u => String.eqb (email u) mail && isActive u) users = Some user ->
  comparePassword user p = true ->
  exists access refresh users',
    login env now mail p users
    = ({| status := 200; success := true; message := "Login successful";
          token := Some access; refreshToken_ := Some refresh; resetToken := None |},
       Some (getPublicProfile (withLastLogin now user)), users')
    /\ users' = save (withLastLogin now user) users
    /\ map u_id users' = map u_id users /\ map email users' = map email users
    /\ map password users' = map password users
    /\ map isActive users' = map isActive users
    /\ (later / 1000 < now / 1000 + default 86400 (JWT_EXPIRES_IN env) ->
        authorize env later (Jwt access) = inr (u_id user))
    /\ (later / 1000 < now / 1000 + 604800 ->
        status (refreshToken env later (Jwt refresh) users') = 200).
Proof.
  intros Hnd Hfind Hpw.
  pose proof (find_some _ _ Hfind) as [Hin Hq].
  apply andb_true_iff in Hq as [_ Hactive].
  eexists _, _, _. split; [unfold login; rewrite Hfind, Hpw; reflexivity|].
  split; [reflexivity|].
  refine (conj _ (conj _ (conj _ (conj _ (conj _ _)))));
    try (now apply save_frame with user).
  - intros Hlater. unfold authorize.
    assert (verify (generateToken env now (u_id (withLastLogin now user)))
              (JWT_SECRET env) later
            = inr (generateToken env now (u_id (withLastLogin now user)))) as ->.
    { apply verify_accepts. repeat split. exact Hlater. }
    reflexivity.
  - intros Hlater.
    assert (exists first, find (fun u => oidEqb (u_id u) (u_id user)) users = Some first)
      as [first Hfirst].
    { destruct (find (fun u => oidEqb (u_id u) (u_id user)) users) as [f|] eqn:Hf; [eauto|].
      exfalso. apply (find_none _ _ Hf) in Hin.
      assert (oidEqb (u_id user) (u_id user) = true) by now apply oidEqb_eq.
      congruence. }
    assert (first = user) as ->.
    { apply find_some in Hfirst as [Hf1 Hf2]. apply oidEqb_eq in Hf2.
      now apply (same_id_same_user users). }
    rewrite (refreshToken_accepts env later _ _ (withLastLogin now user));
      [reflexivity | reflexivity | exact Hlater | reflexivity | | exact Hactive].
    apply find_save with user; [exact Hfirst | reflexivity | now apply oidEqb_eq].
Qed.

End Sessions.

(** ** Accounts: registration and passwords *)
Section AccountProperties.
Context `{RT : Runtime} `{BC : Bcrypt}.
Import AuthController UserModel.

Lemma emailFree_spec (e : string) (users : list User) :
  emailFree e users = true <-> ~ In e (map email users).
Proof.
  unfold emailFree. rewrite forallb_forall, in_map_iff. split.
  - intros H (u & Hu & Hin). specialize (H u Hin).
    rewrite Hu, String.eqb_refl in H. discriminate.
  - intros H u Hin. destruct (String.eqb_spec (email u) e) as [He|]; [|reflexivity].
    destruct H. eauto.
Qed.


Lemma create_fields (newId : ObjectId) (salt n mail p : string) (users : list User)
  (u : User) :
  create newId salt n mail p users = Some u ->
  u_id u = newId /\ name u = JsString.trim n /\ email u = normalizeEmail mail
  /\ password u = bcryptHash p salt /\ isActive u = true
  /\ passwordResetToken u = None
  /\ passwordValid p = true /\ ~ In (normalizeEmail mail) (map email users).
Proof.
  unfold create.
  destruct (nameValid _ && emailValid _ && passwordValid p && emailFree _ users) eqn:Hv;
    [|discriminate].
  rewrite !andb_true_iff in Hv. destruct Hv as [[[_ _] Hp] Hfree].
  intros [= <-]. cbn. repeat split; try assumption. now apply emailFree_spec.
Qed.


(** X20: After a registration that was answered with 201, a login with the same
    email (given as it is stored: lower case, no surrounding blanks) and the
    same password succeeds as the new user, provided the hashing library
    recognises the password in the hash it produced. *)
Theorem register_then_login
  (env : Env) (now later : Z) (newId : ObjectId) (salt n mail p : string)
  (users : list User) :
  status (fst (fst (register env now newId salt n mail p users))) = 201 ->
  normalizeEmail mail = mail ->
  bcryptCompare p (bcryptHash p salt) = true ->
  exists profile users',
    login env later mail p (snd (register env now newId salt n mail p users))
    = (withTokens 200 "Login successful" env later newId, Some profile, users')
    /\ p_id profile = newId /\ p_email profile = mail
    /\ p_lastLogin profile = Some later.
Proof.
  intros H201 Hnorm Hcmp. unfold register in *.
  destruct (find (fun u => String.eqb (email u) mail) users) as [v|] eqn:Hfind;
    [discriminate|].
  destruct (create newId salt n mail p users) as [u|] eqn:Hc; [|discriminate].
  destruct (create_fields _ _ _ _ _ _ _ Hc) as (Hid & _ & He & Hp & Ha & _).
  cbn [snd]. unfold login.
  assert (find (fun x => String.eqb (email x) mail && isActive x) (users ++ [u]) = Some u)
    as ->.
  { rewrite find_app_none.
    - cbn [find]. now rewrite He, Hnorm, String.eqb_refl, Ha.
    - intros x Hx. apply (find_none _ _ Hfind) in Hx. now rewrite Hx. }
  unfold comparePassword. rewrite Hp, Hcmp. cbn [negb].
  eexists _, _. cbn [u_id withLastLogin]. rewrite Hid.
  split; [reflexivity|]. cbn. rewrite He. auto.
Qed.

(** X21: [changePassword] for an existing user: a wrong current password gets the
    400 reply and changes nothing; with the right one, a new password of at
    least 6 characters is stored as its hash, for that user only, and from
    then on a login with the new password succeeds (the library recognising
    it in its hash), while one with the old password fails when the library
    does not find it in the new hash. *)
Theorem changePassword_outcomes
  (env : Env) (now : Z) (salt : string) (uid : ObjectId) (current new mail : string)
  (users : list User) (user : User) :
  List.NoDup (map u_id users) ->
  find (fun u => oidEqb (u_id u) uid) users = Some user ->
  (comparePassword user current = false ->
     changePassword salt uid current new users
     = (reply 400 false "Current password is incorrect", users))
  /\ (comparePassword user current = true ->
      passwordValid new = true -> new <> password user ->
      let users' := save (withPassword (bcryptHash new salt) user) users in
      changePassword salt uid current new users
      = (reply 200 true "Password changed successfully", users')
      /\ map u_id users' = map u_id users /\ map email users' = map email users
      /\ (forall v, In v users -> u_id v <> uid -> In v users')
      /\ (find (fun u => String.eqb (email u) mail && isActive u) users = Some user ->
          (bcryptCompare new (bcryptHash new salt) = true ->
             status (fst (fst (login env now mail new users'))) = 200)
          /\ (bcryptCompare current (bcryptHash new salt) = false ->
                status (fst (fst (login env now mail current users'))) = 401))).
Proof.
  intros Hnd Hfind.
  pose proof (find_some _ _ Hfind) as [Hin Hid]. apply oidEqb_eq in Hid.
  split.
  - intros Hcur. unfold changePassword. now rewrite Hfind, Hcur.
  - intros Hcur Hvalid Hne users'. unfold changePassword. rewrite Hfind, Hcur.
    cbn [negb]. unfold setPassword.
    destruct (String.eqb_spec new (password user)) as [|_]; [contradiction|].
    rewrite Hvalid. split; [reflexivity|].
    split; [now apply save_frame with user|].
    split; [now apply save_frame with user|].
    split.
    + intros v Hv Hvid. unfold users', save. apply in_map_iff. exists v.
      split; [|exact Hv].
      destruct (oidEqb (u_id v) _) eqn:He; [|reflexivity].
      apply oidEqb_eq in He. cbn in He. congruence.
    + intros Hmail.
      assert (find (fun u => String.eqb (email u) mail && isActive u) users'
              = Some (withPassword (bcryptHash new salt) user)) as Hfound.
      { apply find_save with user; [exact Hmail | reflexivity|].
        apply find_some in Hmail as [_ Hq]. exact Hq. }
      unfold login. rewrite Hfound. unfold comparePassword. cbn [password withPassword].
      split; intros ->; reflexivity.
Qed.

Lemma find_reset_none (now : Z) (h : string) (users : list User) :
  (forall v, In v users -> passwordResetToken v = Some h ->
             exists e, passwordResetExpires v = Some e /\ e <= now) ->
  find (fun u => match passwordResetToken u, passwordResetExpires u with
                 | Some h', Some e => String.eqb h' h && (now <? e)
                 | _, _ => false
                 end) users = None.
Proof.
  intros H. destruct (find _ users) as [v|] eqn:Hf; [|reflexivity].
  apply find_some in Hf as [Hin Hq].
  destruct (passwordResetToken v) as [h'|] eqn:Ht; [|discriminate].
  destruct (passwordResetExpires v) as [e|] eqn:He; [|discriminate].
  apply andb_true_iff in Hq as [Hh Hlt]. apply String.eqb_eq in Hh. subst h'.
  destruct (H v Hin Ht) as (e' & He' & Hle). rewrite He in He'. injection He' as <-. lia.
Qed.

(** X22: A reset token works once and for ten minutes.  After [forgotPassword] for
    an active user, [resetPassword] with the same raw token, less than
    600000 ms later, and a new password of at least 6 characters stores the
    hash of the new password for that user and removes the token; the same
    token presented again, or presented 600000 ms or more after the request,
    gets the 400 reply and changes nothing. *)
Theorem forgot_then_reset
  (env : Env) (now later : Z) (salt random mail new : string)
  (users : list User) (user : User) :
  List.NoDup (map u_id users) ->
  find (fun u => String.eqb (email u) mail && isActive u) users = Some user ->
  (forall v, In v users -> passwordResetToken v <> Some (sha256hex random)) ->
  passwordValid new = true -> new <> password user ->
  let users1 := snd (forgotPassword env now random mail users) in
  let user2 := withoutReset (withPassword (bcryptHash new salt)
                               (withReset (sha256hex random) (now + 600000) user)) in
  (later < now + 600000 ->
     resetPassword later salt random new users1
     = (reply 200 true "Password reset successfully", save user2 users1)
     /\ password user2 = bcryptHash new salt
     /\ passwordResetToken user2 = None
     /\ map u_id (save user2 users1) = map u_id users
     /\ map email (save user2 users1) = map email users
     /\ resetPassword later salt random new (save user2 users1)
        = (reply 400 false "Invalid or expired reset token", save user2 users1))
  /\ (now + 600000 <= later ->
        resetPassword later salt random new users1
        = (reply 400 false "Invalid or expired reset token", users1)).
Proof.
  intros Hnd Hfind Hfresh Hvalid Hne users1 user2.
  set (user1 := withReset (sha256hex random) (now + 600000) user).
  assert (users1 = save user1 users) as Husers1.
  { unfold users1, forgotPassword. rewrite Hfind.
    destruct (isDevelopment env); reflexivity. }
  pose proof (find_some _ _ Hfind) as [Hin _].
  assert (map u_id users1 = map u_id users) as Hids
    by (rewrite Husers1; now apply save_frame with user).
  assert (forall v, In v users1 -> v = user1 \/ (In v users /\ u_id v <> u_id user))
    as Hcases.
  { intros v Hv. rewrite Husers1 in Hv. unfold save in Hv.
    apply in_map_iff in Hv as (w & Hw & Hwin).
    destruct (oidEqb (u_id w) (u_id user1)) eqn:He; [now left|].
    right. subst v. split; [exact Hwin|]. now apply oidEqb_neq in He. }
  assert (In user1 users1) as Hin1.
  { rewrite Husers1. unfold save. apply in_map_iff. exists user. split; [|exact Hin].
    assert (oidEqb (u_id user) (u_id user1) = true) as -> by now apply oidEqb_eq.
    reflexivity. }
  split.
  - intros Hlater.
    assert (find (fun u => match passwordResetToken u, passwordResetExpires u with
                           | Some h', Some e => String.eqb h' (sha256hex random) && (later <? e)
                           | _, _ => false
                           end) users1 = Some user1) as Hfound.
    { destruct (find _ users1) as [v|] eqn:Hf.
      - apply find_some in Hf as [Hv Hq].
        destruct (Hcases v Hv) as [->|[Hvin _]]; [reflexivity|].
        destruct (passwordResetToken v) as [h'|] eqn:Ht; [|discriminate].
        destruct (passwordResetExpires v); [|discriminate].
        apply andb_true_iff in Hq as [Hh _]. apply String.eqb_eq in Hh. subst h'.
        now destruct (Hfresh v Hvin).
      - apply (find_none _ _ Hf) in Hin1. cbn in Hin1.
        rewrite String.eqb_refl in Hin1. cbn in Hin1. lia. }
    assert (resetPassword later salt random new users1
            = (reply 200 true "Password reset successfully", save user2 users1)) as Hreset.
    { unfold resetPassword. rewrite Hfound. unfold setPassword.
      cbn [password user1 withReset].
      destruct (String.eqb_spec new (password user)) as [|_]; [contradiction|].
      now rewrite Hvalid. }
    split; [exact Hreset|]. split; [reflexivity|]. split; [reflexivity|].
    assert (List.NoDup (map u_id users1)) as Hnd1 by now rewrite Hids.
    split; [rewrite <- Hids; now apply save_frame with user1|].
    split.
    { rewrite (save_frame email user1 user2 users1 Hnd1 Hin1 eq_refl eq_refl).
      rewrite Husers1. now apply save_frame with user. }
    unfold resetPassword. rewrite (find_reset_none later); [reflexivity|].
    intros v Hv Ht. exfalso. unfold save in Hv.
    apply in_map_iff in Hv as (w & Hw & Hwin).
    destruct (oidEqb (u_id w) (u_id user2)) eqn:He.
    + subst v. discriminate.
    + subst v. destruct (Hcases w Hwin) as [->|[Hw _]].
      * assert (oidEqb (u_id user1) (u_id user2) = true) by now apply oidEqb_eq.
        congruence.
      * now destruct (Hfresh w Hw).
  - intros Hlate. unfold resetPassword. rewrite (find_reset_none later); [reflexivity|].
    intros v Hv Ht. destruct (Hcases v Hv) as [->|[Hvin _]].
    + exists (now + 600000). split; [reflexivity | exact Hlate].
    + now destruct (Hfresh v Hvin).
Qed.

End AccountProperties.

(** ** Accounts: the profile *)
Section Profiles.
Context `{RT : Runtime} `{BC : Bcrypt}.
Import AuthController UserModel.







(** X24: [getProfile] answers 200 exactly when a user with the caller's
    identifier is stored, and then returns that user's profile; the profile
    it returns never depends on the password or on the reset fields of the
    stored document. *)
Theorem getProfile_found_iff (uid : ObjectId) (users : list User) :
  (status (fst (getProfile uid users)) = 200 <->
   exists user, In user users /\ u_id user = uid)
  /\ (status (fst (getProfile uid users)) <> 200 ->
      getProfile uid users = (reply 404 false "User not found", None))
  /\ (forall user, find (fun u => oidEqb (u_id u) uid) users = Some user ->
      forall p h e,
        snd (getProfile uid users)
        = Some (getPublicProfile
                  (withReset h e (withPassword p user)))).
Proof.
  unfold getProfile. refine (conj _ (conj _ _)).
  - destruct (find _ users) as [user|] eqn:Hfind; cbn [fst status reply].
    + split; [intros _ | reflexivity]. apply find_some in Hfind as [Hin Hid].
      exists user. split; [exact Hin | now apply oidEqb_eq].
    + split; [discriminate|]. intros (user & Hin & Hid). exfalso.
      apply (find_none _ _ Hfind) in Hin. apply oidEqb_neq in Hin. now destruct Hin.
  - destruct (find _ users); cbn [fst status reply]; [intros H; now destruct H | reflexivity].
  - intros user ->. reflexivity.
Qed.

End Profiles.

(** ** The client: requests, sessions and the pages *)
Section ClientCalls.
Import Client.

Lemma refreshToken_sent (b : Browser) (net : list NetEvent) :
  exists reqs,
    sent (snd (fst (refreshToken b net))) = (sent b ++ reqs)%list
    /\ (length reqs <= 1)%nat
    /\ (forall r, In r reqs ->
          exists rt, getItem "refreshToken" b = Some rt /\ r = refreshRequest rt)
    /\ (length net - length (snd (refreshToken b net)) <= length reqs)%nat.
Proof.
  destruct (JsString.truthyOpt (getItem "refreshToken" b)) eqn:Ht.
  - unfold JsString.truthyOpt in Ht.
    destruct (getItem "refreshToken" b) as [rt|] eqn:Hrt; [|discriminate].
    exists [refreshRequest rt].
    rewrite (refreshToken_unfold rt b net Hrt Ht), fetch_refreshRequest.
    assert (forall r, In r [refreshRequest rt] ->
              exists rt', Some rt = Some rt' /\ r = refreshRequest rt') as Hreq
      by (intros r [<-|[]]; now exists rt).
    destruct net as [|[|r] net']; cbn [fst snd sent clearAndRedirect navigate removeItem
                                        record length];
      try (repeat split; [lia | exact Hreq | lia]).
    destruct (rs_ok r); [destruct (rs_json r)|];
      cbn [fst snd sent clearAndRedirect navigate removeItem setItem record length];
      (repeat split; [lia | exact Hreq | lia]).
  - exists []. rewrite (refreshToken_absent b net Ht). cbn [fst snd length].
    rewrite app_nil_r. repeat split; [lia | intros r [] | lia].
Qed.

(** what [handleResponse] sends and when it resolves *)
Lemma handleResponse_sent (fuel : nat) (b : Browser) (net : list NetEvent)
  (response : FetchResponse) :
  exists reqs,
    sent (snd (fst (handleResponse fuel b net response))) = (sent b ++ reqs)%list
    /\ (length reqs <= 1)%nat
    /\ (forall r, In r reqs ->
          exists rt, getItem "refreshToken" b = Some rt /\ r = refreshRequest rt)
    /\ (length net - length (snd (handleResponse fuel b net response)) <= length reqs)%nat
    /\ (forall data, fst (fst (handleResponse fuel b net response)) = Some (inr data) ->
          rs_ok response = true /\ rs_json response = Some data
          /\ snd (fst (handleResponse fuel b net response)) = b).
Proof.
  assert (exists reqs : list FetchRequest,
            sent b = (sent b ++ reqs)%list /\ (length reqs <= 1)%nat
            /\ (forall r, In r reqs ->
                  exists rt, getItem "refreshToken" b = Some rt /\ r = refreshRequest rt)
            /\ (length net - length net <= length reqs)%nat) as Hnone.
  { exists []. rewrite app_nil_r. cbn [length]. repeat split; [lia | intros r [] | lia]. }
  destruct (refreshToken_sent b net) as (reqs & Hs & Hl & Hr & Hn).
  destruct fuel as [|fuel]; cbn [handleResponse].
  all: destruct (rs_json response) as [data|] eqn:Hj;
    [|destruct Hnone as (rs & H1 & H2 & H3 & H4); exists rs; cbn [fst snd];
      repeat split; try assumption; discriminate].
  all: destruct (rs_ok response) eqn:Hok;
    [destruct Hnone as (rs & H1 & H2 & H3 & H4); exists rs; cbn [fst snd];
     repeat split; try assumption; congruence|].
  all: destruct (rs_status response =? 401);
    [|destruct Hnone as (rs & H1 & H2 & H3 & H4); exists rs; cbn [fst snd];
      repeat split; try assumption; discriminate].
  all: destruct (refreshToken b net) as [[[] b1] net1]; cbn [fst snd] in *;
    exists reqs; repeat split; try assumption; discriminate.
Qed.

(** X25: One [apiCall] sends at most two requests: the call itself, with the
    method and the body it was given and an [Authorization] header exactly
    when a non-empty token is stored, and after it at most one refresh
    request carrying the stored refresh token.  It takes from the network no
    more answers than it sent requests.  It resolves with data only when the
    first answer is OK and holds that data; then one request went out and
    the storage is as it was: a call that was answered with 401 never
    resolves, whatever the refresh brings. *)
Theorem apiCall_requests
  (b : Browser) (net : list NetEvent) (endpoint : string)
  (method : option string) (body : option BodyInit) :
  let config := {| fr_url := (API_BASE_URL ++ endpoint)%string; fr_method := method;
                   fr_authorization :=
                     match getItem "token" b with
                     | Some token =>
                         if JsString.truthy token then Some ("Bearer " ++ token)%string
                         else None
                     | None => None
                     end;
                   fr_body := body |} in
  let out := apiCall b net endpoint method body in
  exists reqs,
    sent (snd (fst out)) = (sent b ++ reqs)%list
    /\ (length reqs <= 2)%nat
    /\ (forall r, nth_error reqs 0 = Some r -> r = config)
    /\ (forall r, nth_error reqs 1 = Some r ->
          exists rt, getItem "refreshToken" b = Some rt /\ r = refreshRequest rt)
    /\ (length net - length (snd out) <= length reqs)%nat
    /\ (forall data, fst (fst out) = Some (inr data) ->
          exists r, hd_error net = Some (Reply r)
                    /\ rs_ok r = true /\ rs_json r = Some data
                    /\ reqs = [config]
                    /\ localStorage (snd (fst out)) = localStorage b).
Proof.
  intros config out. unfold out, apiCall. fold (getAuthHeaders b).
  change {| fr_url := (API_BASE_URL ++ endpoint)%string; fr_method := method;
            fr_authorization := getAuthHeaders b; fr_body := body |} with config.
  unfold fetch.
  destruct ((String.eqb (default "GET" (fr_method config)) "GET"
             || String.eqb (default "GET" (fr_method config)) "HEAD")
            && match fr_body config with Some _ => true | None => false end).
  { exists []. cbn [fst snd length]. rewrite app_nil_r.
    repeat split; try lia; try discriminate. }
  destruct net as [|[|response] net1].
  1, 2: exists [config]; cbn [fst snd sent record length nth_error];
    repeat split; try lia; try discriminate; now intros r [= <-].
  destruct (handleResponse_sent (length net1) (record config b) net1 response)
    as (reqs & Hs & Hl & Hr & Hn & Hdata).
  exists (config :: reqs). cbn [sent record] in Hs.
  refine (conj _ (conj _ (conj _ (conj _ (conj _ _))))).
  - rewrite Hs. now rewrite <- app_assoc.
  - cbn [length]. lia.
  - now intros r [= <-].
  - cbn [nth_error]. intros r Hr1. apply Hr.
    destruct reqs as [|r0 reqs]; [discriminate|]. injection Hr1 as ->. now left.
  - cbn [length] in *. lia.
  - intros data Hd. destruct (Hdata data Hd) as (Hok & Hj & Hb).
    exists response. cbn [hd_error]. repeat split; try assumption.
    + rewrite Hb in Hs. cbn [sent record] in Hs.
      destruct reqs as [|r0 reqs]; [reflexivity|].
      apply (f_equal (@length _)) in Hs.
      rewrite !length_app in Hs. cbn [length] in Hs. lia.
    + now rewrite Hb.
Qed.

(** the 401 branch of [handleResponse], for any recursion budget *)
Lemma handleResponse_401 (fuel : nat) (b : Browser) (net : list NetEvent)
  (r : FetchResponse) (data : gmap string string) :
  rs_ok r = false -> rs_status r = 401 -> rs_json r = Some data ->
  handleResponse fuel b net r
  = match refreshToken b net with
    | (true, b1, net1) =>
        (match fuel with O => None | S _ => Some (inl TypeError) end, b1, net1)
    | (false, b1, net1) => (Some (inl (ApiError (errorMessage data) r data)), b1, net1)
    end.
Proof.
  intros Hok Hst Hj.
  destruct fuel; cbn [handleResponse]; rewrite Hj, Hok, Hst; cbn [Z.eqb Pos.eqb];
    destruct (refreshToken b net) as [[[] b1] net1]; reflexivity.
Qed.

Lemma clearAuth_storage (b : Browser) :
  getToken (clearAuth b) = None /\ getRefreshToken (clearAuth b) = None
  /\ getUser (clearAuth b) = None
  /\ (forall k, k <> "token" -> k <> "refreshToken" -> k <> "user" ->
        getItem k (clearAuth b) = getItem k b).
Proof.
  unfold getToken, getRefreshToken, getUser, getItem, clearAuth, removeItem.
  cbn [localStorage].
  assert (delete "user" (delete "refreshToken" (delete "token" (localStorage b)))
            !! "user" = None) as Hu by apply lookup_delete_eq.
  rewrite Hu. repeat split.
  - rewrite lookup_delete_ne, lookup_delete_ne by discriminate. apply lookup_delete_eq.
  - rewrite lookup_delete_ne by discriminate. apply lookup_delete_eq.
  - intros k H1 H2 H3. now rewrite !lookup_delete_ne by congruence.
Qed.

(** X26: A page that loads its data and is answered with 401 never shows data.
    Unless the refresh succeeds, the page ends without a session and at "/":
    with no refresh token stored [handleResponse] leaves the session alone,
    and it is the page's own handler that clears it.  When the refresh
    succeeds the new tokens are stored, the retried request is refused before
    it is sent, and the page stays where it is, with the stored user
    untouched. *)
Theorem load_unauthorized
  (endpoint : string) (b : Browser) (r : FetchResponse) (net : list NetEvent)
  (data : gmap string string) :
  rs_ok r = false -> rs_status r = 401 -> rs_json r = Some data ->
  let out := Pages.load endpoint b (Reply r :: net) in
  let b' := fst (fst out) in
  snd out = None
  /\ (JsString.truthyOpt (getItem "refreshToken" b) = false \/ refreshFails net = true ->
        getToken b' = None /\ getRefreshToken b' = None /\ getUser b' = None
        /\ href b' = "/")
  /\ (forall r2 d rest,
        JsString.truthyOpt (getItem "refreshToken" b) = true ->
        net = Reply r2 :: rest -> rs_ok r2 = true -> rs_json r2 = Some d ->
        getToken b' = Some (default "undefined" (d !! "token"))
        /\ getRefreshToken b' = Some (default "undefined" (d !! "refreshToken"))
        /\ getUser b' = getUser b /\ href b' = href b
        /\ length (sent b') = (length (sent b) + 2)%nat
        /\ snd (fst out) = rest).
Proof.
  intros Hok Hst Hj out b'.
  set (config := {| fr_url := (API_BASE_URL ++ endpoint)%string; fr_method := None;
                    fr_authorization := getAuthHeaders b; fr_body := None |}).
  assert (apiCall b (Reply r :: net) endpoint None None
          = handleResponse (length net) (record config b) net r) as Hcall by reflexivity.
  rewrite (handleResponse_401 _ _ _ _ _ Hok Hst Hj) in Hcall.
  assert (forall b1, Pages.onError (ApiError (errorMessage data) r data) b1
                     = navigate "/" (clearAuth b1)) as Hcatch
    by (intros b1; unfold Pages.onError; now rewrite Hst).
  assert (forall b1, getToken (navigate "/" (clearAuth b1)) = None
                     /\ getRefreshToken (navigate "/" (clearAuth b1)) = None
                     /\ getUser (navigate "/" (clearAuth b1)) = None
                     /\ href (navigate "/" (clearAuth b1)) = "/") as Hcleared.
  { intros b1. destruct (clearAuth_storage b1) as (H1 & H2 & H3 & _).
    repeat split; assumption. }
  destruct (JsString.truthyOpt (getItem "refreshToken" b)) eqn:Ht.
  - unfold JsString.truthyOpt in Ht.
    destruct (getItem "refreshToken" b) as [rt|] eqn:Hrt; [|discriminate].
    assert (getItem "refreshToken" (record config b) = Some rt) as Hrt' by exact Hrt.
    destruct (refreshFails net) eqn:Hf.
    + rewrite (refreshToken_fails rt _ net Hrt' Ht Hf) in Hcall.
      unfold b', out, Pages.load. rewrite Hcall, Hcatch. cbn [fst snd].
      split; [reflexivity|]. split; [intros _; apply Hcleared|].
      intros r2 d rest _ -> Hok2 Hj2. cbn in Hf. rewrite Hok2, Hj2 in Hf. discriminate.
    + destruct net as [|[|r2] rest]; try discriminate.
      cbn in Hf. apply orb_false_iff in Hf as [Hok2 Hj2].
      apply negb_false_iff in Hok2.
      destruct (rs_json r2) as [d|] eqn:Hd; [|discriminate].
      rewrite (refreshToken_succeeds rt _ r2 d rest Hrt' Ht Hok2 Hd) in Hcall.
      cbn [length] in Hcall.
      unfold b', out, Pages.load. rewrite Hcall. cbn [fst snd Pages.onError].
      split; [reflexivity|]. split; [intros [|]; discriminate|].
      intros r2' d' rest' _ [= <- <-] _ Hd'. rewrite Hd in Hd'. injection Hd' as <-.
      unfold getToken, getRefreshToken, getUser, getItem, refreshed, setItem, record.
      cbn [localStorage href sent].
      rewrite lookup_insert_ne, lookup_insert_eq by discriminate.
      rewrite lookup_insert_eq.
      rewrite !lookup_insert_ne by discriminate.
      repeat split. rewrite !length_app. cbn [length]. lia.
  - rewrite (refreshToken_absent _ net) in Hcall by exact Ht.
    unfold b', out, Pages.load. rewrite Hcall, Hcatch. cbn [fst snd].
    split; [reflexivity|]. split; [intros _; apply Hcleared|].
    intros r2 d rest Habs. discriminate.
Qed.

(** X27: [tokenUtils]: what is stored is what is read back, and [clearAuth]
    removes the token, the refresh token and the user, and only those.
    After [clearAuth] the client is not authenticated and sends no
    [Authorization] header; after [setTokens] it is authenticated exactly
    when the token is not empty and its [exp] claim, in seconds, lies after
    the clock. *)
Theorem tokenUtils_round_trip
  (payloadExp : string -> option Z) (now : Z) (token rt user : string) (b : Browser) :
  getToken (setTokens token rt b) = Some token
  /\ getRefreshToken (setTokens token rt b) = Some rt
  /\ getUser (setTokens token rt b) = getUser b
  /\ getUser (setUser user b) = (if JsString.truthy user then Some user else None)
  /\ getAuthHeaders (setTokens token rt b)
     = (if JsString.truthy token then Some ("Bearer " ++ token)%string else None)
  /\ (isAuthenticated payloadExp now (setTokens token rt b) = true <->
      token <> "" /\ exists exp, payloadExp token = Some exp /\ now < exp * 1000)
  /\ getToken (clearAuth b) = None /\ getRefreshToken (clearAuth b) = None
  /\ getUser (clearAuth b) = None
  /\ getAuthHeaders (clearAuth b) = None
  /\ isAuthenticated payloadExp now (clearAuth b) = false
  /\ (forall k, k <> "token" -> k <> "refreshToken" -> k <> "user" ->
        getItem k (clearAuth b) = getItem k b).
Proof.
  destruct (clearAuth_storage b) as (Hc1 & Hc2 & Hc3 & Hc4).
  assert (getItem "token" (setTokens token rt b) = Some token) as Ht.
  { unfold getItem, setTokens, setItem. cbn [localStorage].
    rewrite lookup_insert_ne by discriminate. apply lookup_insert_eq. }
  refine (conj Ht (conj _ (conj _ (conj _ (conj _ (conj _
            (conj Hc1 (conj Hc2 (conj Hc3 (conj _ (conj _ Hc4))))))))))).
  - unfold getRefreshToken, getItem, setTokens, setItem. cbn [localStorage].
    apply lookup_insert_eq.
  - unfold getUser, getItem, setTokens, setItem. cbn [localStorage].
    now rewrite !lookup_insert_ne by discriminate.
  - unfold getUser, getItem, setUser, setItem. cbn [localStorage].
    now rewrite lookup_insert_eq.
  - unfold getAuthHeaders. now rewrite Ht.
  - unfold isAuthenticated. rewrite Ht. unfold JsString.truthy.
    destruct (String.eqb_spec token "") as [->|Hne]; cbn [negb].
    + split; [discriminate | now intros [H _]].
    + destruct (payloadExp token) as [exp|].
      * rewrite Z.ltb_lt. split.
        -- intros H. split; [exact Hne | now exists exp].
        -- now intros (_ & exp' & [= <-] & H).
      * split; [discriminate | intros (_ & exp & H & _); discriminate].
  - unfold getAuthHeaders. unfold getToken in Hc1. now rewrite Hc1.
  - unfold isAuthenticated. unfold getToken in Hc1. now rewrite Hc1.
Qed.

(** X28: The header the client builds from its storage, seen by the middleware of
    the server: without a non-empty stored token the request is denied with
    "No token, authorization denied"; with one, the middleware verifies the
    stored token up to its first space. *)
Theorem stored_token_reaches_middleware
  (decode : string -> AuthController.Presented) (env : AuthController.Env) (now : Z)
  (b : Browser) :
  AuthMiddleware.authMiddleware decode env now (getAuthHeaders b)
  = match getItem "token" b with
    | Some token =>
        if JsString.truthy token
        then AuthMiddleware.authorize env now (decode (hd "" (JsText.split " " token)))
        else inl AuthMiddleware.denied
    | None => inl AuthMiddleware.denied
    end.
Proof.
  unfold getAuthHeaders.
  destruct (getItem "token" b) as [token|]; [|reflexivity].
  destruct (JsString.truthy token); [|reflexivity].
  unfold AuthMiddleware.authMiddleware.
  assert (JsText.startsWith "Bearer " ("Bearer " ++ token) = true) as ->
    by (apply startsWith_app; now exists token).
  rewrite second_piece. rewrite !append_String. reflexivity.
Qed.

End ClientCalls.

(** ** The transaction form *)
Section Form.
Import JsString TransactionForm.

Lemma trimEnd_idempotent (s : string) : trimEnd (trimEnd s) = trimEnd s.
Proof.
  induction s as [|c s IH]; [reflexivity|]. cbn [trimEnd].
  destruct (isSpace c && String.eqb (trimEnd s) "") eqn:Hc; [reflexivity|].
  cbn [trimEnd]. now rewrite IH, Hc.
Qed.

Lemma trimStart_head (s : string) :
  trimStart s = "" \/ exists c s', trimStart s = String c s' /\ isSpace c = false.
Proof.
  induction s as [|c s IH]; [now left|]. cbn [trimStart].
  destruct (isSpace c) eqn:Hc; [exact IH|]. right. now exists c, s.
Qed.

Lemma trim_idempotent (s : string) : trim (trim s) = trim s.
Proof.
  unfold trim. destruct (trimStart_head s) as [->|(c & s' & -> & Hc)]; [reflexivity|].
  cbn [trimEnd]. rewrite Hc. cbn [andb trimStart]. rewrite Hc.
  cbn [trimEnd]. rewrite Hc. cbn [andb]. now rewrite trimEnd_idempotent.
Qed.

(** X29: The tags the form submits are the pieces of the input between commas,
    trimmed, without the empty ones: each is non-empty and has no white space
    around it.  The server trims the tags it stores, so a transaction created
    from them holds exactly the tags that were sent. *)
Theorem submittedTags_stored_as_sent (input : string) :
  Forall (fun t => t <> "" /\ trim t = t) (submittedTags input)
  /\ (length (submittedTags input) <= length (JsText.split "," input))%nat
  /\ (forall t, In t (submittedTags input) <->
        t <> "" /\ exists piece, In piece (JsText.split "," input) /\ t = trim piece)
  /\ (forall now newId uid b t,
        b_tags b = Some (submittedTags input) ->
        newTransaction now newId uid b = Some t ->
        tags t = submittedTags input).
Proof.
  assert (forall t, In t (submittedTags input) <->
            t <> "" /\ exists piece, In piece (JsText.split "," input) /\ t = trim piece)
    as Hin.
  { intros t. unfold submittedTags, truthy.
    destruct (String.eqb_spec input "") as [->|Hne]; cbn [negb].
    - split; [intros [] |]. intros (Ht & piece & [<-|[]] & ->). now destruct Ht.
    - rewrite filter_In, in_map_iff. split.
      + intros [(piece & <- & Hp) Ht]. split.
        * intros He. rewrite He in Ht. discriminate.
        * now exists piece.
      + intros (Ht & piece & Hp & ->). split; [now exists piece|].
        now destruct (String.eqb_spec (trim piece) "") as [He|]. }
  assert (Forall (fun t => t <> "" /\ trim t = t) (submittedTags input)) as Hall.
  { apply List.Forall_forall. intros t Ht. apply Hin in Ht as (Hne & piece & _ & ->).
    split; [exact Hne | apply trim_idempotent]. }
  refine (conj Hall (conj _ (conj Hin _))).
  - unfold submittedTags. destruct (truthy input); [|cbn; lia].
    etransitivity; [apply List.filter_length_le|]. now rewrite length_map.
  - intros now newId uid b t Hb Hnew. unfold newTransaction in Hnew.
    bind_inv Hnew ty Hty. bind_inv Hnew a Ha. bind_inv Hnew c Hc.
    bind_inv Hnew d Hd. bind_inv Hnew ts Hts. bind_inv Hnew i Hi.
    injection Hnew as <-. cbn [tags].
    rewrite Hb in Hts. cbn [default from_option id] in Hts.
    apply check_Some in Hts as [<- _].
    clear -Hall. induction Hall as [|x l [_ Hx] _ IH]; [reflexivity|].
    cbn [map]. now rewrite Hx, IH.
Qed.

End Form.

(** ** The further properties on concrete stores *)

Lemma listed_transactions_satisfy_the_query_witness :
  In (Demo.tx Demo.alice "64a000000000000000000011" Expense (85 # 2) 1705276800000)
     Demo.ledger
  /\ typeName (type (Demo.tx Demo.alice "64a000000000000000000011" Expense (85 # 2)
                       1705276800000)) = "expense".
Proof.
  destruct (listed_transactions_satisfy_the_query (RT := Demo.runtime) Demo.alice
              Cases.expensesOnly Demo.ledger
              (Demo.tx Demo.alice "64a000000000000000000011" Expense (85 # 2)
                 1705276800000))
    as (Hin & _ & Hty & _).
  - vm_compute. auto.
  - split; [exact Hin|]. apply (Hty "expense"); reflexivity.
Defined.

Lemma pages_out_of_range_witness :
  View.itemsOf (getTransactions (RT := Demo.runtime) Demo.alice
                  (setPage (Some "5") Demo.twoPerPage) Demo.ledger) = []
  /\ getTransactions (RT := Demo.runtime) Demo.alice
       (setPage (Some "0") Demo.twoPerPage) Demo.ledger
     = failure 500 "Error fetching transactions" (PError QueryError).
Proof.
  destruct (pages_out_of_range (RT := Demo.runtime) Demo.alice Demo.twoPerPage Demo.ledger
              (Demo.ownFilter Demo.alice) 2 (Some "5") 5 eq_refl eq_refl ltac:(lia) eq_refl)
    as [Hbeyond _].
  destruct (pages_out_of_range (RT := Demo.runtime) Demo.alice Demo.twoPerPage Demo.ledger
              (Demo.ownFilter Demo.alice) 2 (Some "0") 0 eq_refl eq_refl ltac:(lia) eq_refl)
    as [_ Hzero].
  split.
  - apply Hbeyond. vm_compute. reflexivity.
  - apply Hzero. lia.
Defined.



Lemma getUserStats_agrees_witness :
  exists s,
    View.statsOf (getTransactionStats (RT := Demo.runtime) 1705312800000 Demo.alice None
                    Demo.ledger) = Some s
    /\ totalIncome (getUserStats Demo.alice Demo.ledger) = totalIncome s
    /\ totalExpenses (getUserStats Demo.alice Demo.ledger) = totalExpenses s
    /\ totalTransactions (getUserStats Demo.alice Demo.ledger) = totalTransactions s
    /\ avgTransactionAmount (getUserStats Demo.alice Demo.ledger) = avgTransactionAmount s
    /\ netAmount (getUserStats Demo.alice Demo.ledger) = netAmount s.
Proof.
  apply (getUserStats_agrees (RT := Demo.runtime) 1705312800000 Demo.alice None
           Demo.ledger).
  reflexivity.
Defined.

Lemma members_identifiers_distinct : List.NoDup (map u_id Cases.members).
Proof.
  repeat constructor; cbn; intuition discriminate.
Qed.


Lemma login_session_witness :
  exists access refresh users',
    AuthController.login (BC := Cases.bcrypt) (Demo.env "production") 1705312800000
      "carol@example.com" "hunter22" Cases.members
    = ({| AuthController.status := 200; AuthController.success := true;
          AuthController.message := "Login successful";
          AuthController.token := Some access;
          AuthController.refreshToken_ := Some refresh;
          AuthController.resetToken := None |},
       Some (UserModel.getPublicProfile
               (UserModel.withLastLogin 1705312800000
                  (Cases.member Cases.carol "Carol" "carol@example.com" "hunter22"))),
       users')
    /\ AuthMiddleware.authorize (Demo.env "production") 1705316400000
         (AuthController.Jwt access) = inr Cases.carol
    /\ AuthController.status
         (AuthController.refreshToken (Demo.env "production") 1705316400000
            (AuthController.Jwt refresh) users') = 200.
Proof.
  destruct (login_session (BC := Cases.bcrypt) (Demo.env "production") 1705312800000
              1705316400000 "carol@example.com" "hunter22" Cases.members
              (Cases.member Cases.carol "Carol" "carol@example.com" "hunter22")
              members_identifiers_distinct eq_refl eq_refl)
    as (access & refresh & users' & Hlogin & _ & _ & _ & _ & _ & Haccess & Hrefresh).
  exists access, refresh, users'. split; [exact Hlogin|]. split.
  - apply Haccess. vm_compute. reflexivity.
  - apply Hrefresh. vm_compute. reflexivity.
Defined.


Lemma register_then_login_witness :
  exists profile users',
    AuthController.login (BC := Cases.bcrypt) (Demo.env "production") 1705316400000
      "erin@example.com" "password1"
      (snd (AuthController.register (BC := Cases.bcrypt) (Demo.env "production")
              1705312800000 (Oid "64e000000000000000000005") "s2" "Erin"
              "erin@example.com" "password1" Cases.members))
    = (AuthController.withTokens 200 "Login successful" (Demo.env "production")
         1705316400000 (Oid "64e000000000000000000005"),
       Some profile, users')
    /\ UserModel.p_id profile = Oid "64e000000000000000000005"
    /\ UserModel.p_email profile = "erin@example.com"
    /\ UserModel.p_lastLogin profile = Some 1705316400000.
Proof.
  apply (register_then_login (BC := Cases.bcrypt) (Demo.env "production") 1705312800000
           1705316400000 (Oid "64e000000000000000000005") "s2" "Erin" "erin@example.com"
           "password1" Cases.members); vm_compute; reflexivity.
Defined.

Lemma changePassword_outcomes_witness :
  AuthController.changePassword (BC := Cases.bcrypt) "s2" Cases.carol "guess123"
    "password2" Cases.members
  = (AuthController.reply 400 false "Current password is incorrect", Cases.members)
  /\ AuthController.status
       (fst (fst (AuthController.login (BC := Cases.bcrypt) (Demo.env "production")
                    1705316400000 "carol@example.com" "password2"
                    (snd (AuthController.changePassword (BC := Cases.bcrypt) "s2"
                            Cases.carol "hunter22" "password2" Cases.members))))) = 200.
Proof.
  destruct (changePassword_outcomes (BC := Cases.bcrypt) (Demo.env "production")
              1705316400000 "s2" Cases.carol "guess123" "password2" "carol@example.com"
              Cases.members
              (Cases.member Cases.carol "Carol" "carol@example.com" "hunter22")
              members_identifiers_distinct eq_refl) as [Hwrong _].
  destruct (changePassword_outcomes (BC := Cases.bcrypt) (Demo.env "production")
              1705316400000 "s2" Cases.carol "hunter22" "password2" "carol@example.com"
              Cases.members
              (Cases.member Cases.carol "Carol" "carol@example.com" "hunter22")
              members_identifiers_distinct eq_refl) as [_ Hright].
  split; [apply Hwrong; reflexivity|].
  destruct Hright as (Hchanged & _ & _ & _ & Hlogin);
    [reflexivity | reflexivity | discriminate |].
  rewrite Hchanged. cbn [snd]. apply Hlogin; reflexivity.
Defined.

Lemma forgot_then_reset_witness :
  fst (AuthController.resetPassword (RT := Demo.runtime) (BC := Cases.bcrypt)
         1705312900000 "s2" "c0ffee" "password2"
         (snd (AuthController.forgotPassword (RT := Demo.runtime) (Demo.env "production")
                 1705312800000 "c0ffee" "carol@example.com" Cases.members)))
  = AuthController.reply 200 true "Password reset successfully"
  /\ fst (AuthController.resetPassword (RT := Demo.runtime) (BC := Cases.bcrypt)
            1705313400000 "s2" "c0ffee" "password2"
            (snd (AuthController.forgotPassword (RT := Demo.runtime)
                    (Demo.env "production") 1705312800000 "c0ffee" "carol@example.com"
                    Cases.members)))
     = AuthController.reply 400 false "Invalid or expired reset token".
Proof.
  assert (forall v, In v Cases.members ->
            passwordResetToken v <> Some (sha256hex (Runtime := Demo.runtime) "c0ffee"))
    as Hfresh by (intros v [<-|[<-|[]]]; discriminate).
  pose proof (forgot_then_reset (RT := Demo.runtime) (BC := Cases.bcrypt)
                (Demo.env "production") 1705312800000 1705312900000 "s2" "c0ffee"
                "carol@example.com" "password2" Cases.members
                (Cases.member Cases.carol "Carol" "carol@example.com" "hunter22")
                members_identifiers_distinct eq_refl Hfresh eq_refl
                ltac:(discriminate)) as Hsoon.
  pose proof (forgot_then_reset (RT := Demo.runtime) (BC := Cases.bcrypt)
                (Demo.env "production") 1705312800000 1705313400000 "s2" "c0ffee"
                "carol@example.com" "password2" Cases.members
                (Cases.member Cases.carol "Carol" "carol@example.com" "hunter22")
                members_identifiers_distinct eq_refl Hfresh eq_refl
                ltac:(discriminate)) as Hlate.
  cbv zeta in Hsoon, Hlate.
  destruct Hsoon as [Hsoon _]. destruct Hlate as [_ Hlate].
  destruct Hsoon as (Hreset & _); [lia|].
  split.
  - now rewrite Hreset.
  - rewrite Hlate; [reflexivity | lia].
Defined.


Lemma load_unauthorized_witness :
  Client.href (fst (fst (Pages.load "/auth/profile" Demo.staleSession
                           [Client.Reply Demo.unauthorized]))) = "/"
  /\ Client.href (fst (fst (Pages.load "/auth/profile" Demo.fullSession
                              [Client.Reply Demo.unauthorized;
                               Client.Reply Demo.freshTokens]))) = "/dashboard".
Proof.
  destruct (load_unauthorized "/auth/profile" Demo.staleSession Demo.unauthorized [] _
              eq_refl eq_refl eq_refl) as (_ & Hcleared & _).
  destruct (load_unauthorized "/auth/profile" Demo.fullSession Demo.unauthorized
              [Client.Reply Demo.freshTokens] _ eq_refl eq_refl eq_refl)
    as (_ & _ & Hkept).
  split.
  - apply Hcleared. left. reflexivity.
  - destruct (Hkept Demo.freshTokens _ [] eq_refl eq_refl eq_refl eq_refl)
      as (_ & _ & _ & Hhref & _).
    exact Hhref.
Defined.

Lemma login_fails_uniformly_witness :
  AuthController.login (BC := Cases.bcrypt) (Demo.env "production") 1705312800000
    "carol@example.com" "letmein1" Cases.members
  = (AuthController.reply 401 false "Invalid email or password.", None, Cases.members)
  /\ AuthController.login (BC := Cases.bcrypt) (Demo.env "production") 1705312800000
       "nobody@example.com" "letmein1" Cases.members
     = (AuthController.reply 401 false "Invalid email or password.", None, Cases.members).
Proof.
  destruct (login_fails_uniformly (BC := Cases.bcrypt) (Demo.env "production")
              1705312800000 "carol@example.com" "letmein1" Cases.members eq_refl)
    as [_ Hwrong].
  destruct (login_fails_uniformly (BC := Cases.bcrypt) (Demo.env "production")
              1705312800000 "nobody@example.com" "letmein1" Cases.members eq_refl)
    as [_ Hunknown].
  split; [apply Hwrong | apply Hunknown]; discriminate.
Defined.
